(** * mcp-server-git: the tool dispatcher and its operation layer

    A shallow embedding of [src/git/src/mcp_server_git/server.py].

    The server is a thin, dynamically typed facade over two collaborators
    that are not part of the repository: the GitPython library (and the git
    executable behind it) and the MCP session.  Both are kept abstract: a
    [Platform] answers read-only queries and executes commands on a world
    it owns.  Every function of [server.py] is a program in a state and
    exception monad over such a platform, and the theorems hold for every
    platform unless they name a contract of the platform as a hypothesis. *)

From stdpp Require Import base strings gmap list pretty.
From Stdlib.Strings Require Import Byte Ascii.

Set Warnings "-register-all".

Local Open Scope string_scope.
Local Open Scope list_scope.

(** ** Python values *)

(** The values that travel through the dispatcher: the JSON values of the
    argument mapping (without non-integral numbers), [None], and [bytes],
    which the operation layer tests for with [isinstance(x, bytes)]. *)
Inductive pyval : Type :=
| VNone
| VBool (b : bool)
| VInt (z : Z)
| VStr (s : string)
| VBytes (b : list byte)
| VList (l : list pyval)
| VDict (d : list (string * pyval)).

(** Python's truth value testing, as used by [if x:] and [and]. *)
Definition truthy (v : pyval) : bool :=
  match v with
  | VNone => false
  | VBool b => b
  | VInt z => negb (z =? 0)%Z
  | VStr s => negb (String.eqb s "")
  | VBytes b => match b with [] => false | _ => true end
  | VList l => match l with [] => false | _ => true end
  | VDict d => match d with [] => false | _ => true end
  end.

(** ** Exceptions *)

(** An exception carries the names of its class and of the classes it
    derives from (most derived first), which is what an [except] clause
    inspects, and the text that [str(e)] gives. *)
Record exn := Exn { exn_mro : list string; exn_str : string }.

Definition isinstance (e : exn) (classes : list string) : bool :=
  existsb (fun c => existsb (String.eqb c) (exn_mro e)) classes.

Definition KeyError (key : string) : exn :=
  Exn ["KeyError"; "LookupError"; "Exception"] ("'" +:+ key +:+ "'").
Definition IndexError (msg : string) : exn :=
  Exn ["IndexError"; "LookupError"; "Exception"] msg.
Definition ValueError (msg : string) : exn :=
  Exn ["ValueError"; "Exception"] msg.
Definition TypeError (msg : string) : exn :=
  Exn ["TypeError"; "Exception"] msg.
Definition AssertionError (msg : string) : exn :=
  Exn ["AssertionError"; "Exception"] msg.
Definition AttributeError (msg : string) : exn :=
  Exn ["AttributeError"; "Exception"] msg.
Definition StopIteration : exn :=
  Exn ["StopIteration"; "Exception"] "".
Definition UnicodeDecodeError (msg : string) : exn :=
  Exn ["UnicodeDecodeError"; "UnicodeError"; "ValueError"; "Exception"] msg.
Definition GitCommandError (text : string) : exn :=
  Exn ["GitCommandError"; "CommandError"; "GitError"; "Exception"] text.
Definition InvalidGitRepositoryError (msg : string) : exn :=
  Exn ["InvalidGitRepositoryError"; "GitError"; "Exception"] msg.
Definition NoSuchPathError (msg : string) : exn :=
  Exn ["NoSuchPathError"; "GitError"; "OSError"; "Exception"] msg.

Inductive result (A : Type) : Type :=
| Ok (a : A)
| Raise (e : exn).
Arguments Ok {A} a.
Arguments Raise {A} e.

(** ** The objects of GitPython and of the MCP session *)

Record Repo := { working_dir : string }.

(** A [Head] or any other [Reference]; [str(ref)] is its name. *)
Record Reference := { ref_name : pyval }.

(** An attribute of a list object itself: a bound method such as [append],
    a slot such as [_id_attr].  It is known by the name it was found under
    and by the name of its class. *)
Record Attribute := { attribute_name : string; class_name : string }.

(** What a subscript of [repo.heads] or [repo.refs] evaluates to.  A [str]
    index is resolved with [getattr] on the list object, so besides an item
    of the list it can be an attribute of the list. *)
Inductive Object : Type :=
| Ref (r : Reference)
| Attr (a : Attribute).

Coercion Ref : Reference >-> Object.

Inductive Commit : Type :=
  mkCommit { hexsha : string;
             author : string;
             authored_datetime : string;
             message : string;
             parents : list Commit }.

Record Remote := { remote_name : string; url : string }.

Record Diff := { a_path : pyval; b_path : pyval; diff : pyval }.

(** The [other] argument of [Commit.diff]. *)
Inductive DiffOther : Type :=
| OtherCommit (c : Commit)
| NULL_TREE.

Record Root := { uri_path : option string }.

(** A positional argument of [repo.git.<command>(...)]. *)
Inductive garg : Type :=
| GVal (v : pyval)
| GRef (o : Object).

(** The custom environment of a [Git] command object. *)
Abbreviation Env := (gmap string pyval).

(** Read-only requests. *)
Inductive Query : Type -> Type :=
| Repo_init (path : option string) : Query Repo
| Repo_heads (r : Repo) : Query (list Reference)
| Repo_refs (r : Repo) : Query (list Reference)
| Repo_active_branch (r : Repo) : Query Reference
| Repo_remotes (r : Repo) : Query (list Remote)
| Repo_remote (r : Repo) (name : pyval) : Query Remote
| Repo_commit (r : Repo) (rev : pyval) : Query Commit
| Repo_iter_commits (r : Repo) (max_count : pyval) : Query (list Commit)
| Commit_diff (self : Commit) (other : DiffOther) : Query (list Diff)
| Session_is_ServerSession : Query bool
| Session_check_roots_capability : Query bool.

(** Requests that may change the repository, its configuration, the remote
    side, or that talk to the client. *)
Inductive Cmd : Type -> Type :=
| Git (r : Repo) (command : string) (args : list garg) : Cmd pyval
| Index_commit (r : Repo) (message : pyval) : Cmd Commit
| Index_add (r : Repo) (files : pyval) : Cmd unit
| Index_reset (r : Repo) : Cmd unit
| Create_head (r : Repo) (name : pyval) (base : Object) : Cmd Reference
| Remote_push (r : Repo) (rm : Remote) (refspec : option pyval) : Cmd unit
| Remote_fetch (r : Repo) (rm : Remote) : Cmd unit
| Config_set_value (r : Repo) (section option value : string) : Cmd unit
| Create_remote (r : Repo) (name url : pyval) : Cmd Remote
| Delete_remote (r : Repo) (rm : Remote) : Cmd unit
| Session_list_roots : Cmd (list Root).

(** What the server runs on: the toolchain, the session, the two Python
    builtins whose results the server only passes along, and the attributes
    that normal attribute lookup ([object.__getattribute__]) finds on an
    [IterableList]: the methods of [list] and of the class, its slots. *)
Record Platform := {
  World : Type;
  query : forall X, World -> Query X -> result X;
  exec : forall X, World -> Env -> Cmd X -> World * result X;
  repr : pyval -> string;
  utf8_decode : list byte -> option string;
  list_getattribute : string -> option Attribute
}.
Arguments query p {X} w q : rename.
Arguments exec p {X} w env c : rename.

(** One executed command, with the environment it ran under. *)
Inductive Event : Type :=
| Ev {X : Type} (env : Env) (c : Cmd X).

(** ** Builtins on strings and sequences *)

(** [needle in haystack] on [str]. *)
Fixpoint contains (needle haystack : string) : bool :=
  String.prefix needle haystack ||
  match haystack with
  | EmptyString => false
  | String _ rest => contains needle rest
  end.

(** [s.startswith(prefix)]. *)
Definition startswith (s prefix : string) : bool := String.prefix prefix s.

(** [sep.join(items)] for items that are [str] by construction. *)
Definition join (sep : string) (items : list string) : string :=
  String.concat sep items.

(** [sep.join(items)] in general: an item that is not a [str] is a
    [TypeError]. *)
Fixpoint all_str (items : list pyval) : option (list string) :=
  match items with
  | [] => Some []
  | VStr s :: rest => option_map (cons s) (all_str rest)
  | _ :: _ => None
  end.

Definition join_values (sep : string) (items : list pyval) : result string :=
  match all_str items with
  | Some l => Ok (join sep l)
  | None => Raise (TypeError "sequence item: expected str instance")
  end.

(** [list.__getitem__] with an integer index; negative indices count from
    the end. *)
Definition list_getitem {A} (l : list A) (i : Z) : result A :=
  let j := if (i <? 0)%Z then (Z.of_nat (length l) + i)%Z else i in
  if (j <? 0)%Z then Raise (IndexError "list index out of range")
  else match l !! Z.to_nat j with
       | Some x => Ok x
       | None => Raise (IndexError "list index out of range")
       end.

(** The first reference whose name is the string [name]. *)
Definition named (name : string) (r : Reference) : bool :=
  match ref_name r with
  | VStr n => String.eqb n name
  | _ => false
  end.

(** [result] is a functor. *)
Definition result_map {A B} (f : A -> B) (r : result A) : result B :=
  match r with
  | Ok a => Ok (f a)
  | Raise e => Raise e
  end.

(** [IterableList.__getitem__] of GitPython, the type of [repo.heads] and
    [repo.refs].  An [int] indexes by position.  A [str] is handed to
    [getattr(self, index)]: normal attribute lookup comes first, so a name
    that is an attribute of the list object gives that attribute; only
    otherwise [__getattr__] searches the items for the name, and when there
    is none the [AttributeError] is turned into an [IndexError].  Anything
    else fails the assertion on the index type. *)
Definition IterableList_getitem (P : Platform) (items : list Reference)
    (index : pyval) : result Object :=
  match index with
  | VInt i => result_map Ref (list_getitem items i)
  | VBool b => result_map Ref (list_getitem items (if b then 1 else 0)%Z)
  | VStr name =>
      match list_getattribute P name with
      | Some a => Ok (Attr a)
      | None =>
          match find (named name) items with
          | Some r => Ok (Ref r)
          | None =>
              Raise (IndexError ("No item found with id " +:+
                                 repr P (VStr name)))
          end
      end
  | _ => Raise (AssertionError "Index of IterableList should be an int or str")
  end.

(** [obj.name]: the name of a reference; an attribute of a list object (a
    method, a [str], a [tuple], a class, [None]) has no such attribute. *)
Definition Object_name (o : Object) : result pyval :=
  match o with
  | Ref r => Ok (ref_name r)
  | Attr a =>
      Raise (AttributeError ("'" +:+ class_name a +:+
                             "' object has no attribute 'name'"))
  end.

(** ** The monad of the server: state and exceptions over a platform *)

Section Server.

Context (P : Platform).

(** [GIT_USERNAME] and [GIT_TOKEN], read from the process environment when
    the module is loaded: a [str], or [None] when the variable is unset. *)
Context (GIT_USERNAME GIT_TOKEN : pyval).

Record State := {
  world : World P;
  environment : Env;
  trace : list Event
}.

Definition M (A : Type) : Type := State -> State * result A.

Definition ret {A} (a : A) : M A := fun st => (st, Ok a).

Definition raise {A} (e : exn) : M A := fun st => (st, Raise e).

Definition lift {A} (r : result A) : M A := fun st => (st, r).

Definition bind {A B} (m : M A) (k : A -> M B) : M B :=
  fun st =>
    match m st with
    | (st', Ok a) => k a st'
    | (st', Raise e) => (st', Raise e)
    end.

(** [try: body except (classes) as e: handler e]. *)
Definition try_except {A} (body : M A) (classes : list string)
    (handler : exn -> M A) : M A :=
  fun st =>
    match body st with
    | (st', Ok a) => (st', Ok a)
    | (st', Raise e) =>
        if isinstance e classes then handler e st' else (st', Raise e)
    end.

Definition ask {X} (q : Query X) : M X :=
  fun st => (st, query P (world st) q).

Definition call {X} (c : Cmd X) : M X :=
  fun st =>
    let (w, r) := exec P (world st) (environment st) c in
    ({| world := w;
        environment := environment st;
        trace := trace st ++ [Ev (environment st) c] |}, r).

Definition set_environment (env : Env) (st : State) : State :=
  {| world := world st; environment := env; trace := trace st |}.

(** [with repo.git.custom_environment(k=v, ...): body].  The variables are
    added on entry and the previous environment is put back on exit, also
    when the body raises.  (No value passed here is [None].) *)
Definition custom_environment {A} (kwargs : Env) (body : M A) : M A :=
  fun st =>
    let old := environment st in
    let (st', r) := body (set_environment (kwargs ∪ old) st) in
    (set_environment old st', r).

End Server.

Arguments world {P} s.
Arguments environment {P} s.
Arguments trace {P} s.
Arguments ret {P A} a.
Arguments raise {P A} e.
Arguments lift {P A} r.
Arguments bind {P A B} m k.
Arguments try_except {P A} body classes handler.
Arguments ask {P X} q.
Arguments call {P X} c.
Arguments custom_environment {P A} kwargs body.
Arguments set_environment {P} env st.

Notation "x <- m ;; k" := (bind m (fun x => k))
  (at level 100, m at next level, right associativity).
Notation "m ;;; k" := (bind m (fun _ => k))
  (at level 100, right associativity).

(** ** The operation layer *)

(** The line feed of the ["\n"] escapes. *)
Definition nl : string := String "010"%char EmptyString.

Section Operations.

Context (P : Platform).
Context (GIT_USERNAME GIT_TOKEN : pyval).

(** [str(v)], which is also what an f-string substitutes; the text of the
    containers and of [bytes] is their [repr]. *)
Definition py_str (v : pyval) : string :=
  match v with
  | VNone => "None"
  | VBool true => "True"
  | VBool false => "False"
  | VInt z => pretty z
  | VStr s => s
  | _ => repr P v
  end.

Definition Reference_str (r : Reference) : string := py_str (ref_name r).

(** [x.decode('utf-8') if isinstance(x, bytes) else x]. *)
Definition decode_if_bytes (x : pyval) : M P pyval :=
  match x with
  | VBytes b =>
      match utf8_decode P b with
      | Some s => ret (VStr s)
      | None => raise (UnicodeDecodeError "'utf-8' codec can't decode bytes")
      end
  | _ => ret x
  end.

Definition git_status (repo : Repo) : M P pyval :=
  status_output <- call (Git repo "status" []) ;;
  decode_if_bytes status_output.

Definition git_diff_unstaged (repo : Repo) : M P pyval :=
  diff_output <- call (Git repo "diff" []) ;;
  decode_if_bytes diff_output.

Definition git_diff_staged (repo : Repo) : M P pyval :=
  diff_output <- call (Git repo "diff" [GVal (VStr "--cached")]) ;;
  decode_if_bytes diff_output.

Definition git_diff (repo : Repo) (target : pyval) : M P pyval :=
  diff_output <- call (Git repo "diff" [GVal target]) ;;
  decode_if_bytes diff_output.

Definition git_commit (repo : Repo) (message : pyval) : M P string :=
  commit <- call (Index_commit repo message) ;;
  ret ("Changes committed successfully with hash " +:+ hexsha commit).

Definition git_add (repo : Repo) (files : pyval) : M P string :=
  call (Index_add repo files) ;;;
  ret "Files staged successfully".

Definition git_reset (repo : Repo) : M P string :=
  call (Index_reset repo) ;;;
  ret "All staged changes reset".

(** The four header lines that [git_log] and [git_show] print for a
    commit. *)
Definition commit_header (commit : Commit) : string :=
  "Commit: " +:+ hexsha commit +:+ nl +:+
  "Author: " +:+ author commit +:+ nl +:+
  "Date: " +:+ authored_datetime commit +:+ nl +:+
  "Message: " +:+ message commit +:+ nl.

Definition git_log (repo : Repo) (max_count : pyval) : M P (list string) :=
  commits <- ask (Repo_iter_commits repo max_count) ;;
  ret (map commit_header commits).

Definition git_create_branch (repo : Repo) (branch_name base_branch : pyval)
  : M P string :=
  base <-
    (if truthy base_branch then
       try_except
         (heads <- ask (Repo_heads repo) ;;
          lift (IterableList_getitem P heads base_branch))
         ["IndexError"; "AttributeError"]
         (fun _ =>
            raise (ValueError
                     ("Branch '" +:+ py_str base_branch +:+ "' not found")))
     else
       active_branch <- ask (Repo_active_branch repo) ;;
       ret (Ref active_branch)) ;;
  new_branch <- call (Create_head repo branch_name base) ;;
  name <- lift (Object_name base) ;;
  base_name <- decode_if_bytes name ;;
  branch_name_str <- decode_if_bytes branch_name ;;
  ret ("Created branch '" +:+ py_str branch_name_str +:+ "' from '" +:+
       py_str base_name +:+ "'").

Definition git_checkout (repo : Repo) (branch_name : pyval) : M P string :=
  call (Git repo "checkout" [GVal branch_name]) ;;;
  ret ("Switched to branch '" +:+ py_str branch_name +:+ "'").

(** The loop of [git_show] over the entries of the diff, appending two
    items to [output] per entry. *)
Fixpoint show_entries (diff_index : list Diff) (output : list pyval)
  : M P (list pyval) :=
  match diff_index with
  | [] => ret output
  | d :: rest =>
      a_path <- decode_if_bytes (a_path d) ;;
      b_path <- decode_if_bytes (b_path d) ;;
      diff_content <- decode_if_bytes (diff d) ;;
      show_entries rest
        (output ++
         [VStr (nl +:+ "--- " +:+ py_str a_path +:+ nl +:+
                "+++ " +:+ py_str b_path +:+ nl);
          diff_content])
  end.

Definition git_show (repo : Repo) (revision : pyval) : M P string :=
  commit <- ask (Repo_commit repo revision) ;;
  let output := [VStr (commit_header commit)] in
  diff_index <-
    match parents commit with
    | parent :: _ => ask (Commit_diff parent (OtherCommit commit))
    | [] => ask (Commit_diff commit NULL_TREE)
    end ;;
  output <- show_entries diff_index output ;;
  lift (join_values "" output).

(** The keyword arguments of [custom_environment] in push, pull and
    fetch. *)
Definition credentials : Env :=
  {[ "GIT_USERNAME" := GIT_USERNAME; "GIT_PASSWORD" := GIT_TOKEN ]}.

(** [remote_obj.url.startswith('https://') and GIT_USERNAME and GIT_TOKEN]. *)
Definition use_credentials (remote_obj : Remote) : bool :=
  startswith (url remote_obj) "https://" &&
  truthy GIT_USERNAME && truthy GIT_TOKEN.

Definition git_push (repo : Repo) (remote branch : pyval) : M P string :=
  remote_obj <- ask (Repo_remote repo remote) ;;
  if use_credentials remote_obj then
    custom_environment credentials
      (if truthy branch then
         call (Remote_push repo remote_obj (Some branch)) ;;;
         ret ("Pushed changes to " +:+ py_str remote +:+ "/" +:+ py_str branch)
       else
         call (Remote_push repo remote_obj None) ;;;
         ret ("Pushed changes to " +:+ py_str remote))
  else
    if truthy branch then
      call (Remote_push repo remote_obj (Some branch)) ;;;
      ret ("Pushed changes to " +:+ py_str remote +:+ "/" +:+ py_str branch)
    else
      call (Remote_push repo remote_obj None) ;;;
      ret ("Pushed changes to " +:+ py_str remote).

(** The two branches of [git_pull] below the credential test have the same
    body. *)
Definition pull_body (repo : Repo) (remote branch rebase : pyval)
  : M P string :=
  if truthy branch then
    call (Git repo "pull" [GVal remote; GVal branch]) ;;;
    let strategy := if truthy rebase then "rebased" else "merged" in
    ret ("Pulled and " +:+ strategy +:+ " changes from " +:+
         py_str remote +:+ "/" +:+ py_str branch)
  else
    call (Git repo "pull" []) ;;;
    let strategy := if truthy rebase then "rebased" else "merged" in
    ret ("Pulled and " +:+ strategy +:+ " changes from " +:+ py_str remote).

Definition git_pull (repo : Repo) (remote branch rebase : pyval)
  : M P string :=
  remote_obj <- ask (Repo_remote repo remote) ;;
  (if truthy rebase then
     call (Config_set_value repo "pull" "rebase" "true")
   else
     call (Config_set_value repo "pull" "rebase" "false")) ;;;
  try_except
    (if use_credentials remote_obj then
       custom_environment credentials (pull_body repo remote branch rebase)
     else
       pull_body repo remote branch rebase)
    ["GitCommandError"]
    (fun e =>
       if contains "resolve your current index first" (exn_str e) then
         raise (ValueError
           "Cannot pull: You have unstaged changes. Please commit or stash them first.")
       else if contains "automatic merge failed" (exn_str e) then
         raise (ValueError
           "Pull failed: Merge conflicts detected. Please resolve conflicts manually.")
       else raise e).

Definition git_fetch (repo : Repo) (remote : pyval) : M P string :=
  remote_obj <- ask (Repo_remote repo remote) ;;
  if use_credentials remote_obj then
    custom_environment credentials
      (call (Remote_fetch repo remote_obj) ;;;
       ret ("Fetched changes from " +:+ py_str remote))
  else
    call (Remote_fetch repo remote_obj) ;;;
    ret ("Fetched changes from " +:+ py_str remote).

(** [repo.heads[branch]], and on a miss [repo.refs[branch]]. *)
Definition find_merge_branch (repo : Repo) (branch : pyval) : M P Object :=
  try_except
    (heads <- ask (Repo_heads repo) ;;
     lift (IterableList_getitem P heads branch))
    ["IndexError"; "AttributeError"]
    (fun _ =>
       try_except
         (refs <- ask (Repo_refs repo) ;;
          lift (IterableList_getitem P refs branch))
         ["IndexError"; "AttributeError"]
         (fun _ =>
            raise (ValueError ("Branch '" +:+ py_str branch +:+ "' not found")))).

Definition git_merge (repo : Repo) (branch : pyval) : M P string :=
  current <- ask (Repo_active_branch repo) ;;
  try_except
    (merge_branch <- find_merge_branch repo branch ;;
     call (Git repo "merge" [GRef merge_branch; GVal (VStr "--no-ff")]) ;;;
     ret ("Merged " +:+ py_str branch +:+ " into " +:+ Reference_str current))
    ["GitCommandError"]
    (fun e =>
       if contains "automatic merge failed" (exn_str e) then
         call (Git repo "merge" [GVal (VStr "--abort")]) ;;;
         raise (ValueError "Merge failed due to conflicts. Merge aborted.")
       else raise e).

Definition git_stash (repo : Repo) (message : pyval) : M P string :=
  if truthy message then
    call (Git repo "stash" [GVal (VStr "save"); GVal message]) ;;;
    ret ("Stashed changes with message: " +:+ py_str message)
  else
    call (Git repo "stash" []) ;;;
    ret "Stashed changes".

Definition git_stash_pop (repo : Repo) (index : pyval) : M P string :=
  call (Git repo "stash"
          [GVal (VStr "pop");
           GVal (VStr ("stash@{" +:+ py_str index +:+ "}"))]) ;;;
  ret ("Popped stash at index " +:+ py_str index).

Definition git_get_current_branch (repo : Repo) : M P string :=
  active_branch <- ask (Repo_active_branch repo) ;;
  ret (Reference_str active_branch).

Definition git_list_branches (repo : Repo) : M P (list string) :=
  heads <- ask (Repo_heads repo) ;;
  ret (map Reference_str heads).

Definition git_delete_branch (repo : Repo) (branch_name force : pyval)
  : M P string :=
  (if truthy force then
     call (Git repo "branch" [GVal (VStr "-D"); GVal branch_name])
   else
     call (Git repo "branch" [GVal (VStr "-d"); GVal branch_name])) ;;;
  ret ("Deleted branch " +:+ py_str branch_name).

Definition git_list_remotes (repo : Repo) : M P (list string) :=
  remotes <- ask (Repo_remotes repo) ;;
  ret (map (fun remote => remote_name remote +:+ " (" +:+ url remote +:+ ")")
         remotes).

Definition git_add_remote (repo : Repo) (name url : pyval) : M P string :=
  call (Create_remote repo name url) ;;;
  ret ("Added remote " +:+ py_str name +:+ " with URL " +:+ py_str url).

(** [r.name == name], where [r.name] is a [str]. *)
Definition name_is (name : pyval) (r : Remote) : bool :=
  match name with
  | VStr n => String.eqb (remote_name r) n
  | _ => false
  end.

(** [next(iterator)]. *)
Definition next {A} (items : list A) : M P A :=
  match items with
  | x :: _ => ret x
  | [] => raise StopIteration
  end.

Definition git_remove_remote (repo : Repo) (name : pyval) : M P string :=
  try_except
    (remote <- ask (Repo_remote repo name) ;;
     remotes <- ask (Repo_remotes repo) ;;
     remote_obj <- next (filter (fun r => name_is name r = true) remotes) ;;
     call (Delete_remote repo remote_obj) ;;;
     ret ("Removed remote " +:+ py_str name))
    ["ValueError"; "StopIteration"]
    (fun _ => raise (ValueError ("Remote '" +:+ py_str name +:+ "' not found"))).

End Operations.

(** ** The tool registry *)

(** The annotations that occur in the argument models. *)
Inductive annotation : Type :=
| Tstr              (* str *)
| Tint              (* int *)
| Tbool             (* bool *)
| Tlist_str         (* list[str] *)
| Tstr_or_None.     (* str | None *)

(** A field of a pydantic model; a field without a default is required. *)
Record Field := {
  field_name : string;
  field_type : annotation;
  field_default : option pyval
}.

Definition required_field (name : string) (ty : annotation) : Field :=
  {| field_name := name; field_type := ty; field_default := None |}.

Definition optional_field (name : string) (ty : annotation) (dflt : pyval)
  : Field :=
  {| field_name := name; field_type := ty; field_default := Some dflt |}.

Record Model := { model_name : string; model_fields : list Field }.

Definition GitStatus : Model :=
  {| model_name := "GitStatus";
     model_fields := [required_field "repo_path" Tstr] |}.
Definition GitDiffUnstaged : Model :=
  {| model_name := "GitDiffUnstaged";
     model_fields := [required_field "repo_path" Tstr] |}.
Definition GitDiffStaged : Model :=
  {| model_name := "GitDiffStaged";
     model_fields := [required_field "repo_path" Tstr] |}.
Definition GitDiff : Model :=
  {| model_name := "GitDiff";
     model_fields := [required_field "repo_path" Tstr;
                      required_field "target" Tstr] |}.
Definition GitCommit : Model :=
  {| model_name := "GitCommit";
     model_fields := [required_field "repo_path" Tstr;
                      required_field "message" Tstr] |}.
Definition GitAdd : Model :=
  {| model_name := "GitAdd";
     model_fields := [required_field "repo_path" Tstr;
                      required_field "files" Tlist_str] |}.
Definition GitReset : Model :=
  {| model_name := "GitReset";
     model_fields := [required_field "repo_path" Tstr] |}.
Definition GitLog : Model :=
  {| model_name := "GitLog";
     model_fields := [required_field "repo_path" Tstr;
                      optional_field "max_count" Tint (VInt 10)] |}.
Definition GitCreateBranch : Model :=
  {| model_name := "GitCreateBranch";
     model_fields := [required_field "repo_path" Tstr;
                      required_field "branch_name" Tstr;
                      optional_field "base_branch" Tstr_or_None VNone] |}.
Definition GitCheckout : Model :=
  {| model_name := "GitCheckout";
     model_fields := [required_field "repo_path" Tstr;
                      required_field "branch_name" Tstr] |}.
Definition GitShow : Model :=
  {| model_name := "GitShow";
     model_fields := [required_field "repo_path" Tstr;
                      required_field "revision" Tstr] |}.
Definition GitPush : Model :=
  {| model_name := "GitPush";
     model_fields := [required_field "repo_path" Tstr;
                      optional_field "remote" Tstr (VStr "origin");
                      optional_field "branch" Tstr_or_None VNone] |}.
Definition GitPull : Model :=
  {| model_name := "GitPull";
     model_fields := [required_field "repo_path" Tstr;
                      optional_field "remote" Tstr (VStr "origin");
                      optional_field "branch" Tstr_or_None VNone;
                      optional_field "rebase" Tbool (VBool false)] |}.
Definition GitFetch : Model :=
  {| model_name := "GitFetch";
     model_fields := [required_field "repo_path" Tstr;
                      optional_field "remote" Tstr (VStr "origin")] |}.
Definition GitMerge : Model :=
  {| model_name := "GitMerge";
     model_fields := [required_field "repo_path" Tstr;
                      required_field "branch" Tstr] |}.
Definition GitStash : Model :=
  {| model_name := "GitStash";
     model_fields := [required_field "repo_path" Tstr;
                      optional_field "message" Tstr_or_None VNone] |}.
Definition GitStashPop : Model :=
  {| model_name := "GitStashPop";
     model_fields := [required_field "repo_path" Tstr;
                      optional_field "index" Tint (VInt 0)] |}.
Definition GitGetCurrentBranch : Model :=
  {| model_name := "GitGetCurrentBranch";
     model_fields := [required_field "repo_path" Tstr] |}.
Definition GitListBranches : Model :=
  {| model_name := "GitListBranches";
     model_fields := [required_field "repo_path" Tstr] |}.
Definition GitDeleteBranch : Model :=
  {| model_name := "GitDeleteBranch";
     model_fields := [required_field "repo_path" Tstr;
                      required_field "branch_name" Tstr;
                      optional_field "force" Tbool (VBool false)] |}.
Definition GitListRemotes : Model :=
  {| model_name := "GitListRemotes";
     model_fields := [required_field "repo_path" Tstr] |}.
Definition GitAddRemote : Model :=
  {| model_name := "GitAddRemote";
     model_fields := [required_field "repo_path" Tstr;
                      required_field "name" Tstr;
                      required_field "url" Tstr] |}.
Definition GitRemoveRemote : Model :=
  {| model_name := "GitRemoveRemote";
     model_fields := [required_field "repo_path" Tstr;
                      required_field "name" Tstr] |}.

(** The JSON schema that [Model.schema()] produces: one property per field,
    in declaration order, with its default when it has one, and the names
    of the fields that have none under [required]. *)
Record Schema := {
  title : string;
  properties : list Field;
  required : list string
}.

Definition is_required (f : Field) : bool :=
  match field_default f with
  | None => true
  | Some _ => false
  end.

Definition schema (m : Model) : Schema :=
  {| title := model_name m;
     properties := model_fields m;
     required := map field_name (List.filter is_required (model_fields m)) |}.

(** [class GitTools(str, Enum)]. *)
Inductive GitTools : Type :=
| STATUS | DIFF_UNSTAGED | DIFF_STAGED | DIFF | COMMIT | ADD | RESET | LOG
| CREATE_BRANCH | CHECKOUT | SHOW | PUSH | PULL | FETCH | MERGE | STASH
| STASH_POP | GET_CURRENT_BRANCH | LIST_BRANCHES | DELETE_BRANCH
| LIST_REMOTES | ADD_REMOTE | REMOVE_REMOTE.

Definition value (t : GitTools) : string :=
  match t with
  | STATUS => "git_status"
  | DIFF_UNSTAGED => "git_diff_unstaged"
  | DIFF_STAGED => "git_diff_staged"
  | DIFF => "git_diff"
  | COMMIT => "git_commit"
  | ADD => "git_add"
  | RESET => "git_reset"
  | LOG => "git_log"
  | CREATE_BRANCH => "git_create_branch"
  | CHECKOUT => "git_checkout"
  | SHOW => "git_show"
  | PUSH => "git_push"
  | PULL => "git_pull"
  | FETCH => "git_fetch"
  | MERGE => "git_merge"
  | STASH => "git_stash"
  | STASH_POP => "git_stash_pop"
  | GET_CURRENT_BRANCH => "git_get_current_branch"
  | LIST_BRANCHES => "git_list_branches"
  | DELETE_BRANCH => "git_delete_branch"
  | LIST_REMOTES => "git_list_remotes"
  | ADD_REMOTE => "git_add_remote"
  | REMOVE_REMOTE => "git_remove_remote"
  end.

(** The members of the enumeration, in definition order. *)
Definition members : list GitTools :=
  [STATUS; DIFF_UNSTAGED; DIFF_STAGED; DIFF; COMMIT; ADD; RESET; LOG;
   CREATE_BRANCH; CHECKOUT; SHOW; PUSH; PULL; FETCH; MERGE; STASH;
   STASH_POP; GET_CURRENT_BRANCH; LIST_BRANCHES; DELETE_BRANCH;
   LIST_REMOTES; ADD_REMOTE; REMOVE_REMOTE].

Record Tool := {
  name : string;
  description : string;
  inputSchema : Schema
}.

Definition list_tools : list Tool :=
  [ {| name := value STATUS;
       description := "Shows the working tree status";
       inputSchema := schema GitStatus |};
    {| name := value DIFF_UNSTAGED;
       description := "Shows changes in the working directory that are not yet staged";
       inputSchema := schema GitDiffUnstaged |};
    {| name := value DIFF_STAGED;
       description := "Shows changes that are staged for commit";
       inputSchema := schema GitDiffStaged |};
    {| name := value DIFF;
       description := "Shows differences between branches or commits";
       inputSchema := schema GitDiff |};
    {| name := value COMMIT;
       description := "Records changes to the repository";
       inputSchema := schema GitCommit |};
    {| name := value ADD;
       description := "Adds file contents to the staging area";
       inputSchema := schema GitAdd |};
    {| name := value RESET;
       description := "Unstages all staged changes";
       inputSchema := schema GitReset |};
    {| name := value LOG;
       description := "Shows the commit logs";
       inputSchema := schema GitLog |};
    {| name := value CREATE_BRANCH;
       description := "Creates a new branch from an optional base branch";
       inputSchema := schema GitCreateBranch |};
    {| name := value CHECKOUT;
       description := "Switches branches";
       inputSchema := schema GitCheckout |};
    {| name := value SHOW;
       description := "Shows the contents of a commit";
       inputSchema := schema GitShow |};
    {| name := value PUSH;
       description := "Push changes to remote repository";
       inputSchema := schema GitPush |};
    {| name := value PULL;
       description := "Pull changes from remote repository";
       inputSchema := schema GitPull |};
    {| name := value FETCH;
       description := "Fetch changes from remote without merging";
       inputSchema := schema GitFetch |};
    {| name := value MERGE;
       description := "Merge a branch into current branch";
       inputSchema := schema GitMerge |};
    {| name := value STASH;
       description := "Stash current changes";
       inputSchema := schema GitStash |};
    {| name := value STASH_POP;
       description := "Pop stashed changes";
       inputSchema := schema GitStashPop |};
    {| name := value GET_CURRENT_BRANCH;
       description := "Get name of current branch";
       inputSchema := schema GitGetCurrentBranch |};
    {| name := value LIST_BRANCHES;
       description := "List all branches";
       inputSchema := schema GitListBranches |};
    {| name := value DELETE_BRANCH;
       description := "Delete a branch";
       inputSchema := schema GitDeleteBranch |};
    {| name := value LIST_REMOTES;
       description := "List remote repositories";
       inputSchema := schema GitListRemotes |};
    {| name := value ADD_REMOTE;
       description := "Add a new remote repository";
       inputSchema := schema GitAddRemote |};
    {| name := value REMOVE_REMOTE;
       description := "Remove a remote repository";
       inputSchema := schema GitRemoveRemote |} ].

(** ** The repository resolver and the dispatcher *)

Record TextContent := { type : string; text : string }.

(** The first [case GitTools.X] of the [match name] statement whose value
    equals [name]; [None] is the wildcard case. *)
Definition match_name (name : string) : option GitTools :=
  find (fun t => String.eqb name (value t)) members.

(** [Path(x)]: anything but a [str] is refused. *)
Definition Path (x : pyval) : result string :=
  match x with
  | VStr s => Ok s
  | _ => Raise (TypeError "expected str, bytes or os.PathLike object")
  end.

(** [str(path)] for a path that may be [None]. *)
Definition path_str (path : option string) : string :=
  match path with
  | Some s => s
  | None => "None"
  end.

Section Dispatcher.

Context (P : Platform).
Context (GIT_USERNAME GIT_TOKEN : pyval).

(** [arguments[key]]. *)
Definition getitem (arguments : gmap string pyval) (key : string)
  : M P pyval :=
  match arguments !! key with
  | Some v => ret v
  | None => raise (KeyError key)
  end.

(** [arguments.get(key, dflt)]; [arguments.get(key)] has [dflt = None]. *)
Definition get (arguments : gmap string pyval) (key : string) (dflt : pyval)
  : pyval :=
  match arguments !! key with
  | Some v => v
  | None => dflt
  end.

(** [git.Repo(path)]: the new object has a command runner of its own, with
    an empty custom environment. *)
Definition new_Repo (path : option string) : M P Repo :=
  repo <- ask (Repo_init path) ;;
  fun st => (set_environment ∅ st, Ok repo).

(** The loop of [by_roots] over the roots that the client reported. *)
Fixpoint collect_repo_paths (roots : list Root) (repo_paths : list string)
  : M P (list string) :=
  match roots with
  | [] => ret repo_paths
  | root :: rest =>
      let path := uri_path root in
      repo_paths <-
        try_except
          (new_Repo path ;;;
           ret (repo_paths ++ [path_str path]))
          ["InvalidGitRepositoryError"]
          (fun _ => ret repo_paths) ;;
      collect_repo_paths rest repo_paths
  end.

Definition by_roots : M P (list string) :=
  is_server_session <- ask Session_is_ServerSession ;;
  if negb is_server_session then
    raise (TypeError "server.request_context.session must be a ServerSession")
  else
    has_roots <- ask Session_check_roots_capability ;;
    if negb has_roots then ret []
    else
      roots_result <- call Session_list_roots ;;
      collect_repo_paths roots_result [].

Definition by_commandline (repository : option string) : list string :=
  match repository with
  | Some p => [p]
  | None => []
  end.

(** [repository] is the path given on the command line, if any. *)
Definition list_repos (repository : option string) : M P (list string) :=
  let cmd_repos := by_commandline repository in
  root_repos <- by_roots ;;
  ret (root_repos ++ cmd_repos).

Definition text_content (s : string) : TextContent :=
  {| type := "text"; text := s |}.

Definition call_tool (name : string) (arguments : gmap string pyval)
  : M P (list TextContent) :=
  repo_path <- getitem arguments "repo_path" ;;
  repo_path <- lift (Path repo_path) ;;
  repo <- new_Repo (Some repo_path) ;;
  match match_name name with
  | Some STATUS =>
      status <- git_status P repo ;;
      ret [text_content ("Repository status:" +:+ nl +:+ py_str P status)]
  | Some DIFF_UNSTAGED =>
      diff <- git_diff_unstaged P repo ;;
      ret [text_content ("Unstaged changes:" +:+ nl +:+ py_str P diff)]
  | Some DIFF_STAGED =>
      diff <- git_diff_staged P repo ;;
      ret [text_content ("Staged changes:" +:+ nl +:+ py_str P diff)]
  | Some DIFF =>
      target <- getitem arguments "target" ;;
      diff <- git_diff P repo target ;;
      target' <- getitem arguments "target" ;;
      ret [text_content ("Diff with " +:+ py_str P target' +:+ ":" +:+ nl +:+
                         py_str P diff)]
  | Some COMMIT =>
      message <- getitem arguments "message" ;;
      result <- git_commit P repo message ;;
      ret [text_content result]
  | Some ADD =>
      files <- getitem arguments "files" ;;
      result <- git_add P repo files ;;
      ret [text_content result]
  | Some RESET =>
      result <- git_reset P repo ;;
      ret [text_content result]
  | Some LOG =>
      log <- git_log P repo (get arguments "max_count" (VInt 10)) ;;
      ret [text_content ("Commit history:" +:+ nl +:+ join nl log)]
  | Some CREATE_BRANCH =>
      branch_name <- getitem arguments "branch_name" ;;
      result <- git_create_branch P repo branch_name
                  (get arguments "base_branch" VNone) ;;
      ret [text_content result]
  | Some CHECKOUT =>
      branch_name <- getitem arguments "branch_name" ;;
      result <- git_checkout P repo branch_name ;;
      ret [text_content result]
  | Some SHOW =>
      revision <- getitem arguments "revision" ;;
      result <- git_show P repo revision ;;
      ret [text_content result]
  | Some PUSH =>
      result <- git_push P GIT_USERNAME GIT_TOKEN repo
                  (get arguments "remote" (VStr "origin"))
                  (get arguments "branch" VNone) ;;
      ret [text_content result]
  | Some PULL =>
      result <- git_pull P GIT_USERNAME GIT_TOKEN repo
                  (get arguments "remote" (VStr "origin"))
                  (get arguments "branch" VNone)
                  (get arguments "rebase" (VBool false)) ;;
      ret [text_content result]
  | Some FETCH =>
      result <- git_fetch P GIT_USERNAME GIT_TOKEN repo
                  (get arguments "remote" (VStr "origin")) ;;
      ret [text_content result]
  | Some MERGE =>
      branch <- getitem arguments "branch" ;;
      result <- git_merge P repo branch ;;
      ret [text_content result]
  | Some STASH =>
      result <- git_stash P repo (get arguments "message" VNone) ;;
      ret [text_content result]
  | Some STASH_POP =>
      result <- git_stash_pop P repo (get arguments "index" (VInt 0)) ;;
      ret [text_content result]
  | Some GET_CURRENT_BRANCH =>
      result <- git_get_current_branch P repo ;;
      ret [text_content result]
  | Some LIST_BRANCHES =>
      branches <- git_list_branches P repo ;;
      ret [text_content ("Branches:" +:+ nl +:+ join nl branches)]
  | Some DELETE_BRANCH =>
      branch_name <- getitem arguments "branch_name" ;;
      result <- git_delete_branch P repo branch_name
                  (get arguments "force" (VBool false)) ;;
      ret [text_content result]
  | Some LIST_REMOTES =>
      remotes <- git_list_remotes P repo ;;
      ret [text_content ("Remotes:" +:+ nl +:+ join nl remotes)]
  | Some ADD_REMOTE =>
      name <- getitem arguments "name" ;;
      url <- getitem arguments "url" ;;
      result <- git_add_remote P repo name url ;;
      ret [text_content result]
  | Some REMOVE_REMOTE =>
      name <- getitem arguments "name" ;;
      result <- git_remove_remote P repo name ;;
      ret [text_content result]
  | None =>
      raise (ValueError ("Unknown tool: " +:+ name))
  end.

End Dispatcher.

(** ** What git reports

    The texts below are what GitPython and git give for the failures that
    [git_merge] and [git_pull] look at; they are used to run these
    functions on the reports of a real toolchain. *)

(** [str(e)] of the [GitCommandError] that GitPython raises for a command
    that exits with a non-zero status: the command line, the status and
    what the command wrote. *)
Definition GitCommandError_str (cmdline : string) (status : Z)
    (stdout stderr : string) : string :=
  "Cmd('git') failed due to: exit code(" +:+ pretty status +:+ ")" +:+ nl +:+
  "  cmdline: " +:+ cmdline +:+
  (if String.eqb stdout "" then ""
   else nl +:+ "  stdout: '" +:+ stdout +:+ "'") +:+
  (if String.eqb stderr "" then ""
   else nl +:+ "  stderr: '" +:+ stderr +:+ "'").

(** What [git merge] (and the merge inside [git pull]) prints when it stops
    on a conflict in [path]. *)
Definition merge_conflict_report (path : string) : string :=
  "Auto-merging " +:+ path +:+ nl +:+
  "CONFLICT (content): Merge conflict in " +:+ path +:+ nl +:+
  "Automatic merge failed; fix conflicts and then commit the result.".

(** What [git pull] prints when a local modification of [path] stands in
    the way of the merge (after the lines of the fetch, which are left
    out). *)
Definition local_changes_report (path : string) : string :=
  "error: Your local changes to the following files would be overwritten by merge:"
  +:+ nl +:+ String "009"%char path +:+ nl +:+
  "Please commit your changes or stash them before you merge." +:+ nl +:+
  "Aborting".

(** What [git pull] prints with [pull.rebase] set when the working tree has
    unstaged changes. *)
Definition unstaged_changes_report : string :=
  "error: cannot pull with rebase: You have unstaged changes." +:+ nl +:+
  "error: please commit or stash them.".

(** The failed merge of the branch [feature] with a conflict in [a.txt]. *)
Definition merge_conflict : exn :=
  GitCommandError
    (GitCommandError_str "git merge feature --no-ff" 1
       (merge_conflict_report "a.txt") "").

(** The failed pulls of [git pull origin main]: blocked by a local
    modification, blocked by unstaged changes before a rebase, stopped by
    a conflict. *)
Definition pull_blocked_by_local_changes : exn :=
  GitCommandError
    (GitCommandError_str "git pull origin main" 1
       "Updating 1111111..2222222" (local_changes_report "a.txt")).

Definition pull_blocked_by_unstaged_changes : exn :=
  GitCommandError
    (GitCommandError_str "git pull origin main" 128 ""
       unstaged_changes_report).

Definition pull_conflict : exn :=
  GitCommandError
    (GitCommandError_str "git pull origin main" 1
       (merge_conflict_report "a.txt") "").

(** ** A small in-memory platform

    One repository with branches, remotes and commits, a client that
    reports roots, and a toolchain whose failures are scripted by the
    world.  It is used to run the definitions above on concrete inputs. *)
Module Toy.

Record universe := {
  repositories : list string;     (* directories that are repositories *)
  directories : list string;      (* other directories that exist *)
  heads : list Reference;
  remote_refs : list Reference;
  HEAD : option Reference;        (* the checked-out branch *)
  MERGE_HEAD : option Reference;  (* set while a merge is in progress *)
  conflicting : list string;      (* branches whose merge conflicts *)
  merge_failure : string;         (* what git prints on such a merge *)
  pull_failure : option string;   (* what git pull fails with, if it does *)
  remotes : list Remote;
  config : list (string * string * string);
  commits : list Commit;
  patches : list (string * list Diff);
  roots_capability : bool;
  roots : result (list Root)      (* the client's answer to the roots query *)
}.

Definition set_merge_head (m : option Reference) (w : universe) : universe :=
  {| repositories := repositories w; directories := directories w;
     heads := heads w; remote_refs := remote_refs w; HEAD := HEAD w;
     MERGE_HEAD := m; conflicting := conflicting w;
     merge_failure := merge_failure w; pull_failure := pull_failure w;
     remotes := remotes w; config := config w; commits := commits w;
     patches := patches w; roots_capability := roots_capability w;
     roots := roots w |}.

Definition add_head (h : Reference) (w : universe) : universe :=
  {| repositories := repositories w; directories := directories w;
     heads := heads w ++ [h]; remote_refs := remote_refs w; HEAD := HEAD w;
     MERGE_HEAD := MERGE_HEAD w; conflicting := conflicting w;
     merge_failure := merge_failure w; pull_failure := pull_failure w;
     remotes := remotes w; config := config w; commits := commits w;
     patches := patches w; roots_capability := roots_capability w;
     roots := roots w |}.

Definition add_config (entry : string * string * string) (w : universe) : universe :=
  {| repositories := repositories w; directories := directories w;
     heads := heads w; remote_refs := remote_refs w; HEAD := HEAD w;
     MERGE_HEAD := MERGE_HEAD w; conflicting := conflicting w;
     merge_failure := merge_failure w; pull_failure := pull_failure w;
     remotes := remotes w; config := entry :: config w; commits := commits w;
     patches := patches w; roots_capability := roots_capability w;
     roots := roots w |}.

Definition set_pull_failure (text : option string) (w : universe) : universe :=
  {| repositories := repositories w; directories := directories w;
     heads := heads w; remote_refs := remote_refs w; HEAD := HEAD w;
     MERGE_HEAD := MERGE_HEAD w; conflicting := conflicting w;
     merge_failure := merge_failure w; pull_failure := text;
     remotes := remotes w; config := config w; commits := commits w;
     patches := patches w; roots_capability := roots_capability w;
     roots := roots w |}.

Definition set_roots (capability : bool) (answer : result (list Root))
    (w : universe) : universe :=
  {| repositories := repositories w; directories := directories w;
     heads := heads w; remote_refs := remote_refs w; HEAD := HEAD w;
     MERGE_HEAD := MERGE_HEAD w; conflicting := conflicting w;
     merge_failure := merge_failure w; pull_failure := pull_failure w;
     remotes := remotes w; config := config w; commits := commits w;
     patches := patches w; roots_capability := capability;
     roots := answer |}.

Definition mem (s : string) (l : list string) : bool :=
  existsb (String.eqb s) l.

Definition lookup_patch (w : universe) (c : Commit) : result (list Diff) :=
  match find (fun p => String.eqb (fst p) (hexsha c)) (patches w) with
  | Some p => Ok (snd p)
  | None => Ok []
  end.

Definition answer (X : Type) (w : universe) (q : Query X) : result X :=
  match q in Query X return result X with
  | Repo_init path =>
      match path with
      | Some p =>
          if mem p (repositories w) then Ok {| working_dir := p |}
          else if mem p (directories w) then Raise (InvalidGitRepositoryError p)
          else Raise (NoSuchPathError p)
      | None => Raise (InvalidGitRepositoryError "")
      end
  | Repo_heads _ => Ok (heads w)
  | Repo_refs _ => Ok (heads w ++ remote_refs w)
  | Repo_active_branch _ =>
      match HEAD w with
      | Some h => Ok h
      | None => Raise (TypeError "HEAD is a detached symbolic reference")
      end
  | Repo_remotes _ => Ok (remotes w)
  | Repo_remote _ name =>
      match find (name_is name) (remotes w) with
      | Some rm => Ok rm
      | None => Raise (ValueError "Remote didn't exist")
      end
  | Repo_commit _ rev =>
      match find (fun c => match rev with
                           | VStr s => String.eqb (hexsha c) s
                           | _ => false
                           end) (commits w) with
      | Some c => Ok c
      | None => Raise (Exn ["BadName"; "ODBError"; "Exception"]
                         "Ref did not resolve to an object")
      end
  | Repo_iter_commits _ _ => Ok (commits w)
  | Commit_diff self other =>
      match other with
      | OtherCommit c => lookup_patch w c
      | NULL_TREE => lookup_patch w self
      end
  | Session_is_ServerSession => Ok true
  | Session_check_roots_capability => Ok (roots_capability w)
  end.

Definition merge (w : universe) (args : list garg) : universe * result pyval :=
  match args with
  | [GVal (VStr "--abort")] => (set_merge_head None w, Ok (VStr ""))
  | GRef (Ref b) :: _ =>
      match ref_name b with
      | VStr n =>
          if mem n (conflicting w)
          then (set_merge_head (Some b) w,
                Raise (GitCommandError (merge_failure w)))
          else (w, Ok (VStr "Merge made by the 'ort' strategy."))
      | _ => (w, Raise (GitCommandError "not something we can merge"))
      end
  | _ => (w, Raise (GitCommandError "not something we can merge"))
  end.

Definition perform (X : Type) (w : universe) (env : Env) (c : Cmd X)
  : universe * result X :=
  match c in Cmd X return universe * result X with
  | Git _ command args =>
      if String.eqb command "merge" then merge w args
      else if String.eqb command "pull" then
        match pull_failure w with
        | Some text => (w, Raise (GitCommandError text))
        | None => (w, Ok (VStr "Already up to date."))
        end
      else if String.eqb command "status" then
        (w, Ok (VStr "nothing to commit, working tree clean"))
      else (w, Ok (VStr ""))
  | Index_commit _ message =>
      (w, Ok (mkCommit "0a1b2c3" "A U Thor" "2024-01-01 00:00:00+00:00"
                "msg" []))
  | Index_add _ _ => (w, Ok tt)
  | Index_reset _ => (w, Ok tt)
  | Create_head _ name base =>
      match base with
      | Ref _ => let h := {| ref_name := name |} in (add_head h w, Ok h)
      | Attr _ =>
          (w, Raise (Exn ["BadName"; "ODBError"; "Exception"]
                       "Ref did not resolve to an object"))
      end
  | Remote_push _ _ _ => (w, Ok tt)
  | Remote_fetch _ _ => (w, Ok tt)
  | Config_set_value _ section option value =>
      (add_config (section, option, value) w, Ok tt)
  | Create_remote _ _ _ =>
      (w, Ok {| remote_name := "origin"; url := "" |})
  | Delete_remote _ _ => (w, Ok tt)
  | Session_list_roots => (w, roots w)
  end.

(** The public methods of [list] and the two slots of [IterableList]; the
    special methods are left out of this small platform. *)
Definition getattribute (name : string) : option Attribute :=
  if mem name ["append"; "clear"; "copy"; "count"; "extend"; "index";
               "insert"; "pop"; "remove"; "reverse"; "sort"]
  then Some {| attribute_name := name;
               class_name := "builtin_function_or_method" |}
  else if mem name ["_id_attr"; "_prefix"]
  then Some {| attribute_name := name; class_name := "str" |}
  else None.

(** [repr] of a [str] without quotes or escapes in it. *)
Definition quoted (v : pyval) : string :=
  match v with
  | VStr s => "'" +:+ s +:+ "'"
  | _ => "<repr>"
  end.

Definition platform : Platform :=
  {| World := universe;
     query := answer;
     exec := perform;
     repr := quoted;
     utf8_decode := fun b => Some (String.string_of_list_byte b);
     list_getattribute := getattribute |}.

Definition origin : Remote :=
  {| remote_name := "origin"; url := "https://example.com/repo.git" |}.
Definition backup : Remote :=
  {| remote_name := "backup"; url := "ssh://git@example.com/repo.git" |}.
Definition mirror : Remote :=
  {| remote_name := "mirror"; url := "http://example.com/repo.git" |}.

Definition main : Reference := {| ref_name := VStr "main" |}.
Definition feature : Reference := {| ref_name := VStr "feature" |}.

Definition root_commit : Commit :=
  mkCommit "1111111" "A U Thor" "2024-01-01 00:00:00+00:00" "first" [].

Definition second_commit : Commit :=
  mkCommit "2222222" "A U Thor" "2024-01-02 00:00:00+00:00" "second"
    [root_commit].

Definition added_file : Diff :=
  {| a_path := VStr "a.txt"; b_path := VStr "a.txt";
     diff := VBytes (String.list_byte_of_string "@@ -0,0 +1 @@ +hello") |}.

Definition changed_file : Diff :=
  {| a_path := VStr "a.txt"; b_path := VStr "a.txt";
     diff := VStr "@@ -1 +1 @@ -hello +world" |}.

(** A repository at [/repo] on branch [main]; merging [feature] conflicts. *)
Definition w0 : universe :=
  {| repositories := ["/repo"; "/static"];
     directories := ["/tmp"];
     heads := [main; feature];
     remote_refs := [ {| ref_name := VStr "origin/main" |} ];
     HEAD := Some main;
     MERGE_HEAD := None;
     conflicting := ["feature"];
     merge_failure := exn_str merge_conflict;
     pull_failure := None;
     remotes := [origin; backup; mirror];
     config := [];
     commits := [second_commit; root_commit];
     patches := [("1111111", [added_file]); ("2222222", [changed_file])];
     roots_capability := true;
     roots := Ok [ {| uri_path := Some "/tmp" |};
                   {| uri_path := Some "/repo" |} ] |}.

Definition initial (w : universe) : State platform :=
  Build_State platform w ∅ [].

Definition repo : Repo := {| working_dir := "/repo" |}.

End Toy.

(** ** Views of the dispatcher used in the statements *)

(** How a handler reads an argument: [arguments[key]], which needs the
    key, or [arguments.get(key, dflt)], which does not. *)
Inductive ArgUse : Type :=
| Subscript (key : string)
| Get (key : string) (dflt : pyval).

Definition use_key (u : ArgUse) : string :=
  match u with
  | Subscript key => key
  | Get key _ => key
  end.

(** The reads of [call_tool] on the way to and inside each [case], in
    program order ([tool_reads_only], [tool_reads_required] and
    [tool_reads_default] below check the table against [call_tool]). *)
Definition handler_arguments (t : GitTools) : list ArgUse :=
  Subscript "repo_path" ::
  match t with
  | STATUS | DIFF_UNSTAGED | DIFF_STAGED | RESET
  | GET_CURRENT_BRANCH | LIST_BRANCHES | LIST_REMOTES => []
  | DIFF => [Subscript "target"]
  | COMMIT => [Subscript "message"]
  | ADD => [Subscript "files"]
  | LOG => [Get "max_count" (VInt 10)]
  | CREATE_BRANCH => [Subscript "branch_name"; Get "base_branch" VNone]
  | CHECKOUT => [Subscript "branch_name"]
  | SHOW => [Subscript "revision"]
  | PUSH => [Get "remote" (VStr "origin"); Get "branch" VNone]
  | PULL => [Get "remote" (VStr "origin"); Get "branch" VNone;
             Get "rebase" (VBool false)]
  | FETCH => [Get "remote" (VStr "origin")]
  | MERGE => [Subscript "branch"]
  | STASH => [Get "message" VNone]
  | STASH_POP => [Get "index" (VInt 0)]
  | DELETE_BRANCH => [Subscript "branch_name"; Get "force" (VBool false)]
  | ADD_REMOTE => [Subscript "name"; Subscript "url"]
  | REMOVE_REMOTE => [Subscript "name"]
  end.

(** The same view of a schema: a required property must be present, an
    optional one is replaced by its default. *)
Definition schema_arguments (s : Schema) : list ArgUse :=
  map (fun f => match field_default f with
                | None => Subscript (field_name f)
                | Some dflt => Get (field_name f) dflt
                end)
      (properties s).

(** The keys that a list of reads needs. *)
Definition required_keys (uses : list ArgUse) : list string :=
  omap (fun u => match u with
                 | Subscript key => Some key
                 | Get _ _ => None
                 end) uses.

(** What an operation function hands back to the dispatcher. *)
Inductive returned : Type :=
| Rval (v : pyval)           (* the toolchain's output, passed along *)
| Rstr (s : string)          (* a [str] built by the function *)
| Rlist (l : list string).   (* a [list[str]] *)

Section Views.

Context (P : Platform).
Context (GIT_USERNAME GIT_TOKEN : pyval).

(** The call that each [case] of [call_tool] makes into the operation
    layer, with the argument reads that precede it. *)
Definition operation (t : GitTools) (repo : Repo)
    (arguments : gmap string pyval) : M P returned :=
  match t with
  | STATUS => v <- git_status P repo ;; ret (Rval v)
  | DIFF_UNSTAGED => v <- git_diff_unstaged P repo ;; ret (Rval v)
  | DIFF_STAGED => v <- git_diff_staged P repo ;; ret (Rval v)
  | DIFF =>
      target <- getitem P arguments "target" ;;
      v <- git_diff P repo target ;; ret (Rval v)
  | COMMIT =>
      message <- getitem P arguments "message" ;;
      s <- git_commit P repo message ;; ret (Rstr s)
  | ADD =>
      files <- getitem P arguments "files" ;;
      s <- git_add P repo files ;; ret (Rstr s)
  | RESET => s <- git_reset P repo ;; ret (Rstr s)
  | LOG =>
      l <- git_log P repo (get arguments "max_count" (VInt 10)) ;;
      ret (Rlist l)
  | CREATE_BRANCH =>
      branch_name <- getitem P arguments "branch_name" ;;
      s <- git_create_branch P repo branch_name
             (get arguments "base_branch" VNone) ;;
      ret (Rstr s)
  | CHECKOUT =>
      branch_name <- getitem P arguments "branch_name" ;;
      s <- git_checkout P repo branch_name ;; ret (Rstr s)
  | SHOW =>
      revision <- getitem P arguments "revision" ;;
      s <- git_show P repo revision ;; ret (Rstr s)
  | PUSH =>
      s <- git_push P GIT_USERNAME GIT_TOKEN repo
             (get arguments "remote" (VStr "origin"))
             (get arguments "branch" VNone) ;;
      ret (Rstr s)
  | PULL =>
      s <- git_pull P GIT_USERNAME GIT_TOKEN repo
             (get arguments "remote" (VStr "origin"))
             (get arguments "branch" VNone)
             (get arguments "rebase" (VBool false)) ;;
      ret (Rstr s)
  | FETCH =>
      s <- git_fetch P GIT_USERNAME GIT_TOKEN repo
             (get arguments "remote" (VStr "origin")) ;;
      ret (Rstr s)
  | MERGE =>
      branch <- getitem P arguments "branch" ;;
      s <- git_merge P repo branch ;; ret (Rstr s)
  | STASH =>
      s <- git_stash P repo (get arguments "message" VNone) ;; ret (Rstr s)
  | STASH_POP =>
      s <- git_stash_pop P repo (get arguments "index" (VInt 0)) ;;
      ret (Rstr s)
  | GET_CURRENT_BRANCH => s <- git_get_current_branch P repo ;; ret (Rstr s)
  | LIST_BRANCHES => l <- git_list_branches P repo ;; ret (Rlist l)
  | DELETE_BRANCH =>
      branch_name <- getitem P arguments "branch_name" ;;
      s <- git_delete_branch P repo branch_name
             (get arguments "force" (VBool false)) ;;
      ret (Rstr s)
  | LIST_REMOTES => l <- git_list_remotes P repo ;; ret (Rlist l)
  | ADD_REMOTE =>
      name <- getitem P arguments "name" ;;
      url <- getitem P arguments "url" ;;
      s <- git_add_remote P repo name url ;; ret (Rstr s)
  | REMOVE_REMOTE =>
      name <- getitem P arguments "name" ;;
      s <- git_remove_remote P repo name ;; ret (Rstr s)
  end.

(** The text of a returned value inside the result: substituted into the
    f-string, taken as it is, or joined with line feeds. *)
Definition render (r : returned) : string :=
  match r with
  | Rval v => py_str P v
  | Rstr s => s
  | Rlist l => join nl l
  end.

(** What [call_tool] itself puts in front of that text. *)
Definition label (t : GitTools) (arguments : gmap string pyval) : string :=
  match t with
  | STATUS => "Repository status:" +:+ nl
  | DIFF_UNSTAGED => "Unstaged changes:" +:+ nl
  | DIFF_STAGED => "Staged changes:" +:+ nl
  | DIFF => "Diff with " +:+ py_str P (get arguments "target" VNone) +:+
            ":" +:+ nl
  | LOG => "Commit history:" +:+ nl
  | LIST_BRANCHES => "Branches:" +:+ nl
  | LIST_REMOTES => "Remotes:" +:+ nl
  | _ => ""
  end.

(** The cases of [call_tool] that format the returned value into a string
    of their own; the others pass the returned [str] on as it is. *)
Definition labelled (t : GitTools) : bool :=
  match t with
  | STATUS | DIFF_UNSTAGED | DIFF_STAGED | DIFF
  | LOG | LIST_BRANCHES | LIST_REMOTES => true
  | _ => false
  end.

(** The steps of [call_tool] before the [match]: read [repo_path], build
    the path, open the repository. *)
Definition open_repository (arguments : gmap string pyval) : M P Repo :=
  repo_path <- getitem P arguments "repo_path" ;;
  repo_path <- lift (Path repo_path) ;;
  new_Repo P (Some repo_path).

(** The state after a command that left the world [w]. *)
Definition after {X} (c : Cmd X) (w : World P) (st : State P) : State P :=
  {| world := w;
     environment := environment st;
     trace := trace st ++ [Ev (environment st) c] |}.

(** The environment that the network command of push, pull and fetch runs
    under. *)
Definition call_environment (remote_obj : Remote) (env : Env) : Env :=
  if use_credentials GIT_USERNAME GIT_TOKEN remote_obj
  then credentials GIT_USERNAME GIT_TOKEN ∪ env
  else env.

(** The state after the one network command of push, pull or fetch: the
    command ran under [call_environment], and the environment of the
    command object is what it was. *)
Definition after_network {X} (c : Cmd X) (remote_obj : Remote)
    (w : World P) (st : State P) : State P :=
  {| world := w;
     environment := environment st;
     trace := trace st ++ [Ev (call_environment remote_obj (environment st)) c] |}.

(** The refspec of the push command. *)
Definition push_refspec (branch : pyval) : option pyval :=
  if truthy branch then Some branch else None.

(** The arguments of the pull command. *)
Definition pull_arguments (remote branch : pyval) : list garg :=
  if truthy branch then [GVal remote; GVal branch] else [].

(** The value that [git_pull] writes to [pull.rebase]. *)
Definition rebase_value (rebase : pyval) : string :=
  if truthy rebase then "true" else "false".

(** A contract of GitPython's [create_head]: creating a head does not
    check it out, the active branch stays what it was. *)
Definition create_head_keeps_active : Prop :=
  forall repo w env name base w' h,
    exec P w env (Create_head repo name base) = (w', Ok h) ->
    query P w' (Repo_active_branch repo) = query P w (Repo_active_branch repo).

(** The base of the new branch: the named head when [base_branch] is
    true, the active branch otherwise. *)
Definition resolved_base (repo : Repo) (base_branch : pyval) (st : State P)
    (base : Reference) : Prop :=
  (truthy base_branch = true /\
   exists heads, query P (world st) (Repo_heads repo) = Ok heads /\
                 IterableList_getitem P heads base_branch = Ok (Ref base)) \/
  (truthy base_branch = false /\
   query P (world st) (Repo_active_branch repo) = Ok base).

(** The value of [x.decode('utf-8') if isinstance(x, bytes) else x], when
    there is one. *)
Definition decoded (x : pyval) : option pyval :=
  match x with
  | VBytes b => option_map VStr (utf8_decode P b)
  | _ => Some x
  end.

(** The text that [git_show] appends for one entry of the diff: the two
    path lines and the patch.  There is none when a field does not decode
    or the patch is not text. *)
Definition entry_text (d : Diff) : option string :=
  match decoded (a_path d), decoded (b_path d), decoded (diff d) with
  | Some a, Some b, Some (VStr patch) =>
      Some ((nl +:+ "--- " +:+ py_str P a +:+ nl +:+
             "+++ " +:+ py_str P b +:+ nl) +:+ patch)
  | _, _, _ => None
  end.

(** The texts of all entries, when every entry has one. *)
Fixpoint entry_texts (diff_index : list Diff) : option (list string) :=
  match diff_index with
  | [] => Some []
  | d :: rest =>
      match entry_text d, entry_texts rest with
      | Some t, Some ts => Some (t :: ts)
      | _, _ => None
      end
  end.

(** Whether a root reported by the client opens as a repository. *)
Definition opens (w : World P) (root : Root) : bool :=
  match query P w (Repo_init (uri_path root)) with
  | Ok _ => true
  | Raise _ => false
  end.

End Views.

Arguments after {P X} c w st.
Arguments resolved_base {P} repo base_branch st base.
Arguments after_network {P} GIT_USERNAME GIT_TOKEN {X} c remote_obj w st.

(** The spec's "network (non-local) transport" of a remote: a URL with one
    of the network schemes that git knows. *)
Definition spec_network_transport (url : string) : bool :=
  existsb (startswith url)
    ["ssh://"; "git://"; "http://"; "https://"; "ftp://"; "ftps://"].

(** A program that leaves the environment of the command object as it
    found it, whether it returns or raises. *)
Definition keeps_environment {P : Platform} {A : Type} (m : M P A) : Prop :=
  forall st, environment (fst (m st)) = environment st.

(** The tools whose operation is one command of the toolchain and a text
    about it. *)
Definition single_command (t : GitTools) : bool :=
  match t with
  | STATUS | DIFF_UNSTAGED | DIFF_STAGED | DIFF | COMMIT | ADD | RESET
  | CHECKOUT | STASH | STASH_POP | DELETE_BRANCH | ADD_REMOTE => true
  | _ => false
  end.

(** ** Scripted variants of the in-memory platform

    The same world as [Toy], with a toolchain whose answers to single
    requests are overridden by a script: a command that fails, output given
    as [bytes], a codec that refuses. *)
Module Scenario.

Record script := {
  on_git : string -> list garg -> option (result pyval);
  on_config : option exn;           (* configuration writes fail with it *)
  on_delete_remote : option exn;    (* [delete_remote] fails with it *)
  on_create_head : option exn;      (* [create_head] fails with it *)
  on_remote : option Remote;        (* [repo.remote] answers it for any name *)
  on_session : bool;                (* the session is a [ServerSession] *)
  decodes : bool                    (* [bytes.decode] succeeds *)
}.

Definition plain : script :=
  {| on_git := fun _ _ => None; on_config := None; on_delete_remote := None;
     on_create_head := None; on_remote := None; on_session := true;
     decodes := true |}.

Definition answer (s : script) (X : Type) (w : Toy.universe) (q : Query X)
  : result X :=
  match q in Query X return result X with
  | Repo_remote r name =>
      match on_remote s with
      | Some rm => Ok rm
      | None => Toy.answer _ w (Repo_remote r name)
      end
  | Session_is_ServerSession => Ok (on_session s)
  | other => Toy.answer _ w other
  end.

Definition perform (s : script) (X : Type) (w : Toy.universe) (env : Env)
    (c : Cmd X) : Toy.universe * result X :=
  match c in Cmd X return Toy.universe * result X with
  | Git r command args =>
      match on_git s command args with
      | Some outcome => (w, outcome)
      | None => Toy.perform _ w env (Git r command args)
      end
  | Config_set_value r section option value =>
      match on_config s with
      | Some e => (w, Raise e)
      | None => Toy.perform _ w env (Config_set_value r section option value)
      end
  | Delete_remote r rm =>
      match on_delete_remote s with
      | Some e => (w, Raise e)
      | None => Toy.perform _ w env (Delete_remote r rm)
      end
  | Create_head r name base =>
      match on_create_head s with
      | Some e => (w, Raise e)
      | None => Toy.perform _ w env (Create_head r name base)
      end
  | other => Toy.perform _ w env other
  end.

Definition platform (s : script) : Platform :=
  {| World := Toy.universe;
     query := answer s;
     exec := perform s;
     repr := fun _ => "<repr>";
     utf8_decode := fun b =>
       if decodes s then Some (String.string_of_list_byte b) else None;
     list_getattribute := Toy.getattribute |}.

Definition initial (s : script) (w : Toy.universe) : State (platform s) :=
  Build_State (platform s) w ∅ [].

(** A repository without commits, branches and remotes, on a detached
    [HEAD]. *)
Definition bare : Toy.universe :=
  {| Toy.repositories := ["/repo"];
     Toy.directories := [];
     Toy.heads := [];
     Toy.remote_refs := [];
     Toy.HEAD := None;
     Toy.MERGE_HEAD := None;
     Toy.conflicting := [];
     Toy.merge_failure := "";
     Toy.pull_failure := None;
     Toy.remotes := [];
     Toy.config := [];
     Toy.commits := [];
     Toy.patches := [];
     Toy.roots_capability := false;
     Toy.roots := Ok [] |}.

(** A codec that decodes ASCII and refuses every byte above it.  It is
    used on input that UTF-8 refuses as well. *)
Definition ascii_decode (b : list byte) : option string :=
  if forallb (fun x => (Byte.to_N x <? 128)%N) b
  then Some (String.string_of_list_byte b)
  else None.

Definition strict : Platform :=
  {| World := Toy.universe;
     query := Toy.answer;
     exec := Toy.perform;
     repr := Toy.quoted;
     utf8_decode := ascii_decode;
     list_getattribute := Toy.getattribute |}.

(** A file whose one line is "café" in Latin-1: the byte [0xe9] with no
    continuation byte behind it is not UTF-8. *)
Definition latin1_file : Diff :=
  {| a_path := VStr "menu.txt"; b_path := VStr "menu.txt";
     diff := VBytes (String.list_byte_of_string "@@ -0,0 +1 @@ +caf" ++
                     [Byte.xe9]) |}.

(** The repository of [Toy.w0] with that file added by the root commit. *)
Definition latin1 : Toy.universe :=
  {| Toy.repositories := ["/repo"];
     Toy.directories := [];
     Toy.heads := [Toy.main];
     Toy.remote_refs := [];
     Toy.HEAD := Some Toy.main;
     Toy.MERGE_HEAD := None;
     Toy.conflicting := [];
     Toy.merge_failure := "";
     Toy.pull_failure := None;
     Toy.remotes := [];
     Toy.config := [];
     Toy.commits := [Toy.root_commit];
     Toy.patches := [("1111111", [latin1_file])];
     Toy.roots_capability := false;
     Toy.roots := Ok [] |}.

End Scenario.

(** * Theorems *)

(** ** The monad *)

Section MonadLemmas.

Context {P : Platform}.

Lemma bind_Ok {A B} (m : M P A) (k : A -> M P B) st st' a :
  m st = (st', Ok a) -> bind m k st = k a st'.
Proof. intros H. unfold bind. by rewrite H. Qed.

Lemma bind_Raise {A B} (m : M P A) (k : A -> M P B) st st' e :
  m st = (st', Raise e) -> bind m k st = (st', Raise e).
Proof. intros H. unfold bind. by rewrite H. Qed.

(** A bind succeeds only if both of its parts do. *)
Lemma bind_inv_Ok {A B} (m : M P A) (k : A -> M P B) st st' b :
  bind m k st = (st', Ok b) ->
  exists st1 a, m st = (st1, Ok a) /\ k a st1 = (st', Ok b).
Proof.
  unfold bind. destruct (m st) as [st1 [a | e]]; intros H.
  - by exists st1, a.
  - discriminate H.
Qed.

Lemma bind_assoc {A B C} (m : M P A) (f : A -> M P B) (g : B -> M P C) st :
  bind (bind m f) g st = bind m (fun a => bind (f a) g) st.
Proof. unfold bind. by destruct (m st) as [st' [a | e]]. Qed.

Lemma bind_ext {A B} (m : M P A) (k1 k2 : A -> M P B) st :
  (forall a st', k1 a st' = k2 a st') -> bind m k1 st = bind m k2 st.
Proof. intros H. unfold bind. destruct (m st) as [st' [a | e]]; auto. Qed.

Lemma ask_eq {X} (q : Query X) (st : State P) :
  ask q st = (st, query P (world st) q).
Proof. reflexivity. Qed.

(** Queries leave the state alone. *)
Lemma ask_inv {X} (q : Query X) (st st' : State P) r :
  ask q st = (st', r) -> st' = st /\ r = query P (world st) q.
Proof. unfold ask. by intros [= <- <-]. Qed.

Lemma try_except_Ok {A} (body : M P A) classes handler st st' a :
  body st = (st', Ok a) -> try_except body classes handler st = (st', Ok a).
Proof. intros H. unfold try_except. by rewrite H. Qed.

Lemma try_except_caught {A} (body : M P A) classes handler st st' e :
  body st = (st', Raise e) -> isinstance e classes = true ->
  try_except body classes handler st = handler e st'.
Proof. intros H Hc. unfold try_except. by rewrite H, Hc. Qed.

Lemma try_except_passed {A} (body : M P A) classes handler st st' e :
  body st = (st', Raise e) -> isinstance e classes = false ->
  try_except body classes handler st = (st', Raise e).
Proof. intros H Hc. unfold try_except. by rewrite H, Hc. Qed.

End MonadLemmas.

Lemma append_assoc (a b c : string) : (a +:+ b) +:+ c = a +:+ b +:+ c.
Proof.
  induction a as [| x a IH]; [done |].
  change (String x ((a +:+ b) +:+ c) = String x (a +:+ b +:+ c)).
  by f_equal.
Qed.

Lemma length_append (a b : string) :
  String.length (a +:+ b) = String.length a + String.length b.
Proof.
  induction a as [| x a IH]; [done |].
  change (S (String.length (a +:+ b)) = S (String.length a + String.length b)).
  by f_equal.
Qed.

Lemma append_empty_r (a : string) : a +:+ "" = a.
Proof.
  induction a as [| x a IH]; [done |].
  change (String x (a +:+ "") = String x a). by f_equal.
Qed.

(** ** The builtins on concrete values *)

Example py_str_values :
  map (py_str Toy.platform) [VNone; VBool true; VInt 10; VInt (-3); VStr "main"]
  = ["None"; "True"; "10"; "-3"; "main"].
Proof. reflexivity. Qed.

Example contains_substring :
  contains "automatic merge failed"
    "stdout: 'automatic merge failed; fix conflicts'" = true.
Proof. reflexivity. Qed.

(** Like [in] on [str], [contains] compares characters exactly. *)
Example contains_case_sensitive :
  contains "automatic merge failed" "Automatic merge failed" = false.
Proof. reflexivity. Qed.

Example heads_by_name_and_position :
  let heads := [Toy.main; Toy.feature] in
  IterableList_getitem Toy.platform heads (VStr "feature") = Ok (Ref Toy.feature)
  /\ IterableList_getitem Toy.platform heads (VInt (-1)) = Ok (Ref Toy.feature)
  /\ IterableList_getitem Toy.platform heads (VStr "topic")
     = Raise (IndexError "No item found with id 'topic'").
Proof. repeat split; reflexivity. Qed.

(** A name that is an attribute of the list object gives that attribute,
    also when a branch has the name. *)
Example heads_by_attribute_name :
  let sort := {| ref_name := VStr "sort" |} in
  IterableList_getitem Toy.platform [Toy.main; sort] (VStr "sort")
  = Ok (Attr {| attribute_name := "sort";
                class_name := "builtin_function_or_method" |}).
Proof. reflexivity. Qed.

Example stash_pop_on_toy :
  call_tool Toy.platform VNone VNone "git_stash_pop"
    {[ "repo_path" := VStr "/repo" ]} (Toy.initial Toy.w0)
  = (Build_State Toy.platform Toy.w0 ∅
       [Ev ∅ (Git Toy.repo "stash"
                [GVal (VStr "pop"); GVal (VStr "stash@{0}")])],
     Ok [text_content "Popped stash at index 0"]).
Proof. reflexivity. Qed.

(** ** The tool registry *)

Lemma members_complete (t : GitTools) : In t members.
Proof. destruct t; unfold members; simpl; tauto. Qed.

Lemma match_name_value (t : GitTools) : match_name (value t) = Some t.
Proof. by destruct t. Qed.

Lemma match_name_Some name t : match_name name = Some t -> name = value t.
Proof.
  unfold match_name. intros H. apply find_some in H as [_ H].
  by apply String.eqb_eq in H.
Qed.

Lemma value_inj (t t' : GitTools) : value t = value t' -> t = t'.
Proof.
  intros H. pose proof (match_name_value t) as Ht.
  rewrite H, match_name_value in Ht. congruence.
Qed.

Section RegistryLemmas.

Context (P : Platform).
Context (GIT_USERNAME GIT_TOKEN : pyval).

Local Abbreviation dispatch := (call_tool P GIT_USERNAME GIT_TOKEN).
Local Abbreviation run_operation := (operation P GIT_USERNAME GIT_TOKEN).

(** [call_tool] reads no argument outside [handler_arguments]: two
    mappings that agree on those keys are treated alike. *)
Lemma tool_reads_only (t : GitTools) (a1 a2 : gmap string pyval) :
  (forall u, In u (handler_arguments t) -> a1 !! use_key u = a2 !! use_key u) ->
  forall st, dispatch (value t) a1 st = dispatch (value t) a2 st.
Proof.
  intros H st.
  assert (Hk : forall k, In k (map use_key (handler_arguments t)) ->
                         a1 !! k = a2 !! k).
  { intros k [u [<- Hu]]%in_map_iff. by apply H. }
  unfold call_tool, getitem, get. rewrite match_name_value.
  destruct t; simpl in Hk;
    repeat match goal with
           | |- context [a1 !! ?k] => rewrite (Hk k) by (simpl; auto 10)
           end; reflexivity.
Qed.

(** A key read by subscript is needed: without [repo_path] nothing runs. *)
Lemma repo_path_required name (arguments : gmap string pyval) st :
  arguments !! "repo_path" = None ->
  dispatch name arguments st = (st, Raise (KeyError "repo_path")).
Proof.
  intros H. unfold call_tool, getitem, bind, raise. by rewrite H.
Qed.

(** The other subscripted keys are needed by the operation's [case]. *)
Lemma tool_reads_required (t : GitTools) key (arguments : gmap string pyval)
    repo st :
  In (Subscript key) (tail (handler_arguments t)) ->
  arguments !! key = None ->
  (forall key', In (Subscript key') (tail (handler_arguments t)) ->
                key' <> key -> is_Some (arguments !! key')) ->
  run_operation t repo arguments st = (st, Raise (KeyError key)).
Proof.
  intros Hin Hnone Hothers.
  destruct t; simpl in Hin; intuition; simplify_eq;
    unfold operation, getitem, bind, raise; rewrite ?Hnone; try done.
  destruct (Hothers "name") as [v Hv]; [simpl; auto | done |].
  by rewrite Hv.
Qed.

(** A key read with [get] may be left out: the call behaves as if the
    default of the table had been passed. *)
Lemma tool_reads_default (t : GitTools) key dflt
    (arguments : gmap string pyval) st :
  In (Get key dflt) (handler_arguments t) ->
  arguments !! key = None ->
  dispatch (value t) arguments st =
  dispatch (value t) (<[key := dflt]> arguments) st.
Proof.
  intros Hin Hnone.
  unfold call_tool, getitem, get. rewrite match_name_value.
  destruct t; simpl in Hin; intuition; simplify_eq;
    rewrite ?lookup_insert_eq, ?lookup_insert_ne by done;
    rewrite ?Hnone; reflexivity.
Qed.

End RegistryLemmas.

(** C2, as the spec has it, fails on the number of operations: the catalog
    has 23 descriptors, not 22. *)
Lemma list_tools_not_22 : length list_tools <> 22.
Proof. simpl. lia. Qed.

(** C2 (amended): [list_tools] is a constant sequence; it has exactly one
    descriptor for each of the 23 members of [GitTools], in the order of the
    enumeration and under the member's wire name; and what each
    descriptor's schema declares, required fields and optional fields with
    their defaults, is exactly what [call_tool] reads for that tool. *)
Theorem list_tools_catalog :
  length list_tools = 23 /\
  map name list_tools = map value members /\
  NoDup (map name list_tools) /\
  (forall t : GitTools, In t members) /\
  (forall t : GitTools,
     length (List.filter (fun d => String.eqb (name d) (value t)) list_tools)
     = 1) /\
  Forall2 (fun t d =>
             name d = value t /\
             schema_arguments (inputSchema d) = handler_arguments t /\
             required (inputSchema d) = required_keys (handler_arguments t))
          members list_tools.
Proof.
  split; [reflexivity |].
  split; [reflexivity |].
  split; [apply (bool_decide_unpack _); by vm_compute |].
  split; [exact members_complete |].
  split; [by intros [] |].
  unfold members, list_tools. repeat constructor.
Qed.

(** ** The dispatcher *)

Section DispatcherLemmas.

Context (P : Platform).
Context (GIT_USERNAME GIT_TOKEN : pyval).

Local Abbreviation dispatch := (call_tool P GIT_USERNAME GIT_TOKEN).
Local Abbreviation run_operation := (operation P GIT_USERNAME GIT_TOKEN).

(** Case analysis on the outcome of the next monadic step. *)
Ltac next_step :=
  match goal with
  | |- context [match ?x with _ => _ end] =>
      match type of x with
      | (_ * result _)%type => destruct x as [? [? | ?]]
      | option _ => destruct x
      end
  end; cbv beta iota.

(** [call_tool] on a catalog name: open the repository, run the
    operation, put its text behind the label in one [TextContent]. *)
Lemma call_tool_operation (t : GitTools) (arguments : gmap string pyval) st :
  dispatch (value t) arguments st =
  (repo <- open_repository P arguments ;;
   r <- run_operation t repo arguments ;;
   ret [text_content (label P t arguments +:+ render P r)]) st.
Proof.
  unfold call_tool, open_repository. rewrite match_name_value.
  rewrite bind_assoc. apply bind_ext. intros v st1.
  rewrite bind_assoc. apply bind_ext. intros p st2.
  apply bind_ext. intros repo st3.
  destruct t; unfold operation, label, render, getitem, get, bind, ret, raise;
    repeat match goal with
           | |- context [arguments !! ?k] => destruct (arguments !! k)
           end;
    cbv beta iota; repeat next_step; rewrite ?append_assoc; reflexivity.
Qed.

(** On any other name the wildcard case is reached, after the same three
    steps. *)
Lemma call_tool_wildcard name (arguments : gmap string pyval) st :
  match_name name = None ->
  dispatch name arguments st =
  (repo <- open_repository P arguments ;;
   raise (ValueError ("Unknown tool: " +:+ name))) st.
Proof.
  intros H. unfold call_tool, open_repository. rewrite H.
  rewrite bind_assoc. apply bind_ext. intros v st1.
  by rewrite bind_assoc.
Qed.

(** The three ways [open_repository] ends. *)
Lemma open_repository_missing (arguments : gmap string pyval) st :
  arguments !! "repo_path" = None ->
  open_repository P arguments st = (st, Raise (KeyError "repo_path")).
Proof.
  intros H. unfold open_repository, getitem, bind, raise. by rewrite H.
Qed.

Lemma open_repository_invalid (arguments : gmap string pyval) st p e :
  arguments !! "repo_path" = Some (VStr p) ->
  query P (world st) (Repo_init (Some p)) = Raise e ->
  open_repository P arguments st = (st, Raise e).
Proof.
  intros H Hq.
  unfold open_repository, getitem, new_Repo, bind, ret, lift, ask, Path.
  by rewrite H, Hq.
Qed.

Lemma open_repository_Ok (arguments : gmap string pyval) st p repo :
  arguments !! "repo_path" = Some (VStr p) ->
  query P (world st) (Repo_init (Some p)) = Ok repo ->
  open_repository P arguments st = (set_environment ∅ st, Ok repo).
Proof.
  intros H Hq.
  unfold open_repository, getitem, new_Repo, bind, ret, lift, ask, Path.
  by rewrite H, Hq.
Qed.

(** A successful call went through an operation of the catalog. *)
Lemma call_tool_Ok_inv name (arguments : gmap string pyval) st st' out :
  dispatch name arguments st = (st', Ok out) ->
  exists t repo st1 r,
    match_name name = Some t /\
    open_repository P arguments st = (st1, Ok repo) /\
    run_operation t repo arguments st1 = (st', Ok r) /\
    out = [text_content (label P t arguments +:+ render P r)].
Proof.
  intros H. destruct (match_name name) as [t |] eqn:Hname.
  - apply match_name_Some in Hname as Hv. subst name.
    rewrite call_tool_operation in H.
    apply bind_inv_Ok in H as (st1 & repo & Hopen & H).
    apply bind_inv_Ok in H as (st2 & r & Hop & H).
    unfold ret in H. injection H as <- <-.
    by exists t, repo, st1, r.
  - rewrite call_tool_wildcard in H by done.
    apply bind_inv_Ok in H as (st1 & repo & _ & H). discriminate H.
Qed.

End DispatcherLemmas.

(** C4, as the spec has it, fails: an unknown identifier without
    [repo_path] ends in [KeyError], because the argument is read before the
    identifier is looked at. *)
Lemma unknown_tool_without_repo_path :
  match_name "git_frobnicate" = None /\
  call_tool Toy.platform VNone VNone "git_frobnicate" ∅ (Toy.initial Toy.w0)
  = (Toy.initial Toy.w0, Raise (KeyError "repo_path")) /\
  KeyError "repo_path" <> ValueError "Unknown tool: git_frobnicate".
Proof. split; [reflexivity |]. split; [reflexivity | discriminate]. Qed.

(** C4 (amended): for an identifier outside the catalog the dispatcher
    always ends in an exception and runs no command, and the identifier is
    looked at last: without [repo_path] the call raises [KeyError]; with a
    [repo_path] that is not a string, [TypeError]; with a path that does
    not open as a repository, the toolchain's error; only when the
    repository opens, [ValueError("Unknown tool: <identifier>")]. *)
Theorem unknown_tool_after_repository
    (P : Platform) (GIT_USERNAME GIT_TOKEN : pyval)
    (name : string) (arguments : gmap string pyval) (st : State P) :
  match_name name = None ->
  (arguments !! "repo_path" = None ->
   call_tool P GIT_USERNAME GIT_TOKEN name arguments st
   = (st, Raise (KeyError "repo_path"))) /\
  (forall v, arguments !! "repo_path" = Some v -> (forall p, v <> VStr p) ->
   exists msg, call_tool P GIT_USERNAME GIT_TOKEN name arguments st
               = (st, Raise (TypeError msg))) /\
  (forall p e, arguments !! "repo_path" = Some (VStr p) ->
   query P (world st) (Repo_init (Some p)) = Raise e ->
   call_tool P GIT_USERNAME GIT_TOKEN name arguments st = (st, Raise e)) /\
  (forall p repo, arguments !! "repo_path" = Some (VStr p) ->
   query P (world st) (Repo_init (Some p)) = Ok repo ->
   call_tool P GIT_USERNAME GIT_TOKEN name arguments st
   = (set_environment ∅ st, Raise (ValueError ("Unknown tool: " +:+ name)))).
Proof.
  intros Hname. repeat split.
  - apply repo_path_required.
  - intros v Hv Hnot. rewrite call_tool_wildcard by done.
    unfold open_repository, getitem, bind, ret, lift. rewrite Hv.
    destruct v; try (eexists; reflexivity). by destruct (Hnot s).
  - intros p e Hp Hq. rewrite call_tool_wildcard by done.
    by rewrite (bind_Raise _ _ _ _ _ (open_repository_invalid _ _ _ _ _ Hp Hq)).
  - intros p repo Hp Hq. rewrite call_tool_wildcard by done.
    by rewrite (bind_Ok _ _ _ _ _ (open_repository_Ok _ _ _ _ _ Hp Hq)).
Qed.

Lemma unknown_tool_after_repository_witness :
  match_name "git_frobnicate" = None /\
  call_tool Toy.platform VNone VNone "git_frobnicate"
    {[ "repo_path" := VStr "/repo" ]} (Toy.initial Toy.w0)
  = (set_environment ∅ (Toy.initial Toy.w0),
     Raise (ValueError ("Unknown tool: " +:+ "git_frobnicate"))).
Proof.
  split; [reflexivity |].
  apply (proj2 (proj2 (proj2
           (unknown_tool_after_repository Toy.platform VNone VNone
              "git_frobnicate" {[ "repo_path" := VStr "/repo" ]}
              (Toy.initial Toy.w0) eq_refl))) "/repo" Toy.repo);
    reflexivity.
Defined.

(** C9, as the spec has it, fails: for [git_get_current_branch] the text of
    the result is the returned branch name and nothing else, so no label
    is put in front of it. *)
Lemma get_current_branch_not_labelled :
  snd (git_get_current_branch Toy.platform Toy.repo (Toy.initial Toy.w0))
  = Ok "main" /\
  snd (call_tool Toy.platform VNone VNone "git_get_current_branch"
         {[ "repo_path" := VStr "/repo" ]} (Toy.initial Toy.w0))
  = Ok [text_content "main"] /\
  (forall prefix : string, "main" = prefix +:+ "main" -> prefix = "").
Proof.
  split; [reflexivity |]. split; [reflexivity |].
  intros prefix H. apply (f_equal String.length) in H.
  rewrite length_append in H. simpl in H.
  destruct prefix; [done | simpl in H; lia].
Qed.

(** C9 (amended): a successful invocation returns the text of what the
    operation function returned, behind the label of the operation.  Seven
    operations have a label ("Repository status:", "Unstaged changes:",
    "Staged changes:", "Diff with <target>:", "Commit history:",
    "Branches:", "Remotes:", each followed by a line feed); for the other
    sixteen the text is the returned string itself. *)
Theorem call_tool_label
    (P : Platform) (GIT_USERNAME GIT_TOKEN : pyval)
    (t : GitTools) (arguments : gmap string pyval) (st st' : State P)
    (out : list TextContent) :
  call_tool P GIT_USERNAME GIT_TOKEN (value t) arguments st = (st', Ok out) ->
  exists repo st1 r,
    open_repository P arguments st = (st1, Ok repo) /\
    operation P GIT_USERNAME GIT_TOKEN t repo arguments st1 = (st', Ok r) /\
    out = [text_content (label P t arguments +:+ render P r)] /\
    (labelled t = false -> out = [text_content (render P r)]) /\
    label P STATUS arguments = "Repository status:" +:+ nl /\
    label P DIFF_UNSTAGED arguments = "Unstaged changes:" +:+ nl /\
    label P DIFF_STAGED arguments = "Staged changes:" +:+ nl /\
    label P DIFF arguments =
      "Diff with " +:+ py_str P (get arguments "target" VNone) +:+ ":" +:+ nl /\
    label P LOG arguments = "Commit history:" +:+ nl /\
    label P LIST_BRANCHES arguments = "Branches:" +:+ nl /\
    label P LIST_REMOTES arguments = "Remotes:" +:+ nl.
Proof.
  intros H.
  apply call_tool_Ok_inv in H as (t' & repo & st1 & r & Ht & Hopen & Hop & ->).
  rewrite match_name_value in Ht. injection Ht as <-.
  exists repo, st1, r. repeat split; try done.
  intros Hl. by destruct t.
Qed.

Lemma call_tool_label_witness :
  let arguments : gmap string pyval := {[ "repo_path" := VStr "/repo" ]} in
  let st' := Build_State Toy.platform Toy.w0 ∅
               [Ev ∅ (Git Toy.repo "status" [])] in
  let out := [text_content ("Repository status:" +:+ nl +:+
                            "nothing to commit, working tree clean")] in
  call_tool Toy.platform VNone VNone (value STATUS) arguments
    (Toy.initial Toy.w0) = (st', Ok out) /\
  exists repo st1 r,
    open_repository Toy.platform arguments (Toy.initial Toy.w0)
    = (st1, Ok repo) /\
    operation Toy.platform VNone VNone STATUS repo arguments st1
    = (st', Ok r) /\
    out = [text_content (label Toy.platform STATUS arguments +:+
                         render Toy.platform r)].
Proof.
  intros arguments st' out. split; [reflexivity |].
  destruct (call_tool_label Toy.platform VNone VNone STATUS arguments
              (Toy.initial Toy.w0) st' out)
    as (repo & st1 & r & Hopen & Hop & Hout & _); [reflexivity |].
  exists repo, st1, r. repeat split; assumption.
Defined.

(** C10: a successful invocation returns exactly one text segment,
    whatever the tool and the arguments; the entries of [git_log] and of
    [git_list_branches] are joined with line feeds into that segment. *)
Theorem call_tool_single_segment
    (P : Platform) (GIT_USERNAME GIT_TOKEN : pyval)
    (name : string) (arguments : gmap string pyval) (st st' : State P)
    (out : list TextContent) :
  call_tool P GIT_USERNAME GIT_TOKEN name arguments st = (st', Ok out) ->
  length out = 1 /\
  exists t, match_name name = Some t /\
    (t = LOG -> exists repo st1 log,
       git_log P repo (get arguments "max_count" (VInt 10)) st1
       = (st', Ok log) /\
       out = [text_content ("Commit history:" +:+ nl +:+ join nl log)]) /\
    (t = LIST_BRANCHES -> exists repo st1 branches,
       git_list_branches P repo st1 = (st', Ok branches) /\
       out = [text_content ("Branches:" +:+ nl +:+ join nl branches)]).
Proof.
  intros H.
  apply call_tool_Ok_inv in H as (t & repo & st1 & r & Ht & Hopen & Hop & ->).
  split; [reflexivity |]. exists t. split; [done |]. split; intros ->.
  - apply bind_inv_Ok in Hop as (st2 & log & Hlog & Hret).
    injection Hret as <- <-. by exists repo, st1, log.
  - apply bind_inv_Ok in Hop as (st2 & branches & Hb & Hret).
    injection Hret as <- <-. by exists repo, st1, branches.
Qed.

Lemma call_tool_single_segment_witness :
  let arguments : gmap string pyval := {[ "repo_path" := VStr "/repo" ]} in
  let out := [text_content
                ("Commit history:" +:+ nl +:+
                 join nl [commit_header Toy.second_commit;
                          commit_header Toy.root_commit])] in
  call_tool Toy.platform VNone VNone "git_log" arguments (Toy.initial Toy.w0)
  = (set_environment ∅ (Toy.initial Toy.w0), Ok out) /\
  length out = 1.
Proof.
  intros arguments out. split; [reflexivity |].
  apply (call_tool_single_segment Toy.platform VNone VNone "git_log"
           arguments (Toy.initial Toy.w0)
           (set_environment ∅ (Toy.initial Toy.w0)) out).
  reflexivity.
Defined.

(** ** The operation layer *)

Section OperationLemmas.

Context (P : Platform).

Lemma call_eq {X} (c : Cmd X) (st : State P) w r :
  exec P (world st) (environment st) c = (w, r) ->
  call c st = (after c w st, r).
Proof. intros H. unfold call, after. by rewrite H. Qed.

(** Looking a branch up only asks queries: the state is untouched. *)
Lemma find_merge_branch_state repo branch (st : State P) :
  fst (find_merge_branch P repo branch st) = st.
Proof.
  unfold find_merge_branch, try_except, bind, ask, lift, raise.
  repeat (match goal with
          | |- context [match query P ?w ?q with _ => _ end] =>
              destruct (query P w q)
          | |- context [match IterableList_getitem P ?l ?b with _ => _ end] =>
              destruct (IterableList_getitem P l b)
          | |- context [if ?c then _ else _] => destruct c
          end; simpl); done.
Qed.

(** A local branch of that name is taken first. *)
Lemma find_merge_branch_local repo name (st : State P) heads r :
  list_getattribute P name = None ->
  query P (world st) (Repo_heads repo) = Ok heads ->
  find (named name) heads = Some r ->
  find_merge_branch P repo (VStr name) st = (st, Ok (Ref r)).
Proof.
  intros Ha Hq Hf.
  unfold find_merge_branch, try_except, bind, ask, lift. rewrite Hq. simpl.
  by rewrite Ha, Hf.
Qed.

(** Otherwise a reference of that name, for instance a remote-tracking
    branch. *)
Lemma find_merge_branch_ref repo name (st : State P) heads refs r :
  list_getattribute P name = None ->
  query P (world st) (Repo_heads repo) = Ok heads ->
  find (named name) heads = None ->
  query P (world st) (Repo_refs repo) = Ok refs ->
  find (named name) refs = Some r ->
  find_merge_branch P repo (VStr name) st = (st, Ok (Ref r)).
Proof.
  intros Ha Hq Hf Hq' Hf'.
  unfold find_merge_branch, try_except, bind, ask, lift. rewrite Hq. simpl.
  rewrite Ha, Hf. simpl. rewrite Hq'. simpl. by rewrite Hf'.
Qed.

(** A name that is an attribute of the list object is never looked up
    among the branches: the attribute is the result. *)
Lemma find_merge_branch_attribute repo name (st : State P) heads a :
  list_getattribute P name = Some a ->
  query P (world st) (Repo_heads repo) = Ok heads ->
  find_merge_branch P repo (VStr name) st = (st, Ok (Attr a)).
Proof.
  intros Ha Hq.
  unfold find_merge_branch, try_except, bind, ask, lift. rewrite Hq. simpl.
  by rewrite Ha.
Qed.

(** And when neither has it the merge is refused before any command. *)
Lemma find_merge_branch_missing repo name (st : State P) heads refs :
  list_getattribute P name = None ->
  query P (world st) (Repo_heads repo) = Ok heads ->
  find (named name) heads = None ->
  query P (world st) (Repo_refs repo) = Ok refs ->
  find (named name) refs = None ->
  find_merge_branch P repo (VStr name) st
  = (st, Raise (ValueError ("Branch '" +:+ name +:+ "' not found"))).
Proof.
  intros Ha Hq Hf Hq' Hf'.
  unfold find_merge_branch, try_except, bind, ask, lift, raise.
  rewrite Hq. simpl. rewrite Ha, Hf. simpl. rewrite Hq'. simpl.
  by rewrite Hf'.
Qed.

(** A failure of the merge command that does not carry the marker passes
    through [git_merge] as it is, and no second command is issued. *)
Lemma merge_other_failure repo branch (st : State P) current
    (merge_branch : Object) e w1 :
  query P (world st) (Repo_active_branch repo) = Ok current ->
  find_merge_branch P repo branch st = (st, Ok merge_branch) ->
  exec P (world st) (environment st)
    (Git repo "merge" [GRef merge_branch; GVal (VStr "--no-ff")])
  = (w1, Raise e) ->
  contains "automatic merge failed" (exn_str e) = false ->
  git_merge P repo branch st
  = (after (Git repo "merge" [GRef merge_branch; GVal (VStr "--no-ff")]) w1 st,
     Raise e).
Proof.
  intros Hcur Hfind Hmerge Hmark.
  unfold git_merge. rewrite (bind_Ok _ _ _ _ _ (eq_trans (ask_eq _ _)
                                (f_equal (pair st) Hcur))).
  unfold try_except.
  rewrite (bind_Ok _ _ _ _ _ Hfind).
  rewrite (bind_Raise _ _ _ _ _ (call_eq _ _ _ _ Hmerge)).
  destruct (isinstance e ["GitCommandError"]); [| done].
  by rewrite Hmark.
Qed.

End OperationLemmas.

(** C1: a merge that stops on a conflict is not aborted.  git reports the
    conflict with the line "Automatic merge failed; fix conflicts and then
    commit the result.", and [git_merge] looks for "automatic merge failed"
    with [in], which compares characters exactly.  So for the error that
    GitPython raises for a conflicting [git merge feature --no-ff], on
    every toolchain, [git_merge] raises that [GitCommandError] again
    instead of the conflict error: the merge command is the only command it
    has run, no [merge --abort] follows, and the repository is left as the
    failed merge left it. *)
Theorem merge_conflict_is_not_aborted
    (P : Platform) (repo : Repo) (branch : pyval) (st : State P)
    (current : Reference) (merge_branch : Object) (w1 : World P) :
  query P (world st) (Repo_active_branch repo) = Ok current ->
  find_merge_branch P repo branch st = (st, Ok merge_branch) ->
  exec P (world st) (environment st)
    (Git repo "merge" [GRef merge_branch; GVal (VStr "--no-ff")])
  = (w1, Raise merge_conflict) ->
  exists st',
    git_merge P repo branch st = (st', Raise merge_conflict)
    /\ world st' = w1
    /\ environment st' = environment st
    /\ trace st' =
       trace st ++
       [Ev (environment st)
          (Git repo "merge" [GRef merge_branch; GVal (VStr "--no-ff")])].
Proof.
  intros Hcur Hfind Hmerge.
  eexists. split.
  - apply (merge_other_failure P repo branch st current merge_branch
             merge_conflict w1 Hcur Hfind Hmerge).
    reflexivity.
  - repeat split.
Qed.

Lemma merge_conflict_is_not_aborted_witness :
  exists st',
    git_merge Toy.platform Toy.repo (VStr "feature") (Toy.initial Toy.w0)
    = (st', Raise merge_conflict)
    /\ world st' = Toy.set_merge_head (Some Toy.feature) Toy.w0
    /\ environment st' = ∅
    /\ trace st' =
       [Ev ∅ (Git Toy.repo "merge"
                [GRef Toy.feature; GVal (VStr "--no-ff")])].
Proof.
  apply (merge_conflict_is_not_aborted Toy.platform Toy.repo (VStr "feature")
           (Toy.initial Toy.w0) Toy.main Toy.feature
           (Toy.set_merge_head (Some Toy.feature) Toy.w0));
    reflexivity.
Defined.


Section NetworkOperations.

Context (P : Platform).
Context (GIT_USERNAME GIT_TOKEN : pyval).

Lemma use_credentials_true (remote_obj : Remote) :
  use_credentials GIT_USERNAME GIT_TOKEN remote_obj = true <->
  startswith (url remote_obj) "https://" = true /\
  truthy GIT_USERNAME = true /\ truthy GIT_TOKEN = true.
Proof. unfold use_credentials. rewrite !andb_true_iff. tauto. Qed.

(** Both branches of the credential test in [git_pull] run the pull
    command once; they differ in the environment only. *)
Lemma pull_attempt repo remote branch rebase remote_obj (st : State P) w r :
  exec P (world st)
    (call_environment GIT_USERNAME GIT_TOKEN remote_obj (environment st))
    (Git repo "pull" (pull_arguments remote branch)) = (w, r) ->
  exists msg,
    (if use_credentials GIT_USERNAME GIT_TOKEN remote_obj then
       custom_environment (credentials GIT_USERNAME GIT_TOKEN)
         (pull_body P repo remote branch rebase)
     else pull_body P repo remote branch rebase) st
    = (after_network GIT_USERNAME GIT_TOKEN
         (Git repo "pull" (pull_arguments remote branch)) remote_obj w st,
       match r with Ok _ => Ok msg | Raise e => Raise e end).
Proof.
  unfold after_network, call_environment, pull_arguments, pull_body,
    custom_environment, bind, call, ret.
  destruct (use_credentials GIT_USERNAME GIT_TOKEN remote_obj),
    (truthy branch); intros H;
    cbn [world environment trace set_environment]; rewrite H;
    (destruct r; [eexists; reflexivity | exists ""; reflexivity]).
Qed.

(** [git_pull] up to the [except] clause: the remote is looked up, the
    strategy is written to the configuration, the pull command runs. *)
Lemma git_pull_eval repo remote branch rebase remote_obj (st : State P)
    w1 w2 r :
  query P (world st) (Repo_remote repo remote) = Ok remote_obj ->
  exec P (world st) (environment st)
    (Config_set_value repo "pull" "rebase" (rebase_value rebase))
  = (w1, Ok tt) ->
  exec P w1
    (call_environment GIT_USERNAME GIT_TOKEN remote_obj (environment st))
    (Git repo "pull" (pull_arguments remote branch)) = (w2, r) ->
  exists msg,
    git_pull P GIT_USERNAME GIT_TOKEN repo remote branch rebase st
    = (after_network GIT_USERNAME GIT_TOKEN
         (Git repo "pull" (pull_arguments remote branch)) remote_obj w2
         (after (Config_set_value repo "pull" "rebase" (rebase_value rebase))
            w1 st),
       match r with
       | Ok _ => Ok msg
       | Raise e =>
           if isinstance e ["GitCommandError"] then
             if contains "resolve your current index first" (exn_str e) then
               Raise (ValueError
                 "Cannot pull: You have unstaged changes. Please commit or stash them first.")
             else if contains "automatic merge failed" (exn_str e) then
               Raise (ValueError
                 "Pull failed: Merge conflicts detected. Please resolve conflicts manually.")
             else Raise e
           else Raise e
       end).
Proof.
  intros Hremote Hconfig Hpull.
  destruct (pull_attempt repo remote branch rebase remote_obj
              (after (Config_set_value repo "pull" "rebase"
                        (rebase_value rebase)) w1 st) w2 r Hpull)
    as [msg Hattempt].
  exists msg. unfold git_pull.
  rewrite (bind_Ok _ _ _ _ _ (eq_trans (ask_eq _ _)
                                (f_equal (pair st) Hremote))).
  assert (Hcfg : (if truthy rebase
                  then call (Config_set_value repo "pull" "rebase" "true")
                  else call (Config_set_value repo "pull" "rebase" "false")) st
                 = (after (Config_set_value repo "pull" "rebase"
                             (rebase_value rebase)) w1 st, Ok tt)).
  { unfold rebase_value in *. destruct (truthy rebase); by apply call_eq. }
  rewrite (bind_Ok _ _ _ _ _ Hcfg).
  unfold try_except. rewrite Hattempt.
  destruct r as [v | e]; [reflexivity |].
  destruct (isinstance e ["GitCommandError"]); [| reflexivity].
  unfold raise.
  destruct (contains "resolve your current index first" (exn_str e));
    [reflexivity |].
  by destruct (contains "automatic merge failed" (exn_str e)).
Qed.

End NetworkOperations.

(** C3: the failures that git reports for a pull in the situations of the
    claim are not classified.  [git_pull] looks for "resolve your current
    index first" and for "automatic merge failed"; a pull blocked by a
    local modification reports "Your local changes to the following files
    would be overwritten by merge", a pull with rebase blocked by unstaged
    changes reports "cannot pull with rebase: You have unstaged changes",
    and a conflict reports "Automatic merge failed".  So for each of these
    three errors, on every toolchain, [git_pull] raises the
    [GitCommandError] again as it is, and neither the dirty-working-tree
    error nor the merge-conflict error. *)
Theorem pull_failures_of_git_not_classified
    (P : Platform) (GIT_USERNAME GIT_TOKEN : pyval)
    (repo : Repo) (remote branch rebase : pyval) (st : State P)
    (remote_obj : Remote) (w1 w2 : World P) (e : exn) :
  In e [pull_blocked_by_local_changes; pull_blocked_by_unstaged_changes;
        pull_conflict] ->
  query P (world st) (Repo_remote repo remote) = Ok remote_obj ->
  exec P (world st) (environment st)
    (Config_set_value repo "pull" "rebase" (rebase_value rebase))
  = (w1, Ok tt) ->
  exec P w1
    (call_environment GIT_USERNAME GIT_TOKEN remote_obj (environment st))
    (Git repo "pull" (pull_arguments remote branch)) = (w2, Raise e) ->
  snd (git_pull P GIT_USERNAME GIT_TOKEN repo remote branch rebase st)
  = Raise e.
Proof.
  intros He Hremote Hconfig Hpull.
  destruct (git_pull_eval P GIT_USERNAME GIT_TOKEN repo remote branch rebase
              remote_obj st w1 w2 (Raise e) Hremote Hconfig Hpull)
    as [msg ->].
  cbn [snd].
  destruct He as [<- | [<- | [<- | []]]]; reflexivity.
Qed.

Lemma pull_failures_of_git_not_classified_witness :
  let w := Toy.set_pull_failure
             (Some (exn_str pull_blocked_by_local_changes)) Toy.w0 in
  snd (git_pull Toy.platform VNone VNone Toy.repo (VStr "origin")
         (VStr "main") (VBool false) (Toy.initial w))
  = Raise pull_blocked_by_local_changes.
Proof.
  intros w.
  apply (pull_failures_of_git_not_classified Toy.platform VNone VNone
           Toy.repo (VStr "origin") (VStr "main") (VBool false)
           (Toy.initial w) Toy.origin
           (Toy.add_config ("pull", "rebase", "false") w)
           (Toy.add_config ("pull", "rebase", "false") w));
    [left; reflexivity | reflexivity | reflexivity | reflexivity].
Defined.

Section Credentials.

Context (P : Platform).
Context (GIT_USERNAME GIT_TOKEN : pyval).

(** [git_push] looks the remote up and runs one push command. *)
Lemma git_push_eval repo remote branch remote_obj (st : State P) w r :
  query P (world st) (Repo_remote repo remote) = Ok remote_obj ->
  exec P (world st)
    (call_environment GIT_USERNAME GIT_TOKEN remote_obj (environment st))
    (Remote_push repo remote_obj (push_refspec branch)) = (w, r) ->
  exists msg,
    git_push P GIT_USERNAME GIT_TOKEN repo remote branch st
    = (after_network GIT_USERNAME GIT_TOKEN
         (Remote_push repo remote_obj (push_refspec branch)) remote_obj w st,
       match r with Ok _ => Ok msg | Raise e => Raise e end).
Proof.
  intros Hremote. unfold git_push.
  rewrite (bind_Ok _ _ _ _ _ (eq_trans (ask_eq _ _)
                                (f_equal (pair st) Hremote))).
  unfold after_network, call_environment, push_refspec,
    custom_environment, bind, call, ret.
  destruct (use_credentials GIT_USERNAME GIT_TOKEN remote_obj),
    (truthy branch); intros H;
    cbn [world environment trace set_environment]; rewrite H;
    (destruct r; [eexists; reflexivity | exists ""; reflexivity]).
Qed.

(** [git_fetch] looks the remote up and runs one fetch command. *)
Lemma git_fetch_eval repo remote remote_obj (st : State P) w r :
  query P (world st) (Repo_remote repo remote) = Ok remote_obj ->
  exec P (world st)
    (call_environment GIT_USERNAME GIT_TOKEN remote_obj (environment st))
    (Remote_fetch repo remote_obj) = (w, r) ->
  exists msg,
    git_fetch P GIT_USERNAME GIT_TOKEN repo remote st
    = (after_network GIT_USERNAME GIT_TOKEN
         (Remote_fetch repo remote_obj) remote_obj w st,
       match r with Ok _ => Ok msg | Raise e => Raise e end).
Proof.
  intros Hremote. unfold git_fetch.
  rewrite (bind_Ok _ _ _ _ _ (eq_trans (ask_eq _ _)
                                (f_equal (pair st) Hremote))).
  unfold after_network, call_environment, custom_environment, bind, call, ret.
  destruct (use_credentials GIT_USERNAME GIT_TOKEN remote_obj); intros H;
    cbn [world environment trace set_environment]; rewrite H;
    (destruct r; [eexists; reflexivity | exists ""; reflexivity]).
Qed.

End Credentials.

(** C8, as the spec has it, fails in the "if" direction: with both
    credential values present, a push to an [ssh://] remote and a fetch
    from an [http://] remote, both network transports, run without them;
    and so does a push to the [https://] remote when the user name is
    present but empty. *)
Lemma other_network_remotes_get_no_credentials :
  spec_network_transport (url Toy.backup) = true /\
  spec_network_transport (url Toy.mirror) = true /\
  spec_network_transport (url Toy.origin) = true /\
  truthy (VStr "alice") = true /\ truthy (VStr "s3cret") = true /\
  trace (fst (git_push Toy.platform (VStr "alice") (VStr "s3cret") Toy.repo
                (VStr "backup") VNone (Toy.initial Toy.w0)))
  = [Ev ∅ (Remote_push Toy.repo Toy.backup None)] /\
  trace (fst (git_fetch Toy.platform (VStr "alice") (VStr "s3cret") Toy.repo
                (VStr "mirror") (Toy.initial Toy.w0)))
  = [Ev ∅ (Remote_fetch Toy.repo Toy.mirror)] /\
  trace (fst (git_push Toy.platform (VStr "") (VStr "s3cret") Toy.repo
                (VStr "origin") VNone (Toy.initial Toy.w0)))
  = [Ev ∅ (Remote_push Toy.repo Toy.origin None)].
Proof. repeat split; reflexivity. Qed.

(** C8 (amended): push, pull and fetch run their network command with
    [GIT_USERNAME] and [GIT_PASSWORD] added to the environment if and only
    if the URL of the remote starts with "https://" and both credential
    values are present and not empty.  The environment of the command
    object is afterwards what it was before, and the credentials are never
    written to the configuration: push and fetch issue no other command,
    and pull writes only "true" or "false" to [pull.rebase]. *)
Theorem credentials_only_for_https
    (P : Platform) (GIT_USERNAME GIT_TOKEN : pyval)
    (repo : Repo) (remote branch rebase : pyval) (st : State P)
    (remote_obj : Remote) :
  query P (world st) (Repo_remote repo remote) = Ok remote_obj ->
  let env := call_environment GIT_USERNAME GIT_TOKEN remote_obj
               (environment st) in
  let pushed := fst (git_push P GIT_USERNAME GIT_TOKEN repo remote branch st) in
  let fetched := fst (git_fetch P GIT_USERNAME GIT_TOKEN repo remote st) in
  let pulled :=
    fst (git_pull P GIT_USERNAME GIT_TOKEN repo remote branch rebase st) in
  (startswith (url remote_obj) "https://" = true /\
   truthy GIT_USERNAME = true /\ truthy GIT_TOKEN = true ->
   env = {[ "GIT_USERNAME" := GIT_USERNAME; "GIT_PASSWORD" := GIT_TOKEN ]}
         ∪ environment st) /\
  (~ (startswith (url remote_obj) "https://" = true /\
      truthy GIT_USERNAME = true /\ truthy GIT_TOKEN = true) ->
   env = environment st) /\
  (trace pushed =
     trace st ++ [Ev env (Remote_push repo remote_obj (push_refspec branch))]
   /\ environment pushed = environment st) /\
  (trace fetched = trace st ++ [Ev env (Remote_fetch repo remote_obj)]
   /\ environment fetched = environment st) /\
  (forall w1,
     exec P (world st) (environment st)
       (Config_set_value repo "pull" "rebase" (rebase_value rebase))
     = (w1, Ok tt) ->
     trace pulled =
       trace st ++
       [Ev (environment st)
          (Config_set_value repo "pull" "rebase" (rebase_value rebase));
        Ev env (Git repo "pull" (pull_arguments remote branch))]
     /\ environment pulled = environment st).
Proof.
  intros Hremote env pushed fetched pulled.
  split; [| split; [| split; [| split]]].
  - intros H%use_credentials_true. subst env. unfold call_environment.
    by rewrite H.
  - intros H. subst env. unfold call_environment.
    destruct (use_credentials GIT_USERNAME GIT_TOKEN remote_obj) eqn:Hc;
      [| done].
    by apply use_credentials_true in Hc.
  - subst pushed.
    destruct (exec P (world st) env
                (Remote_push repo remote_obj (push_refspec branch)))
      as [w r] eqn:Hexec.
    destruct (git_push_eval P GIT_USERNAME GIT_TOKEN repo remote branch
                remote_obj st w r Hremote Hexec) as [msg ->].
    by split.
  - subst fetched.
    destruct (exec P (world st) env (Remote_fetch repo remote_obj))
      as [w r] eqn:Hexec.
    destruct (git_fetch_eval P GIT_USERNAME GIT_TOKEN repo remote
                remote_obj st w r Hremote Hexec) as [msg ->].
    by split.
  - intros w1 Hconfig. subst pulled.
    destruct (exec P w1 env (Git repo "pull" (pull_arguments remote branch)))
      as [w2 r] eqn:Hexec.
    destruct (git_pull_eval P GIT_USERNAME GIT_TOKEN repo remote branch
                rebase remote_obj st w1 w2 r Hremote Hconfig Hexec)
      as [msg ->].
    split; [| done]. cbn [fst after_network after trace environment].
    by rewrite <- app_assoc.
Qed.

Lemma credentials_only_for_https_witness :
  trace (fst (git_push Toy.platform (VStr "alice") (VStr "s3cret") Toy.repo
                (VStr "origin") (VStr "main") (Toy.initial Toy.w0)))
  = [Ev {[ "GIT_USERNAME" := VStr "alice"; "GIT_PASSWORD" := VStr "s3cret" ]}
       (Remote_push Toy.repo Toy.origin (Some (VStr "main")))]
  /\ environment
       (fst (git_push Toy.platform (VStr "alice") (VStr "s3cret") Toy.repo
               (VStr "origin") (VStr "main") (Toy.initial Toy.w0))) = ∅.
Proof.
  exact (proj1 (proj2 (proj2
           (credentials_only_for_https Toy.platform (VStr "alice")
              (VStr "s3cret") Toy.repo (VStr "origin") (VStr "main")
              (VBool false) (Toy.initial Toy.w0) Toy.origin eq_refl)))).
Defined.

Section CreateBranch.

Context (P : Platform).

Lemma decode_if_bytes_state (x : pyval) (st st' : State P) r :
  decode_if_bytes P x st = (st', r) -> st' = st.
Proof.
  unfold decode_if_bytes, ret, raise.
  destruct x; try (by intros [= <- _]).
  destruct (utf8_decode P b); by intros [= <- _].
Qed.

(** [base.name] gives a value for a reference only. *)
Lemma Object_name_Ok (o : Object) (v : pyval) :
  Object_name o = Ok v -> exists r, o = Ref r /\ v = ref_name r.
Proof. destruct o as [r | a]; [| discriminate]. intros [= <-]. by exists r. Qed.

Lemma base_lookup_inv repo base_branch (st st1 : State P) (base : Object) :
  (if truthy base_branch then
     try_except
       (heads <- ask (Repo_heads repo) ;;
        lift (IterableList_getitem P heads base_branch))
       ["IndexError"; "AttributeError"]
       (fun _ =>
          raise (ValueError
                   ("Branch '" +:+ py_str P base_branch +:+ "' not found")))
   else
     active_branch <- ask (Repo_active_branch repo) ;;
     ret (Ref active_branch)) st = (st1, Ok base) ->
  st1 = st /\
  ((truthy base_branch = true /\
    exists heads, query P (world st) (Repo_heads repo) = Ok heads /\
                  IterableList_getitem P heads base_branch = Ok base) \/
   (truthy base_branch = false /\
    exists active, query P (world st) (Repo_active_branch repo) = Ok active /\
                   base = Ref active)).
Proof.
  destruct (truthy base_branch).
  - unfold try_except, bind, ask, lift, raise.
    destruct (query P (world st) (Repo_heads repo)) as [heads | e].
    + destruct (IterableList_getitem P heads base_branch) as [r | e] eqn:Hget.
      * intros [= <- <-]. split; [done |]. left. split; [done |].
        by exists heads.
      * destruct (isinstance e _); discriminate.
    + destruct (isinstance e _); discriminate.
  - unfold bind, ask, ret.
    destruct (query P (world st) (Repo_active_branch repo)) as [active | e];
      [| discriminate].
    intros [= <- <-]. split; [done |]. right. split; [done |].
    by exists active.
Qed.

(** A successful [git_create_branch] resolved a base, ran [create_head]
    on it and nothing else. *)
Lemma git_create_branch_Ok_inv repo branch_name base_branch
    (st st' : State P) msg :
  git_create_branch P repo branch_name base_branch st = (st', Ok msg) ->
  exists (base new_branch : Reference),
    resolved_base repo base_branch st base /\
    exec P (world st) (environment st) (Create_head repo branch_name base)
    = (world st', Ok new_branch) /\
    st' = after (Create_head repo branch_name base) (world st') st.
Proof.
  unfold git_create_branch. intros H.
  apply bind_inv_Ok in H as (st1 & base & Hbase & H).
  apply base_lookup_inv in Hbase as [-> Hbase].
  apply bind_inv_Ok in H as (st2 & new_branch & Hcall & H).
  apply bind_inv_Ok in H as (st3 & name & Hname & H).
  apply bind_inv_Ok in H as (st4 & base_name & Hd1 & H).
  apply bind_inv_Ok in H as (st5 & branch_name_str & Hd2 & H).
  injection Hname as <- Hname.
  apply Object_name_Ok in Hname as (r & -> & ->).
  apply decode_if_bytes_state in Hd1 as ->.
  apply decode_if_bytes_state in Hd2 as ->.
  injection H as <- _.
  unfold call in Hcall.
  destruct (exec P (world st) (environment st)
              (Create_head repo branch_name r)) as [w res] eqn:Hexec.
  injection Hcall as <- ->.
  exists r, new_branch. split; [| by split].
  unfold resolved_base.
  destruct Hbase as [[Ht (heads & Hq & Hget)] | [Hf (active & Hq & Heq)]].
  - left. split; [done |]. by exists heads.
  - right. split; [done |]. by injection Heq as ->.
Qed.

End CreateBranch.

(** C6, as the spec has it, fails for a base that is given as the empty
    string: no local branch has that name, yet the call is not refused; the
    branch is created from the checked-out branch. *)
Lemma empty_base_branch_not_refused :
  find (named "") (Toy.heads Toy.w0) = None /\
  snd (git_create_branch Toy.platform Toy.repo (VStr "topic") (VStr "")
         (Toy.initial Toy.w0))
  = Ok "Created branch 'topic' from 'main'" /\
  Toy.heads (world (fst (git_create_branch Toy.platform Toy.repo
                           (VStr "topic") (VStr "") (Toy.initial Toy.w0))))
  = [Toy.main; Toy.feature; {| ref_name := VStr "topic" |}].
Proof. repeat split; reflexivity. Qed.

(** C6 (amended): if [base_branch] is a non-empty string that is not the
    name of an attribute of the list of branches and names no local branch,
    [git_create_branch] fails with
    [ValueError("Branch '<base_branch>' not found")] and creates nothing (it
    issues no command).  If [base_branch] is absent, [None] or empty, the
    base is the checked-out branch.  On success the base is a branch, the
    only command issued is [create_head(branch_name, base)] on it, with no
    checkout; with a toolchain whose [create_head] does not switch
    branches, the checked-out branch is afterwards what it was. *)
Theorem create_branch_base
    (P : Platform) (repo : Repo) (branch_name base_branch : pyval)
    (st : State P) :
  (forall b heads,
     base_branch = VStr b -> b <> "" ->
     list_getattribute P b = None ->
     query P (world st) (Repo_heads repo) = Ok heads ->
     find (named b) heads = None ->
     git_create_branch P repo branch_name base_branch st
     = (st, Raise (ValueError ("Branch '" +:+ b +:+ "' not found")))) /\
  (forall active w r,
     truthy base_branch = false ->
     query P (world st) (Repo_active_branch repo) = Ok active ->
     exec P (world st) (environment st)
       (Create_head repo branch_name active) = (w, r) ->
     fst (git_create_branch P repo branch_name base_branch st)
     = after (Create_head repo branch_name active) w st) /\
  (forall st' msg,
     git_create_branch P repo branch_name base_branch st = (st', Ok msg) ->
     exists base new_branch,
       resolved_base repo base_branch st base /\
       exec P (world st) (environment st) (Create_head repo branch_name base)
       = (world st', Ok new_branch) /\
       trace st' =
         trace st ++ [Ev (environment st) (Create_head repo branch_name base)]
       /\
       (create_head_keeps_active P ->
        query P (world st') (Repo_active_branch repo)
        = query P (world st) (Repo_active_branch repo))).
Proof.
  split; [| split].
  - intros b heads -> Hb Ha Hq Hfind.
    unfold git_create_branch, try_except, bind, ask, lift, raise. simpl.
    destruct (String.eqb_spec b ""); [done |]. simpl.
    by rewrite Hq, Ha, Hfind.
  - intros active w r Hfalse Hq Hexec.
    unfold git_create_branch. rewrite Hfalse.
    assert (Hbase : (active_branch <- ask (Repo_active_branch repo) ;;
                     ret (Ref active_branch)) st = (st, Ok (Ref active))).
    { unfold bind, ask, ret. by rewrite Hq. }
    rewrite (bind_Ok _ _ _ _ _ Hbase).
    destruct r as [new_branch | e].
    + rewrite (bind_Ok _ _ _ _ _ (call_eq _ _ _ _ _ Hexec)).
      unfold bind, lift. cbn [Object_name].
      destruct (decode_if_bytes P (ref_name active) _) as [st1 [a | e]] eqn:H1;
        apply decode_if_bytes_state in H1 as ->; [| done].
      destruct (decode_if_bytes P branch_name _) as [st2 [b | e]] eqn:H2;
        apply decode_if_bytes_state in H2 as ->; done.
    + by rewrite (bind_Raise _ _ _ _ _ (call_eq _ _ _ _ _ Hexec)).
  - intros st' msg H.
    apply git_create_branch_Ok_inv in H
      as (base & new_branch & Hbase & Hexec & Hst).
    exists base, new_branch. repeat split; try done.
    + by rewrite Hst.
    + intros Hcontract. by apply (Hcontract _ _ _ _ _ _ _ Hexec).
Qed.

(** The in-memory platform honours the contract of [create_head]. *)
Lemma toy_create_head_keeps_active : create_head_keeps_active Toy.platform.
Proof. intros repo w env name [r | a] w' h [= <- _]. reflexivity. Qed.

Lemma create_branch_base_witness :
  git_create_branch Toy.platform Toy.repo (VStr "topic") (VStr "release")
    (Toy.initial Toy.w0)
  = (Toy.initial Toy.w0, Raise (ValueError "Branch 'release' not found")) /\
  fst (git_create_branch Toy.platform Toy.repo (VStr "topic") VNone
         (Toy.initial Toy.w0))
  = after (P := Toy.platform)
      (Create_head Toy.repo (VStr "topic") Toy.main)
      (Toy.add_head {| ref_name := VStr "topic" |} Toy.w0)
      (Toy.initial Toy.w0) /\
  query Toy.platform
    (world (fst (git_create_branch Toy.platform Toy.repo (VStr "topic")
                   (VStr "feature") (Toy.initial Toy.w0))))
    (Repo_active_branch Toy.repo)
  = Ok Toy.main.
Proof.
  split; [| split].
  - apply (proj1 (create_branch_base Toy.platform Toy.repo (VStr "topic")
                    (VStr "release") (Toy.initial Toy.w0))
             "release" (Toy.heads Toy.w0)); [reflexivity | | | |];
      [discriminate | reflexivity | reflexivity | reflexivity].
  - apply (proj1 (proj2 (create_branch_base Toy.platform Toy.repo
                           (VStr "topic") VNone (Toy.initial Toy.w0)))
             Toy.main _ (Ok {| ref_name := VStr "topic" |}));
      reflexivity.
  - destruct (proj2 (proj2 (create_branch_base Toy.platform Toy.repo
                              (VStr "topic") (VStr "feature")
                              (Toy.initial Toy.w0)))
                _ _ eq_refl)
      as (base & new_branch & _ & _ & _ & Hkeeps).
    exact (Hkeeps toy_create_head_keeps_active).
Defined.

Section Show.

Context (P : Platform).

Lemma decode_if_bytes_decoded (x v : pyval) (st : State P) :
  decoded P x = Some v -> decode_if_bytes P x st = (st, Ok v).
Proof.
  unfold decoded, decode_if_bytes, ret.
  destruct x; try (by intros [= <-]).
  destruct (utf8_decode P b); simpl; [by intros [= <-] | done].
Qed.

Lemma join_empty_cons (x : string) (l : list string) :
  join "" (x :: l) = x +:+ join "" l.
Proof.
  unfold join. destruct l as [| y l]; simpl.
  - by rewrite append_empty_r.
  - reflexivity.
Qed.

Lemma join_empty_app (l1 l2 : list string) :
  join "" (l1 ++ l2) = join "" l1 +:+ join "" l2.
Proof.
  induction l1 as [| x l1 IH]; [done |].
  change ((x :: l1) ++ l2) with (x :: (l1 ++ l2)).
  by rewrite !join_empty_cons, IH, append_assoc.
Qed.

Lemma all_str_app (l1 l2 : list pyval) (s1 s2 : list string) :
  all_str l1 = Some s1 -> all_str l2 = Some s2 ->
  all_str (l1 ++ l2) = Some (s1 ++ s2).
Proof.
  revert s1. induction l1 as [| v l1 IH]; intros s1 H1 H2.
  - injection H1 as <-. done.
  - destruct v; try discriminate. simpl in *.
    destruct (all_str l1) as [t1 |]; [| discriminate].
    injection H1 as <-. by rewrite (IH t1 eq_refl H2).
Qed.

Lemma join_values_app (l1 l2 : list pyval) (s1 s2 : string) :
  join_values "" l1 = Ok s1 -> join_values "" l2 = Ok s2 ->
  join_values "" (l1 ++ l2) = Ok (s1 +:+ s2).
Proof.
  unfold join_values.
  destruct (all_str l1) as [t1 |] eqn:H1; [| discriminate].
  destruct (all_str l2) as [t2 |] eqn:H2; [| discriminate].
  intros [= <-] [= <-].
  by rewrite (all_str_app _ _ _ _ H1 H2), join_empty_app.
Qed.

(** The loop of [git_show] appends the text of every entry, in order. *)
Lemma show_entries_join (diff_index : list Diff) (ts : list string) :
  entry_texts P diff_index = Some ts ->
  forall (output : list pyval) (s0 : string) (st : State P),
    join_values "" output = Ok s0 ->
    exists output',
      show_entries P diff_index output st = (st, Ok output') /\
      join_values "" output' = Ok (s0 +:+ join "" ts).
Proof.
  revert ts. induction diff_index as [| d rest IH]; intros ts Hts output s0 st H0.
  - injection Hts as <-. exists output. split; [done |].
    by rewrite append_empty_r.
  - simpl in Hts. unfold entry_text in Hts.
    destruct (decoded P (a_path d)) as [a |] eqn:Ha; [| done].
    destruct (decoded P (b_path d)) as [b |] eqn:Hb; [| done].
    destruct (decoded P (diff d)) as [[] |] eqn:Hc; try done.
    destruct (entry_texts P rest) as [ts' |] eqn:Hrest; [| done].
    injection Hts as <-.
    set (header := nl +:+ "--- " +:+ py_str P a +:+ nl +:+
                   "+++ " +:+ py_str P b +:+ nl).
    assert (Hnext : join_values "" (output ++ [VStr header; VStr s])
                    = Ok (s0 +:+ header +:+ s)).
    { apply join_values_app; [done |]. reflexivity. }
    destruct (IH ts' eq_refl _ _ st Hnext) as (output' & Hrun & Hjoin).
    exists output'. split.
    + simpl.
      rewrite (bind_Ok _ _ _ _ _ (decode_if_bytes_decoded _ _ st Ha)).
      rewrite (bind_Ok _ _ _ _ _ (decode_if_bytes_decoded _ _ st Hb)).
      rewrite (bind_Ok _ _ _ _ _ (decode_if_bytes_decoded _ _ st Hc)).
      exact Hrun.
    + rewrite Hjoin, join_empty_cons. fold header.
      by rewrite !append_assoc.
Qed.

(** [git_show] once the commit and its diff are known. *)
Lemma git_show_eval repo revision (st : State P) commit diff_index ts :
  query P (world st) (Repo_commit repo revision) = Ok commit ->
  query P (world st)
    match parents commit with
    | parent :: _ => Commit_diff parent (OtherCommit commit)
    | [] => Commit_diff commit NULL_TREE
    end = Ok diff_index ->
  entry_texts P diff_index = Some ts ->
  git_show P repo revision st
  = (st, Ok (commit_header commit +:+ join "" ts)).
Proof.
  intros Hcommit Hdiff Hts. unfold git_show.
  rewrite (bind_Ok _ _ _ _ _ (eq_trans (ask_eq _ _)
                                (f_equal (pair st) Hcommit))).
  assert (Hask : match parents commit with
                 | parent :: _ => ask (Commit_diff parent (OtherCommit commit))
                 | [] => ask (Commit_diff commit NULL_TREE)
                 end st = (st, Ok diff_index)).
  { destruct (parents commit); by rewrite ask_eq, Hdiff. }
  rewrite (bind_Ok _ _ _ _ _ Hask).
  destruct (show_entries_join diff_index ts Hts
              [VStr (commit_header commit)] (commit_header commit) st)
    as (output' & Hrun & Hjoin).
  { reflexivity. }
  rewrite (bind_Ok _ _ _ _ _ Hrun). unfold lift. by rewrite Hjoin.
Qed.

(** The patch of every entry is a part of the joined text. *)
Lemma patch_in_texts (diff_index : list Diff) (ts : list string) d patch :
  entry_texts P diff_index = Some ts ->
  In d diff_index ->
  decoded P (diff d) = Some (VStr patch) ->
  exists before behind, join "" ts = before +:+ patch +:+ behind.
Proof.
  revert ts. induction diff_index as [| d' rest IH]; intros ts Hts Hin Hd;
    [done |].
  simpl in Hts.
  destruct (entry_text P d') as [t |] eqn:Ht; [| done].
  destruct (entry_texts P rest) as [ts' |] eqn:Hrest; [| done].
  injection Hts as <-. rewrite join_empty_cons.
  destruct Hin as [-> | Hin].
  - unfold entry_text in Ht. rewrite Hd in Ht.
    destruct (decoded P (a_path d)) as [a |]; [| done].
    destruct (decoded P (b_path d)) as [b |]; [| done].
    injection Ht as <-.
    exists (nl +:+ "--- " +:+ py_str P a +:+ nl +:+
            "+++ " +:+ py_str P b +:+ nl), (join "" ts').
    by rewrite append_assoc.
  - destruct (IH ts' eq_refl Hin Hd) as (before & behind & ->).
    exists (t +:+ before), behind. by rewrite append_assoc.
Qed.

End Show.

(** C7, as the spec has it, fails for a root commit that adds a file which
    is not UTF-8: the diff against the empty tree has the file, yet
    [git_show] returns no text, it raises [UnicodeDecodeError]. *)
Lemma show_root_commit_not_utf8_fails :
  let st := Build_State Scenario.strict Scenario.latin1 ∅ [] in
  query Scenario.strict (world st) (Repo_commit Toy.repo (VStr "1111111"))
  = Ok Toy.root_commit /\
  parents Toy.root_commit = [] /\
  query Scenario.strict (world st) (Commit_diff Toy.root_commit NULL_TREE)
  = Ok [Scenario.latin1_file] /\
  git_show Scenario.strict Toy.repo (VStr "1111111") st
  = (st, Raise (UnicodeDecodeError "'utf-8' codec can't decode bytes")).
Proof. repeat split; reflexivity. Qed.

(** C7 (amended): when every path and patch of the diff is text, or bytes
    that decode as UTF-8, then for a revision that has parents [git_show]
    takes the diff of the first parent against the commit, for a root
    commit the diff of the commit against the empty tree; in both cases
    the returned text is the commit header followed by the two path lines
    and the patch of every entry of that diff, so every patch is contained
    in it. *)
Theorem show_diff_against_parent_or_empty_tree
    (P : Platform) (repo : Repo) (revision : pyval) (st : State P)
    (commit : Commit) (diff_index : list Diff) (ts : list string) :
  query P (world st) (Repo_commit repo revision) = Ok commit ->
  entry_texts P diff_index = Some ts ->
  let shown :=
    git_show P repo revision st
    = (st, Ok (commit_header commit +:+ join "" ts)) /\
    length ts = length diff_index /\
    forall d patch,
      In d diff_index -> decoded P (diff d) = Some (VStr patch) ->
      exists before behind,
        snd (git_show P repo revision st) = Ok (before +:+ patch +:+ behind) in
  (forall parent others,
     parents commit = parent :: others ->
     query P (world st) (Commit_diff parent (OtherCommit commit))
     = Ok diff_index ->
     shown) /\
  (parents commit = [] ->
   query P (world st) (Commit_diff commit NULL_TREE) = Ok diff_index ->
   shown).
Proof.
  intros Hcommit Hts shown.
  assert (Hlen : length ts = length diff_index).
  { clear -Hts. revert ts Hts.
    induction diff_index as [| d rest IH]; intros ts Hts.
    - by injection Hts as <-.
    - simpl in Hts. destruct (entry_text P d); [| done].
      destruct (entry_texts P rest) as [ts' |]; [| done].
      injection Hts as <-. simpl. by rewrite (IH ts' eq_refl). }
  assert (Hshown :
            query P (world st)
              match parents commit with
              | parent :: _ => Commit_diff parent (OtherCommit commit)
              | [] => Commit_diff commit NULL_TREE
              end = Ok diff_index -> shown).
  { intros Hdiff. subst shown.
    pose proof (git_show_eval P repo revision st commit diff_index ts
                  Hcommit Hdiff Hts) as Hshow.
    split; [done |]. split; [done |].
    intros d patch Hin Hd.
    destruct (patch_in_texts P diff_index ts d patch Hts Hin Hd)
      as (before & behind & Hjoin).
    exists (commit_header commit +:+ before), behind.
    rewrite Hshow. simpl. by rewrite Hjoin, append_assoc. }
  split.
  - intros parent others Hparents Hdiff. apply Hshown. by rewrite Hparents.
  - intros Hparents Hdiff. apply Hshown. by rewrite Hparents.
Qed.

Lemma show_diff_against_parent_or_empty_tree_witness :
  git_show Toy.platform Toy.repo (VStr "1111111") (Toy.initial Toy.w0)
  = (Toy.initial Toy.w0,
     Ok (commit_header Toy.root_commit +:+
         join "" [nl +:+ "--- a.txt" +:+ nl +:+ "+++ a.txt" +:+ nl +:+
                  "@@ -0,0 +1 @@ +hello"])) /\
  git_show Toy.platform Toy.repo (VStr "2222222") (Toy.initial Toy.w0)
  = (Toy.initial Toy.w0,
     Ok (commit_header Toy.second_commit +:+
         join "" [nl +:+ "--- a.txt" +:+ nl +:+ "+++ a.txt" +:+ nl +:+
                  "@@ -1 +1 @@ -hello +world"])).
Proof.
  split.
  - destruct (proj2 (show_diff_against_parent_or_empty_tree Toy.platform
                       Toy.repo (VStr "1111111") (Toy.initial Toy.w0)
                       Toy.root_commit [Toy.added_file] _ eq_refl eq_refl)
                eq_refl eq_refl) as [H _].
    exact H.
  - destruct (proj1 (show_diff_against_parent_or_empty_tree Toy.platform
                       Toy.repo (VStr "2222222") (Toy.initial Toy.w0)
                       Toy.second_commit [Toy.changed_file] _ eq_refl eq_refl)
                Toy.root_commit [] eq_refl eq_refl) as [H _].
    exact H.
Defined.

(** ** The repository resolver *)

Section Resolver.

Context (P : Platform).

(** The loop over the reported roots keeps the ones that open, drops the
    ones that raise [InvalidGitRepositoryError], and leaves the world
    alone. *)
Lemma collect_repo_paths_eval (w : World P) (roots : list Root) :
  (forall root e,
     In root roots -> query P w (Repo_init (uri_path root)) = Raise e ->
     isinstance e ["InvalidGitRepositoryError"] = true) ->
  forall (repo_paths : list string) (st : State P),
    world st = w ->
    exists st',
      collect_repo_paths P roots repo_paths st
      = (st', Ok (repo_paths ++
                  map (fun root => path_str (uri_path root))
                    (List.filter (opens P w) roots))) /\
      world st' = w /\ trace st' = trace st.
Proof.
  induction roots as [| root rest IH]; intros Hraise repo_paths st Hw.
  - exists st. by rewrite app_nil_r.
  - simpl. unfold opens at 1.
    unfold try_except, new_Repo, bind, ask, ret. rewrite Hw.
    destruct (query P w (Repo_init (uri_path root))) as [repo | e] eqn:Hq.
    + destruct (IH (fun r e Hin => Hraise r e (or_intror Hin))
                  (repo_paths ++ [path_str (uri_path root)])
                  (set_environment ∅ st) Hw) as (st' & Hrun & Hw' & Ht).
      exists st'. rewrite Hrun. by rewrite <- app_assoc.
    + rewrite (Hraise root e (or_introl eq_refl) Hq).
      destruct (IH (fun r e Hin => Hraise r e (or_intror Hin))
                  repo_paths st Hw) as (st' & Hrun & Hw' & Ht).
      exists st'. by rewrite Hrun.
Qed.

End Resolver.

(** C5, as the spec has it, fails when the capability query fails: the
    error of [list_roots] leaves [list_repos], and the static path is not
    returned.  A candidate is dropped only when opening it raises
    [InvalidGitRepositoryError]: a reported directory that does not exist
    makes GitPython raise [NoSuchPathError], and that error leaves
    [list_repos] as well. *)
Lemma failed_roots_query_is_not_tolerated :
  let failing := Toy.set_roots true
                   (Raise (Exn ["McpError"; "Exception"] "roots/list failed"))
                   Toy.w0 in
  let missing := Toy.set_roots true (Ok [ {| uri_path := Some "/gone" |} ])
                   Toy.w0 in
  snd (list_repos Toy.platform (Some "/static") (Toy.initial failing))
  = Raise (Exn ["McpError"; "Exception"] "roots/list failed") /\
  snd (list_repos Toy.platform (Some "/static") (Toy.initial failing))
  <> Ok ["/static"] /\
  snd (list_repos Toy.platform (Some "/static") (Toy.initial missing))
  = Raise (NoSuchPathError "/gone").
Proof.
  intros failing missing.
  split; [reflexivity |]. split; [discriminate | reflexivity].
Qed.

(** C5 (amended): [list_repos] returns the roots reported by the session
    that open as repositories, in the order reported and with the ones
    that raise [InvalidGitRepositoryError] dropped, followed by the static
    path; without the roots capability it returns the static path alone
    (or nothing) and asks the client nothing; when the roots query itself
    fails, the error propagates. *)
Theorem list_repos_roots_then_static
    (P : Platform) (repository : option string) (st : State P) :
  query P (world st) Session_is_ServerSession = Ok true ->
  (query P (world st) Session_check_roots_capability = Ok false ->
   list_repos P repository st = (st, Ok (by_commandline repository))) /\
  (forall w1 roots,
     query P (world st) Session_check_roots_capability = Ok true ->
     exec P (world st) (environment st) Session_list_roots = (w1, Ok roots) ->
     (forall root e,
        In root roots -> query P w1 (Repo_init (uri_path root)) = Raise e ->
        isinstance e ["InvalidGitRepositoryError"] = true) ->
     snd (list_repos P repository st)
     = Ok (map (fun root => path_str (uri_path root))
             (List.filter (opens P w1) roots)
           ++ by_commandline repository)) /\
  (forall w1 e,
     query P (world st) Session_check_roots_capability = Ok true ->
     exec P (world st) (environment st) Session_list_roots = (w1, Raise e) ->
     list_repos P repository st = (after Session_list_roots w1 st, Raise e)).
Proof.
  intros Hsession. repeat split.
  - intros Hcap. unfold list_repos, by_roots, bind, ask, ret.
    rewrite Hsession. simpl. by rewrite Hcap.
  - intros w1 roots Hcap Hexec Hraise.
    destruct (collect_repo_paths_eval P w1 roots Hraise []
                (after Session_list_roots w1 st) eq_refl)
      as (st' & Hrun & _).
    unfold list_repos, by_roots, bind, ask, ret.
    rewrite Hsession. simpl. rewrite Hcap. simpl.
    rewrite (call_eq _ _ _ _ _ Hexec). by rewrite Hrun.
  - intros w1 e Hcap Hexec.
    unfold list_repos, by_roots, bind, ask, ret.
    rewrite Hsession. simpl. rewrite Hcap. simpl.
    by rewrite (call_eq _ _ _ _ _ Hexec).
Qed.

Lemma list_repos_roots_then_static_witness :
  snd (list_repos Toy.platform (Some "/static") (Toy.initial Toy.w0))
  = Ok ["/repo"; "/static"] /\
  list_repos Toy.platform (Some "/static")
    (Toy.initial (Toy.set_roots false (Ok []) Toy.w0))
  = (Toy.initial (Toy.set_roots false (Ok []) Toy.w0), Ok ["/static"]).
Proof.
  split.
  - apply (proj1 (proj2 (list_repos_roots_then_static Toy.platform
                           (Some "/static") (Toy.initial Toy.w0) eq_refl))
             Toy.w0 [ {| uri_path := Some "/tmp" |};
                      {| uri_path := Some "/repo" |} ]);
      [reflexivity | reflexivity |].
    intros root e [<- | [<- | []]]; simpl; [by intros [= <-] | discriminate].
  - apply (proj1 (list_repos_roots_then_static Toy.platform (Some "/static")
                    (Toy.initial (Toy.set_roots false (Ok []) Toy.w0))
                    eq_refl)).
    reflexivity.
Defined.

(** * Further properties *)

(** ** Arguments and the catalog *)

(** What a descriptor of the catalog declares is what the case of its tool
    reads. *)
Lemma descriptor_arguments (t : GitTools) (d : Tool) :
  In d list_tools -> name d = value t ->
  schema_arguments (inputSchema d) = handler_arguments t /\
  required (inputSchema d) = required_keys (handler_arguments t).
Proof.
  intros Hin Hname. unfold list_tools in Hin. simpl in Hin.
  repeat (destruct Hin as [<- | Hin];
          [destruct t; try discriminate Hname; by split |]).
  destruct Hin.
Qed.

Lemma required_keys_In (key : string) (uses : list ArgUse) :
  In key (required_keys uses) -> In (Subscript key) uses.
Proof.
  induction uses as [| u uses IH]; [done |].
  destruct u as [k | k dflt]; simpl.
  - intros [-> | H]; [by left | right; by apply IH].
  - intros H. right. by apply IH.
Qed.

(** X1: an argument that the tool does not read is ignored: adding any
    other key to the mapping changes neither the result nor the commands
    that run. *)
Theorem unread_arguments_ignored
    (P : Platform) (GIT_USERNAME GIT_TOKEN : pyval)
    (t : GitTools) (key : string) (v : pyval)
    (arguments : gmap string pyval) (st : State P) :
  ~ In key (map use_key (handler_arguments t)) ->
  call_tool P GIT_USERNAME GIT_TOKEN (value t) (<[key := v]> arguments) st
  = call_tool P GIT_USERNAME GIT_TOKEN (value t) arguments st.
Proof.
  intros Hkey. apply tool_reads_only. intros u Hu.
  apply lookup_insert_ne. intros ->. apply Hkey. by apply in_map.
Qed.

Lemma unread_arguments_ignored_witness :
  call_tool Toy.platform VNone VNone "git_status"
    (<["verbose" := VBool true]> {[ "repo_path" := VStr "/repo" ]})
    (Toy.initial Toy.w0)
  = call_tool Toy.platform VNone VNone "git_status"
      {[ "repo_path" := VStr "/repo" ]} (Toy.initial Toy.w0).
Proof.
  apply (unread_arguments_ignored Toy.platform VNone VNone STATUS).
  simpl. intros [H | []]. discriminate H.
Defined.

(** X2: the default that a schema declares for an optional field is the
    default that the dispatcher applies: leaving the field out and passing
    the declared default give the same call. *)
Theorem declared_default_is_applied
    (P : Platform) (GIT_USERNAME GIT_TOKEN : pyval)
    (t : GitTools) (d : Tool) (f : Field) (dflt : pyval)
    (arguments : gmap string pyval) (st : State P) :
  In d list_tools -> name d = value t ->
  In f (properties (inputSchema d)) -> field_default f = Some dflt ->
  arguments !! field_name f = None ->
  call_tool P GIT_USERNAME GIT_TOKEN (value t) arguments st
  = call_tool P GIT_USERNAME GIT_TOKEN (value t)
      (<[field_name f := dflt]> arguments) st.
Proof.
  intros Hd Hname Hf Hdflt Hnone.
  apply tool_reads_default; [| done].
  destruct (descriptor_arguments t d Hd Hname) as [<- _].
  unfold schema_arguments. apply in_map_iff. exists f. by rewrite Hdflt.
Qed.

Lemma declared_default_is_applied_witness :
  call_tool Toy.platform VNone VNone "git_stash_pop"
    {[ "repo_path" := VStr "/repo" ]} (Toy.initial Toy.w0)
  = call_tool Toy.platform VNone VNone "git_stash_pop"
      (<["index" := VInt 0]> {[ "repo_path" := VStr "/repo" ]})
      (Toy.initial Toy.w0).
Proof.
  apply (declared_default_is_applied Toy.platform VNone VNone STASH_POP
           {| name := value STASH_POP; description := "Pop stashed changes";
              inputSchema := schema GitStashPop |}
           (optional_field "index" Tint (VInt 0)) (VInt 0));
    try reflexivity.
  - unfold list_tools. simpl. auto 20.
  - simpl. auto.
Defined.

(** X3: a field that a schema lists as required is enforced by the
    subscript alone: when it is missing from an otherwise complete mapping,
    the call ends in [KeyError] on that key, after the repository was opened
    and before any command runs. *)
Theorem required_field_missing
    (P : Platform) (GIT_USERNAME GIT_TOKEN : pyval)
    (t : GitTools) (d : Tool) (key p : string) (repo : Repo)
    (arguments : gmap string pyval) (st : State P) :
  In d list_tools -> name d = value t ->
  In key (required (inputSchema d)) -> key <> "repo_path" ->
  arguments !! key = None ->
  (forall key', In key' (required (inputSchema d)) -> key' <> key ->
                is_Some (arguments !! key')) ->
  arguments !! "repo_path" = Some (VStr p) ->
  query P (world st) (Repo_init (Some p)) = Ok repo ->
  call_tool P GIT_USERNAME GIT_TOKEN (value t) arguments st
  = (set_environment ∅ st, Raise (KeyError key)).
Proof.
  intros Hd Hname Hkey Hne Hnone Hothers Hp Hq.
  destruct (descriptor_arguments t d Hd Hname) as [_ Hreq].
  rewrite Hreq in Hkey, Hothers.
  assert (Htail : forall k, k <> "repo_path" ->
                    In (Subscript k) (handler_arguments t) ->
                    In (Subscript k) (tail (handler_arguments t))).
  { intros k Hk [[= <-] | H]; [done | exact H]. }
  rewrite call_tool_operation.
  rewrite (bind_Ok _ _ _ _ _ (open_repository_Ok _ _ _ _ _ Hp Hq)).
  apply bind_Raise. apply tool_reads_required; [| done |].
  - apply Htail; [done |]. by apply required_keys_In.
  - intros key' Hin Hne'. apply Hothers; [| done].
    clear -Hin. destruct t; simpl in *; intuition; simplify_eq; simpl; auto.
Qed.

Lemma required_field_missing_witness :
  call_tool Toy.platform VNone VNone "git_add_remote"
    {[ "repo_path" := VStr "/repo"; "name" := VStr "fork" ]}
    (Toy.initial Toy.w0)
  = (set_environment ∅ (Toy.initial Toy.w0), Raise (KeyError "url")).
Proof.
  apply (required_field_missing Toy.platform VNone VNone ADD_REMOTE
           {| name := value ADD_REMOTE;
              description := "Add a new remote repository";
              inputSchema := schema GitAddRemote |}
           "url" "/repo" Toy.repo); try reflexivity.
  - unfold list_tools. simpl. auto 30.
  - simpl. auto.
  - discriminate.
  - simpl. intros key' [<- | [<- | [<- | []]]] Hne; try done; by eexists.
Defined.

(** X4: whatever the tool identifier, known or not, a [repo_path] that does
    not open as a repository ends the call with the toolchain's error, and
    nothing else happens. *)
Theorem invalid_repository_stops_every_tool
    (P : Platform) (GIT_USERNAME GIT_TOKEN : pyval)
    (name : string) (arguments : gmap string pyval) (st : State P)
    (p : string) (e : exn) :
  arguments !! "repo_path" = Some (VStr p) ->
  query P (world st) (Repo_init (Some p)) = Raise e ->
  call_tool P GIT_USERNAME GIT_TOKEN name arguments st = (st, Raise e).
Proof.
  intros Hp Hq.
  pose proof (open_repository_invalid P arguments st p e Hp Hq) as Hopen.
  destruct (match_name name) as [t |] eqn:Hname.
  - apply match_name_Some in Hname as ->.
    rewrite call_tool_operation. by apply bind_Raise.
  - rewrite call_tool_wildcard by done. by apply bind_Raise.
Qed.

Lemma invalid_repository_stops_every_tool_witness :
  call_tool Toy.platform VNone VNone "git_commit"
    {[ "repo_path" := VStr "/tmp"; "message" := VStr "wip" ]}
    (Toy.initial Toy.w0)
  = (Toy.initial Toy.w0, Raise (InvalidGitRepositoryError "/tmp")).
Proof.
  apply (invalid_repository_stops_every_tool Toy.platform VNone VNone
           "git_commit" _ (Toy.initial Toy.w0) "/tmp");
    reflexivity.
Defined.

(** X5: a tool is selected by exact comparison with its wire name: a name
    reaches the case of [t] exactly when it is the value of [t], so no two
    tools share a name and no other spelling is accepted. *)
Theorem match_name_iff (name : string) (t : GitTools) :
  match_name name = Some t <-> name = value t.
Proof.
  split.
  - apply match_name_Some.
  - intros ->. apply match_name_value.
Qed.

(** ** Truth values of optional arguments *)

Section Falsy.

Context (P : Platform).
Context (GIT_USERNAME GIT_TOKEN : pyval).

Lemma bind_left {A B} (m1 m2 : M P A) (k : A -> M P B) st :
  m1 st = m2 st -> bind m1 k st = bind m2 k st.
Proof. intros H. unfold bind. by rewrite H. Qed.

Lemma git_push_falsy repo remote v st :
  truthy v = false ->
  git_push P GIT_USERNAME GIT_TOKEN repo remote v st
  = git_push P GIT_USERNAME GIT_TOKEN repo remote VNone st.
Proof.
  intros Hv. unfold git_push. apply bind_ext. intros remote_obj st1.
  by rewrite Hv.
Qed.

Lemma git_pull_falsy repo remote v rebase st :
  truthy v = false ->
  git_pull P GIT_USERNAME GIT_TOKEN repo remote v rebase st
  = git_pull P GIT_USERNAME GIT_TOKEN repo remote VNone rebase st.
Proof.
  intros Hv. unfold git_pull, pull_body. apply bind_ext. intros remote_obj st1.
  by rewrite Hv.
Qed.

Lemma git_stash_falsy repo v st :
  truthy v = false -> git_stash P repo v st = git_stash P repo VNone st.
Proof. intros Hv. unfold git_stash. by rewrite Hv. Qed.

Lemma git_create_branch_falsy repo branch_name v st :
  truthy v = false ->
  git_create_branch P repo branch_name v st
  = git_create_branch P repo branch_name VNone st.
Proof. intros Hv. unfold git_create_branch. by rewrite Hv. Qed.

End Falsy.

(** X6: an optional argument whose default is [None] ([base_branch] of
    create-branch, [branch] of push and pull, [message] of stash) is only
    tested for truth: passing an empty string, [0], [False] or an empty
    list does what leaving the argument out does. *)
Theorem falsy_optional_like_absent
    (P : Platform) (GIT_USERNAME GIT_TOKEN : pyval)
    (t : GitTools) (key : string) (v : pyval)
    (arguments : gmap string pyval) (st : State P) :
  In (Get key VNone) (handler_arguments t) ->
  truthy v = false ->
  arguments !! key = None ->
  call_tool P GIT_USERNAME GIT_TOKEN (value t) (<[key := v]> arguments) st
  = call_tool P GIT_USERNAME GIT_TOKEN (value t) arguments st.
Proof.
  intros Hin Hv Hnone.
  unfold call_tool, getitem, get. rewrite match_name_value.
  destruct t; simpl in Hin; intuition; simplify_eq;
    rewrite ?lookup_insert_eq, ?lookup_insert_ne by done; rewrite ?Hnone;
    repeat (apply bind_ext; intros ? ?);
    apply bind_left;
    auto using git_push_falsy, git_pull_falsy, git_stash_falsy,
      git_create_branch_falsy.
Qed.

Lemma falsy_optional_like_absent_witness :
  call_tool Toy.platform VNone VNone "git_stash"
    (<["message" := VStr ""]> {[ "repo_path" := VStr "/repo" ]})
    (Toy.initial Toy.w0)
  = call_tool Toy.platform VNone VNone "git_stash"
      {[ "repo_path" := VStr "/repo" ]} (Toy.initial Toy.w0).
Proof.
  apply (falsy_optional_like_absent Toy.platform VNone VNone STASH "message");
    [simpl; auto | reflexivity | reflexivity].
Defined.

(** ** The environment of the command object *)

Section Environment.

Context (P : Platform).

Lemma keeps_ret {A} (a : A) : keeps_environment (P := P) (ret a).
Proof. by intros st. Qed.

Lemma keeps_raise {A} (e : exn) : keeps_environment (P := P) (A := A) (raise e).
Proof. by intros st. Qed.

Lemma keeps_lift {A} (r : result A) : keeps_environment (P := P) (lift r).
Proof. by intros st. Qed.

Lemma keeps_ask {X} (q : Query X) : keeps_environment (P := P) (ask q).
Proof. by intros st. Qed.

Lemma keeps_call {X} (c : Cmd X) : keeps_environment (P := P) (call c).
Proof.
  intros st. unfold call.
  by destruct (exec P (world st) (environment st) c).
Qed.

Lemma keeps_bind {A B} (m : M P A) (k : A -> M P B) :
  keeps_environment m -> (forall a, keeps_environment (k a)) ->
  keeps_environment (bind m k).
Proof.
  intros Hm Hk st. unfold bind. specialize (Hm st).
  destruct (m st) as [st1 [a | e]]; simpl in *; [| done].
  by rewrite Hk.
Qed.

Lemma keeps_try_except {A} (body : M P A) classes handler :
  keeps_environment body -> (forall e, keeps_environment (handler e)) ->
  keeps_environment (try_except body classes handler).
Proof.
  intros Hb Hh st. unfold try_except. specialize (Hb st).
  destruct (body st) as [st1 [a | e]]; simpl in *; [done |].
  destruct (isinstance e classes); [| done]. by rewrite Hh.
Qed.

(** The context manager puts the environment back whatever its body
    does. *)
Lemma keeps_custom_environment {A} kwargs (body : M P A) :
  keeps_environment (custom_environment kwargs body).
Proof.
  intros st. unfold custom_environment.
  by destruct (body _) as [st1 r].
Qed.

Lemma keeps_if {A} (b : bool) (m1 m2 : M P A) :
  keeps_environment m1 -> keeps_environment m2 ->
  keeps_environment (if b then m1 else m2).
Proof. by destruct b. Qed.

Lemma keeps_decode_if_bytes x : keeps_environment (decode_if_bytes P x).
Proof.
  unfold decode_if_bytes. destruct x; try apply keeps_ret.
  destruct (utf8_decode P b); [apply keeps_ret | apply keeps_raise].
Qed.

Lemma keeps_getitem (arguments : gmap string pyval) key :
  keeps_environment (getitem P arguments key).
Proof.
  unfold getitem. destruct (arguments !! key);
    [apply keeps_ret | apply keeps_raise].
Qed.

Lemma keeps_show_entries diff_index output :
  keeps_environment (show_entries P diff_index output).
Proof.
  revert output. induction diff_index as [| d rest IH]; intros output; simpl.
  - apply keeps_ret.
  - repeat (apply keeps_bind; [apply keeps_decode_if_bytes | intros ?]).
    apply IH.
Qed.

Lemma keeps_next {A} (items : list A) : keeps_environment (next P items).
Proof. destruct items; [apply keeps_raise | apply keeps_ret]. Qed.

End Environment.

Create HintDb environment.

#[local] Hint Resolve keeps_ret keeps_raise keeps_lift keeps_ask keeps_call
  keeps_custom_environment keeps_decode_if_bytes keeps_getitem
  keeps_show_entries keeps_next : environment.

(** One step of a proof that a program keeps the environment. *)
Ltac keeps_step :=
  first
    [ apply keeps_bind; [| intros ?]
    | apply keeps_try_except; [| intros ?]
    | apply keeps_if
    | solve [auto with environment] ].

(** X7: every operation keeps the environment of the command object:
    whatever the tool and the arguments, and whether the operation returns
    or raises, the environment is afterwards what it was before, so
    credentials injected for a push, a pull or a fetch never outlive the
    call. *)
Theorem operations_keep_environment
    (P : Platform) (GIT_USERNAME GIT_TOKEN : pyval)
    (t : GitTools) (repo : Repo) (arguments : gmap string pyval) :
  keeps_environment (operation P GIT_USERNAME GIT_TOKEN t repo arguments).
Proof.
  destruct t; unfold operation, git_status, git_diff_unstaged,
    git_diff_staged, git_diff, git_commit, git_add, git_reset, git_log,
    git_create_branch, git_checkout, git_show, git_push, git_pull, pull_body,
    git_fetch, git_merge, find_merge_branch, git_stash, git_stash_pop,
    git_get_current_branch, git_list_branches, git_delete_branch,
    git_list_remotes, git_add_remote, git_remove_remote;
    repeat keeps_step.
  match goal with |- context [parents ?c] => destruct (parents c) end;
    auto with environment.
Qed.

(** ** Merge *)

(** X8: merging a name that is not an attribute of the list of branches
    and is neither a local branch nor any other reference is refused with
    [ValueError("Branch '<name>' not found")] before any command runs: the
    repository is not touched. *)
Theorem merge_unknown_branch_refused
    (P : Platform) (repo : Repo) (name : string) (st : State P)
    (current : Reference) (heads refs : list Reference) :
  list_getattribute P name = None ->
  query P (world st) (Repo_active_branch repo) = Ok current ->
  query P (world st) (Repo_heads repo) = Ok heads ->
  find (named name) heads = None ->
  query P (world st) (Repo_refs repo) = Ok refs ->
  find (named name) refs = None ->
  git_merge P repo (VStr name) st
  = (st, Raise (ValueError ("Branch '" +:+ name +:+ "' not found"))).
Proof.
  intros Ha Hcur Hheads Hh Hrefs Hr. unfold git_merge.
  rewrite (bind_Ok _ _ _ _ _ (eq_trans (ask_eq _ _)
                                (f_equal (pair st) Hcur))).
  apply try_except_passed; [| reflexivity].
  apply bind_Raise.
  by apply (find_merge_branch_missing P repo name st heads refs).
Qed.

Lemma merge_unknown_branch_refused_witness :
  git_merge Toy.platform Toy.repo (VStr "release") (Toy.initial Toy.w0)
  = (Toy.initial Toy.w0, Raise (ValueError "Branch 'release' not found")).
Proof.
  apply (merge_unknown_branch_refused Toy.platform Toy.repo "release"
           (Toy.initial Toy.w0) Toy.main (Toy.heads Toy.w0)
           (Toy.heads Toy.w0 ++ Toy.remote_refs Toy.w0));
    reflexivity.
Defined.

(** X9: the local branches are looked up first.  When the name is not an
    attribute of the list and a head has it, [repo.refs] is not consulted
    (whatever it would answer): the merge command runs once, with that head
    object and [--no-ff] as its arguments, and a successful merge reports
    "Merged <name> into <current>".  (GitPython hands the head to git as its
    short name; what git resolves that name to is not decided here.) *)
Theorem merge_looks_up_heads_first
    (P : Platform) (repo : Repo) (name : string) (st : State P)
    (current head : Reference) (heads : list Reference)
    (w1 : World P) (out : pyval) :
  list_getattribute P name = None ->
  query P (world st) (Repo_active_branch repo) = Ok current ->
  query P (world st) (Repo_heads repo) = Ok heads ->
  find (named name) heads = Some head ->
  exec P (world st) (environment st)
    (Git repo "merge" [GRef head; GVal (VStr "--no-ff")]) = (w1, Ok out) ->
  git_merge P repo (VStr name) st
  = (after (Git repo "merge" [GRef head; GVal (VStr "--no-ff")]) w1 st,
     Ok ("Merged " +:+ name +:+ " into " +:+ Reference_str P current)).
Proof.
  intros Ha Hcur Hheads Hh Hmerge. unfold git_merge.
  rewrite (bind_Ok _ _ _ _ _ (eq_trans (ask_eq _ _)
                                (f_equal (pair st) Hcur))).
  apply try_except_Ok.
  rewrite (bind_Ok _ _ _ _ _
             (find_merge_branch_local P repo name st heads head Ha Hheads Hh)).
  by rewrite (bind_Ok _ _ _ _ _ (call_eq _ _ _ _ _ Hmerge)).
Qed.

Lemma merge_looks_up_heads_first_witness :
  let w := Toy.add_head {| ref_name := VStr "origin/main" |} Toy.w0 in
  git_merge Toy.platform Toy.repo (VStr "origin/main") (Toy.initial w)
  = (after (P := Toy.platform)
       (Git Toy.repo "merge"
          [GRef {| ref_name := VStr "origin/main" |}; GVal (VStr "--no-ff")])
       w (Toy.initial w),
     Ok "Merged origin/main into main").
Proof.
  intros w.
  apply (merge_looks_up_heads_first Toy.platform Toy.repo "origin/main"
           (Toy.initial w) Toy.main {| ref_name := VStr "origin/main" |}
           (Toy.heads w) w (VStr "Merge made by the 'ort' strategy."));
    reflexivity.
Defined.

(** X10: the merge is aborted only for a [GitCommandError] whose text has
    the marker.  Any other failure of the merge command, of another class
    or with another text, is raised again as it is and no abort is issued:
    the repository stays as the failed merge left it. *)
Theorem merge_failure_without_abort
    (P : Platform) (repo : Repo) (branch : pyval) (st : State P)
    (current : Reference) (merge_branch : Object) (e : exn) (w1 : World P) :
  query P (world st) (Repo_active_branch repo) = Ok current ->
  find_merge_branch P repo branch st = (st, Ok merge_branch) ->
  exec P (world st) (environment st)
    (Git repo "merge" [GRef merge_branch; GVal (VStr "--no-ff")])
  = (w1, Raise e) ->
  isinstance e ["GitCommandError"] = false \/
  contains "automatic merge failed" (exn_str e) = false ->
  git_merge P repo branch st
  = (after (Git repo "merge" [GRef merge_branch; GVal (VStr "--no-ff")]) w1 st,
     Raise e).
Proof.
  intros Hcur Hfind Hmerge Hother. unfold git_merge.
  rewrite (bind_Ok _ _ _ _ _ (eq_trans (ask_eq _ _)
                                (f_equal (pair st) Hcur))).
  unfold try_except.
  rewrite (bind_Ok _ _ _ _ _ Hfind).
  rewrite (bind_Raise _ _ _ _ _ (call_eq _ _ _ _ _ Hmerge)).
  destruct Hother as [-> | Hmark]; [done |].
  destruct (isinstance e ["GitCommandError"]); [| done].
  by rewrite Hmark.
Qed.

Lemma merge_failure_without_abort_witness :
  let s := {| Scenario.on_git := fun command _ =>
                if String.eqb command "merge"
                then Some (Raise (GitCommandError
                                    "fatal: refusing to merge unrelated histories"))
                else None;
              Scenario.on_config := None;
              Scenario.on_delete_remote := None;
              Scenario.on_create_head := None;
              Scenario.on_remote := None;
              Scenario.on_session := true;
              Scenario.decodes := true |} in
  git_merge (Scenario.platform s) Toy.repo (VStr "feature")
    (Scenario.initial s Toy.w0)
  = (after (P := Scenario.platform s)
       (Git Toy.repo "merge" [GRef Toy.feature; GVal (VStr "--no-ff")])
       Toy.w0 (Scenario.initial s Toy.w0),
     Raise (GitCommandError "fatal: refusing to merge unrelated histories")).
Proof.
  intros s.
  apply (merge_failure_without_abort (Scenario.platform s) Toy.repo
           (VStr "feature") (Scenario.initial s Toy.w0) Toy.main Toy.feature);
    [reflexivity | reflexivity | reflexivity | right; reflexivity].
Defined.

(** X11: when the conflict is recognised but [merge --abort] itself fails,
    the error of the abort is what the caller sees, not the conflict
    error, and both commands have run. *)
Theorem merge_abort_failure_surfaces
    (P : Platform) (repo : Repo) (branch : pyval) (st : State P)
    (current : Reference) (merge_branch : Object) (e e' : exn)
    (w1 w2 : World P) :
  query P (world st) (Repo_active_branch repo) = Ok current ->
  find_merge_branch P repo branch st = (st, Ok merge_branch) ->
  exec P (world st) (environment st)
    (Git repo "merge" [GRef merge_branch; GVal (VStr "--no-ff")])
  = (w1, Raise e) ->
  isinstance e ["GitCommandError"] = true ->
  contains "automatic merge failed" (exn_str e) = true ->
  exec P w1 (environment st) (Git repo "merge" [GVal (VStr "--abort")])
  = (w2, Raise e') ->
  git_merge P repo branch st
  = (after (Git repo "merge" [GVal (VStr "--abort")]) w2
       (after (Git repo "merge" [GRef merge_branch; GVal (VStr "--no-ff")])
          w1 st),
     Raise e').
Proof.
  intros Hcur Hfind Hmerge Hcls Hmark Habort. unfold git_merge.
  rewrite (bind_Ok _ _ _ _ _ (eq_trans (ask_eq _ _)
                                (f_equal (pair st) Hcur))).
  unfold try_except.
  rewrite (bind_Ok _ _ _ _ _ Hfind).
  rewrite (bind_Raise _ _ _ _ _ (call_eq _ _ _ _ _ Hmerge)).
  rewrite Hcls, Hmark.
  pose proof (call_eq P (Git repo "merge" [GVal (VStr "--abort")])
                (after (Git repo "merge"
                          [GRef merge_branch; GVal (VStr "--no-ff")]) w1 st)
                w2 (Raise e') Habort) as Hcall.
  by rewrite (bind_Raise _ _ _ _ _ Hcall).
Qed.

Lemma merge_abort_failure_surfaces_witness :
  let conflict := GitCommandError "automatic merge failed; fix conflicts" in
  let broken := GitCommandError "fatal: There is no merge to abort" in
  let s := {| Scenario.on_git := fun command args =>
                if String.eqb command "merge" then
                  match args with
                  | [GVal _] => Some (Raise broken)
                  | _ => Some (Raise conflict)
                  end
                else None;
              Scenario.on_config := None;
              Scenario.on_delete_remote := None;
              Scenario.on_create_head := None;
              Scenario.on_remote := None;
              Scenario.on_session := true;
              Scenario.decodes := true |} in
  snd (git_merge (Scenario.platform s) Toy.repo (VStr "feature")
         (Scenario.initial s Toy.w0))
  = Raise broken.
Proof.
  intros conflict broken s.
  rewrite (merge_abort_failure_surfaces (Scenario.platform s) Toy.repo
             (VStr "feature") (Scenario.initial s Toy.w0) Toy.main Toy.feature
             conflict broken Toy.w0 Toy.w0);
    reflexivity.
Defined.

(** X27: the abort is tied to the exact text.  For a [GitCommandError]
    whose text contains "automatic merge failed" in these very characters,
    [git_merge] runs [merge --abort] in the world that the failed merge
    left, as its second and last command, and when the abort returns it
    raises [ValueError("Merge failed due to conflicts. Merge aborted.")]:
    the text of the toolchain's error is not passed on. *)
Theorem merge_marker_triggers_abort
    (P : Platform) (repo : Repo) (branch : pyval) (st : State P)
    (current : Reference) (merge_branch : Object) (e : exn)
    (w1 w2 : World P) (out : pyval) :
  query P (world st) (Repo_active_branch repo) = Ok current ->
  find_merge_branch P repo branch st = (st, Ok merge_branch) ->
  exec P (world st) (environment st)
    (Git repo "merge" [GRef merge_branch; GVal (VStr "--no-ff")])
  = (w1, Raise e) ->
  isinstance e ["GitCommandError"] = true ->
  contains "automatic merge failed" (exn_str e) = true ->
  exec P w1 (environment st) (Git repo "merge" [GVal (VStr "--abort")])
  = (w2, Ok out) ->
  git_merge P repo branch st
  = (after (Git repo "merge" [GVal (VStr "--abort")]) w2
       (after (Git repo "merge" [GRef merge_branch; GVal (VStr "--no-ff")])
          w1 st),
     Raise (ValueError "Merge failed due to conflicts. Merge aborted.")).
Proof.
  intros Hcur Hfind Hmerge Hcls Hmark Habort. unfold git_merge.
  rewrite (bind_Ok _ _ _ _ _ (eq_trans (ask_eq _ _)
                                (f_equal (pair st) Hcur))).
  unfold try_except.
  rewrite (bind_Ok _ _ _ _ _ Hfind).
  rewrite (bind_Raise _ _ _ _ _ (call_eq _ _ _ _ _ Hmerge)).
  rewrite Hcls, Hmark.
  pose proof (call_eq P (Git repo "merge" [GVal (VStr "--abort")])
                (after (Git repo "merge"
                          [GRef merge_branch; GVal (VStr "--no-ff")]) w1 st)
                w2 (Ok out) Habort) as Hcall.
  by rewrite (bind_Ok _ _ _ _ _ Hcall).
Qed.

Lemma merge_marker_triggers_abort_witness :
  let s := {| Scenario.on_git := fun command args =>
                if String.eqb command "merge" then
                  match args with
                  | [GVal _] => None
                  | _ => Some (Raise (GitCommandError
                                        "automatic merge failed; fix conflicts"))
                  end
                else None;
              Scenario.on_config := None;
              Scenario.on_delete_remote := None;
              Scenario.on_create_head := None;
              Scenario.on_remote := None;
              Scenario.on_session := true;
              Scenario.decodes := true |} in
  snd (git_merge (Scenario.platform s) Toy.repo (VStr "feature")
         (Scenario.initial s Toy.w0))
  = Raise (ValueError "Merge failed due to conflicts. Merge aborted.") /\
  trace (fst (git_merge (Scenario.platform s) Toy.repo (VStr "feature")
                (Scenario.initial s Toy.w0)))
  = [Ev ∅ (Git Toy.repo "merge" [GRef Toy.feature; GVal (VStr "--no-ff")]);
     Ev ∅ (Git Toy.repo "merge" [GVal (VStr "--abort")])].
Proof.
  intros s.
  rewrite (merge_marker_triggers_abort (Scenario.platform s) Toy.repo
             (VStr "feature") (Scenario.initial s Toy.w0) Toy.main Toy.feature
             (GitCommandError "automatic merge failed; fix conflicts")
             Toy.w0 (Toy.set_merge_head None Toy.w0) (VStr ""));
    [split |..]; reflexivity.
Defined.

(** ** Push, pull and fetch *)

Section Pull.

Context (P : Platform).
Context (GIT_USERNAME GIT_TOKEN : pyval).

(** What [git_pull] reports on success. *)
Lemma pull_attempt_message repo remote branch rebase remote_obj
    (st : State P) w out :
  exec P (world st)
    (call_environment GIT_USERNAME GIT_TOKEN remote_obj (environment st))
    (Git repo "pull" (pull_arguments remote branch)) = (w, Ok out) ->
  (if use_credentials GIT_USERNAME GIT_TOKEN remote_obj then
     custom_environment (credentials GIT_USERNAME GIT_TOKEN)
       (pull_body P repo remote branch rebase)
   else pull_body P repo remote branch rebase) st
  = (after_network GIT_USERNAME GIT_TOKEN
       (Git repo "pull" (pull_arguments remote branch)) remote_obj w st,
     Ok (if truthy branch then
           "Pulled and " +:+ (if truthy rebase then "rebased" else "merged")
           +:+ " changes from " +:+ py_str P remote +:+ "/" +:+ py_str P branch
         else
           "Pulled and " +:+ (if truthy rebase then "rebased" else "merged")
           +:+ " changes from " +:+ py_str P remote)).
Proof.
  unfold after_network, call_environment, pull_arguments, pull_body,
    custom_environment, bind, call, ret.
  destruct (use_credentials GIT_USERNAME GIT_TOKEN remote_obj),
    (truthy branch); intros H;
    cbn [world environment trace set_environment]; by rewrite H.
Qed.

End Pull.

(** X12: a successful pull reports the strategy that it wrote to
    [pull.rebase] just before ("rebased" with "true", "merged" with
    "false").  When no branch is given the pull command runs without any
    argument, so the remote is not passed to it, although the message names
    the remote. *)
Theorem pull_reports_written_strategy
    (P : Platform) (GIT_USERNAME GIT_TOKEN : pyval)
    (repo : Repo) (remote branch rebase : pyval) (st : State P)
    (remote_obj : Remote) (w1 w2 : World P) (out : pyval) :
  query P (world st) (Repo_remote repo remote) = Ok remote_obj ->
  exec P (world st) (environment st)
    (Config_set_value repo "pull" "rebase"
       (if truthy rebase then "true" else "false"))
  = (w1, Ok tt) ->
  exec P w1
    (call_environment GIT_USERNAME GIT_TOKEN remote_obj (environment st))
    (Git repo "pull" (if truthy branch then [GVal remote; GVal branch] else []))
  = (w2, Ok out) ->
  snd (git_pull P GIT_USERNAME GIT_TOKEN repo remote branch rebase st)
  = Ok (if truthy branch then
          "Pulled and " +:+ (if truthy rebase then "rebased" else "merged")
          +:+ " changes from " +:+ py_str P remote +:+ "/" +:+ py_str P branch
        else
          "Pulled and " +:+ (if truthy rebase then "rebased" else "merged")
          +:+ " changes from " +:+ py_str P remote)
  /\ world (fst (git_pull P GIT_USERNAME GIT_TOKEN repo remote branch rebase st))
     = w2.
Proof.
  intros Hremote Hconfig Hpull. unfold git_pull.
  rewrite (bind_Ok _ _ _ _ _ (eq_trans (ask_eq _ _)
                                (f_equal (pair st) Hremote))).
  assert (Hcfg : (if truthy rebase
                  then call (Config_set_value repo "pull" "rebase" "true")
                  else call (Config_set_value repo "pull" "rebase" "false")) st
                 = (after (Config_set_value repo "pull" "rebase"
                             (if truthy rebase then "true" else "false"))
                      w1 st, Ok tt)).
  { destruct (truthy rebase); by apply call_eq. }
  rewrite (bind_Ok _ _ _ _ _ Hcfg).
  unfold try_except.
  by rewrite (pull_attempt_message P GIT_USERNAME GIT_TOKEN repo remote branch
                rebase remote_obj
                (after (Config_set_value repo "pull" "rebase"
                          (if truthy rebase then "true" else "false")) w1 st)
                w2 out Hpull).
Qed.

Lemma pull_reports_written_strategy_witness :
  snd (git_pull Toy.platform VNone VNone Toy.repo (VStr "backup") VNone
         (VBool true) (Toy.initial Toy.w0))
  = Ok "Pulled and rebased changes from backup"
  /\ Toy.config
       (world (fst (git_pull Toy.platform VNone VNone Toy.repo (VStr "backup")
                      VNone (VBool true) (Toy.initial Toy.w0))))
     = [("pull", "rebase", "true")].
Proof.
  destruct (pull_reports_written_strategy Toy.platform VNone VNone Toy.repo
              (VStr "backup") VNone (VBool true) (Toy.initial Toy.w0)
              Toy.backup
              (Toy.add_config ("pull", "rebase", "true") Toy.w0)
              (Toy.add_config ("pull", "rebase", "true") Toy.w0)
              (VStr "Already up to date.") eq_refl eq_refl eq_refl)
    as [Hmsg Hworld].
  split; [exact Hmsg |]. by rewrite Hworld.
Defined.

(** X13: when writing [pull.rebase] fails, the pull command is never
    issued, and the error of the write leaves [git_pull] unclassified,
    whatever its class and text: the write is outside the [try]. *)
Theorem pull_config_failure_skips_pull
    (P : Platform) (GIT_USERNAME GIT_TOKEN : pyval)
    (repo : Repo) (remote branch rebase : pyval) (st : State P)
    (remote_obj : Remote) (w1 : World P) (e : exn) :
  query P (world st) (Repo_remote repo remote) = Ok remote_obj ->
  exec P (world st) (environment st)
    (Config_set_value repo "pull" "rebase"
       (if truthy rebase then "true" else "false"))
  = (w1, Raise e) ->
  git_pull P GIT_USERNAME GIT_TOKEN repo remote branch rebase st
  = (after (Config_set_value repo "pull" "rebase"
              (if truthy rebase then "true" else "false")) w1 st,
     Raise e).
Proof.
  intros Hremote Hconfig. unfold git_pull.
  rewrite (bind_Ok _ _ _ _ _ (eq_trans (ask_eq _ _)
                                (f_equal (pair st) Hremote))).
  apply bind_Raise. destruct (truthy rebase); by apply call_eq.
Qed.

Lemma pull_config_failure_skips_pull_witness :
  let locked := GitCommandError "automatic merge failed: config is locked" in
  let s := {| Scenario.on_git := fun _ _ => None;
              Scenario.on_config := Some locked;
              Scenario.on_delete_remote := None;
              Scenario.on_create_head := None;
              Scenario.on_remote := None;
              Scenario.on_session := true;
              Scenario.decodes := true |} in
  git_pull (Scenario.platform s) VNone VNone Toy.repo (VStr "origin") VNone
    VNone (Scenario.initial s Toy.w0)
  = (after (P := Scenario.platform s)
       (Config_set_value Toy.repo "pull" "rebase" "false") Toy.w0
       (Scenario.initial s Toy.w0),
     Raise locked).
Proof.
  intros locked s.
  apply (pull_config_failure_skips_pull (Scenario.platform s) VNone VNone
           Toy.repo (VStr "origin") VNone VNone (Scenario.initial s Toy.w0)
           Toy.origin);
    reflexivity.
Defined.

(** X14: only a [GitCommandError] is sorted by [git_pull].  A pull that
    fails with an error of another class leaves [git_pull] as it is, even
    when its text contains one of the two markers. *)
Theorem pull_other_class_not_classified
    (P : Platform) (GIT_USERNAME GIT_TOKEN : pyval)
    (repo : Repo) (remote branch rebase : pyval) (st : State P)
    (remote_obj : Remote) (w1 w2 : World P) (e : exn) :
  query P (world st) (Repo_remote repo remote) = Ok remote_obj ->
  exec P (world st) (environment st)
    (Config_set_value repo "pull" "rebase" (rebase_value rebase))
  = (w1, Ok tt) ->
  exec P w1
    (call_environment GIT_USERNAME GIT_TOKEN remote_obj (environment st))
    (Git repo "pull" (pull_arguments remote branch)) = (w2, Raise e) ->
  isinstance e ["GitCommandError"] = false ->
  snd (git_pull P GIT_USERNAME GIT_TOKEN repo remote branch rebase st)
  = Raise e.
Proof.
  intros Hremote Hconfig Hpull Hcls.
  destruct (git_pull_eval P GIT_USERNAME GIT_TOKEN repo remote branch rebase
              remote_obj st w1 w2 (Raise e) Hremote Hconfig Hpull)
    as [msg ->].
  cbn [snd]. by rewrite Hcls.
Qed.

Lemma pull_other_class_not_classified_witness :
  let interrupted :=
    Exn ["BrokenPipeError"; "ConnectionError"; "OSError"; "Exception"]
      "automatic merge failed; resolve your current index first" in
  let s := {| Scenario.on_git := fun command _ =>
                if String.eqb command "pull" then Some (Raise interrupted)
                else None;
              Scenario.on_config := None;
              Scenario.on_delete_remote := None;
              Scenario.on_create_head := None;
              Scenario.on_remote := None;
              Scenario.on_session := true;
              Scenario.decodes := true |} in
  snd (git_pull (Scenario.platform s) VNone VNone Toy.repo (VStr "origin")
         VNone VNone (Scenario.initial s Toy.w0))
  = Raise interrupted.
Proof.
  intros interrupted s.
  apply (pull_other_class_not_classified (Scenario.platform s) VNone VNone
           Toy.repo (VStr "origin") VNone VNone (Scenario.initial s Toy.w0)
           Toy.origin (Toy.add_config ("pull", "rebase", "false") Toy.w0)
           (Toy.add_config ("pull", "rebase", "false") Toy.w0));
    reflexivity.
Defined.

(** X28: a [GitCommandError] of the pull command is sorted by two exact
    substrings of its text, tested in this order.  Text that contains
    "resolve your current index first" gives
    [ValueError("Cannot pull: You have unstaged changes. ...")]; otherwise
    text that contains "automatic merge failed" gives
    [ValueError("Pull failed: Merge conflicts detected. ...")]; with
    neither, the error is raised again as it is. *)
Theorem pull_markers_are_classified
    (P : Platform) (GIT_USERNAME GIT_TOKEN : pyval)
    (repo : Repo) (remote branch rebase : pyval) (st : State P)
    (remote_obj : Remote) (w1 w2 : World P) (e : exn) :
  query P (world st) (Repo_remote repo remote) = Ok remote_obj ->
  exec P (world st) (environment st)
    (Config_set_value repo "pull" "rebase" (rebase_value rebase))
  = (w1, Ok tt) ->
  exec P w1
    (call_environment GIT_USERNAME GIT_TOKEN remote_obj (environment st))
    (Git repo "pull" (pull_arguments remote branch)) = (w2, Raise e) ->
  isinstance e ["GitCommandError"] = true ->
  let outcome :=
    snd (git_pull P GIT_USERNAME GIT_TOKEN repo remote branch rebase st) in
  (contains "resolve your current index first" (exn_str e) = true ->
   outcome = Raise (ValueError
     "Cannot pull: You have unstaged changes. Please commit or stash them first."))
  /\
  (contains "resolve your current index first" (exn_str e) = false ->
   contains "automatic merge failed" (exn_str e) = true ->
   outcome = Raise (ValueError
     "Pull failed: Merge conflicts detected. Please resolve conflicts manually."))
  /\
  (contains "resolve your current index first" (exn_str e) = false ->
   contains "automatic merge failed" (exn_str e) = false ->
   outcome = Raise e).
Proof.
  intros Hremote Hconfig Hpull Hcls outcome. subst outcome.
  destruct (git_pull_eval P GIT_USERNAME GIT_TOKEN repo remote branch rebase
              remote_obj st w1 w2 (Raise e) Hremote Hconfig Hpull)
    as [msg ->].
  cbn [snd]. rewrite Hcls.
  repeat split; intros;
    repeat match goal with H : contains _ _ = _ |- _ => rewrite H; clear H end;
    reflexivity.
Qed.

Lemma pull_markers_are_classified_witness :
  let unmerged := "error: you need to resolve your current index first" in
  let w := Toy.set_pull_failure (Some unmerged) Toy.w0 in
  snd (git_pull Toy.platform VNone VNone Toy.repo (VStr "origin") VNone
         (VBool false) (Toy.initial w))
  = Raise (ValueError
      "Cannot pull: You have unstaged changes. Please commit or stash them first.").
Proof.
  intros unmerged w.
  apply (proj1 (pull_markers_are_classified Toy.platform VNone VNone Toy.repo
                  (VStr "origin") VNone (VBool false) (Toy.initial w)
                  Toy.origin
                  (Toy.add_config ("pull", "rebase", "false") w)
                  (Toy.add_config ("pull", "rebase", "false") w)
                  (GitCommandError unmerged)
                  eq_refl eq_refl eq_refl eq_refl));
    reflexivity.
Defined.

(** X15: push, pull and fetch look the remote up first.  When there is no
    remote of that name, the error of the lookup is the result and nothing
    has happened: no command has run and, for pull, the configuration has
    not been written. *)
Theorem missing_remote_touches_nothing
    (P : Platform) (GIT_USERNAME GIT_TOKEN : pyval)
    (repo : Repo) (remote branch rebase : pyval) (st : State P) (e : exn) :
  query P (world st) (Repo_remote repo remote) = Raise e ->
  git_push P GIT_USERNAME GIT_TOKEN repo remote branch st = (st, Raise e) /\
  git_pull P GIT_USERNAME GIT_TOKEN repo remote branch rebase st
  = (st, Raise e) /\
  git_fetch P GIT_USERNAME GIT_TOKEN repo remote st = (st, Raise e).
Proof.
  intros Hremote.
  pose proof (eq_trans (ask_eq (P := P) (Repo_remote repo remote) st)
                (f_equal (pair st) Hremote)) as Hask.
  repeat split; by apply bind_Raise.
Qed.

Lemma missing_remote_touches_nothing_witness :
  git_pull Toy.platform VNone VNone Toy.repo (VStr "upstream") VNone VNone
    (Toy.initial Toy.w0)
  = (Toy.initial Toy.w0, Raise (ValueError "Remote didn't exist")).
Proof.
  apply (proj1 (proj2
           (missing_remote_touches_nothing Toy.platform VNone VNone Toy.repo
              (VStr "upstream") VNone VNone (Toy.initial Toy.w0)
              (ValueError "Remote didn't exist") eq_refl))).
Defined.

(** ** Output of the toolchain given as bytes *)

(** X17: status and the three diff operations pass the output of their
    command on.  Output that arrives as [bytes] is decoded as UTF-8 and
    returned as [str]; when it does not decode, the operation raises
    [UnicodeDecodeError] after the command has run. *)
Theorem bytes_output_is_decoded
    (P : Platform) (repo : Repo) (target : pyval) (st : State P)
    (operation : M P pyval) (c : Cmd pyval) (w : World P) (b : list byte) :
  In (operation, c)
     [(git_status P repo, Git repo "status" []);
      (git_diff_unstaged P repo, Git repo "diff" []);
      (git_diff_staged P repo, Git repo "diff" [GVal (VStr "--cached")]);
      (git_diff P repo target, Git repo "diff" [GVal target])] ->
  exec P (world st) (environment st) c = (w, Ok (VBytes b)) ->
  (forall s, utf8_decode P b = Some s ->
             operation st = (after c w st, Ok (VStr s))) /\
  (utf8_decode P b = None ->
   exists msg, operation st = (after c w st, Raise (UnicodeDecodeError msg))).
Proof.
  intros Hin Hexec.
  assert (Hop : operation st = bind (call c) (decode_if_bytes P) st).
  { simpl in Hin.
    destruct Hin as [H | [H | [H | [H | []]]]]; by injection H as <- <-. }
  rewrite Hop, (bind_Ok _ _ _ _ _ (call_eq _ _ _ _ _ Hexec)).
  unfold decode_if_bytes, ret, raise. split.
  - by intros s ->.
  - intros ->. by eexists.
Qed.

Lemma bytes_output_is_decoded_witness :
  let s := {| Scenario.on_git := fun command _ =>
                if String.eqb command "status"
                then Some (Ok (VBytes (String.list_byte_of_string
                                         "On branch main")))
                else None;
              Scenario.on_config := None;
              Scenario.on_delete_remote := None;
              Scenario.on_create_head := None;
              Scenario.on_remote := None;
              Scenario.on_session := true;
              Scenario.decodes := true |} in
  git_status (Scenario.platform s) Toy.repo (Scenario.initial s Toy.w0)
  = (after (P := Scenario.platform s) (Git Toy.repo "status" []) Toy.w0
       (Scenario.initial s Toy.w0),
     Ok (VStr "On branch main")).
Proof.
  intros s.
  apply (proj1 (bytes_output_is_decoded (Scenario.platform s) Toy.repo VNone
                  (Scenario.initial s Toy.w0)
                  (git_status (Scenario.platform s) Toy.repo)
                  (Git Toy.repo "status" []) Toy.w0
                  (String.list_byte_of_string "On branch main")
                  (or_introl eq_refl) eq_refl)).
  reflexivity.
Defined.

(** ** Removing a remote and deleting a branch *)

(** X18: [git_remove_remote] answers "Remote '<name>' not found" in two
    cases, without running a command: when the lookup of the remote raises
    a [ValueError], and when the lookup succeeds but no remote in the list
    of remotes has that name. *)
Theorem remove_remote_not_found
    (P : Platform) (repo : Repo) (name : pyval) (st : State P) :
  (forall e,
     query P (world st) (Repo_remote repo name) = Raise e ->
     isinstance e ["ValueError"; "StopIteration"] = true ->
     git_remove_remote P repo name st
     = (st, Raise (ValueError ("Remote '" +:+ py_str P name +:+ "' not found"))))
  /\
  (forall remote remotes,
     query P (world st) (Repo_remote repo name) = Ok remote ->
     query P (world st) (Repo_remotes repo) = Ok remotes ->
     filter (fun r => name_is name r = true) remotes = [] ->
     git_remove_remote P repo name st
     = (st, Raise (ValueError ("Remote '" +:+ py_str P name +:+ "' not found")))).
Proof.
  split.
  - intros e Hq He. unfold git_remove_remote, try_except, bind, ask, raise.
    by rewrite Hq, He.
  - intros remote remotes Hq Hqs Hnone.
    unfold git_remove_remote, try_except, bind, ask, raise, next.
    by rewrite Hq, Hqs, Hnone.
Qed.

Lemma remove_remote_not_found_witness :
  let s := {| Scenario.on_git := fun _ _ => None;
              Scenario.on_config := None;
              Scenario.on_delete_remote := None;
              Scenario.on_create_head := None;
              Scenario.on_remote := Some Toy.origin;
              Scenario.on_session := true;
              Scenario.decodes := true |} in
  git_remove_remote Toy.platform Toy.repo (VStr "upstream")
    (Toy.initial Toy.w0)
  = (Toy.initial Toy.w0, Raise (ValueError "Remote 'upstream' not found")) /\
  git_remove_remote (Scenario.platform s) Toy.repo (VStr "upstream")
    (Scenario.initial s Toy.w0)
  = (Scenario.initial s Toy.w0,
     Raise (ValueError "Remote 'upstream' not found")).
Proof.
  intros s. split.
  - apply (proj1 (remove_remote_not_found Toy.platform Toy.repo
                    (VStr "upstream") (Toy.initial Toy.w0))
             (ValueError "Remote didn't exist")); reflexivity.
  - apply (proj2 (remove_remote_not_found (Scenario.platform s) Toy.repo
                    (VStr "upstream") (Scenario.initial s Toy.w0))
             Toy.origin (Toy.remotes Toy.w0)); reflexivity.
Defined.

(** X19: when the remote exists, [git_remove_remote] deletes the first
    remote of that name and reports "Removed remote <name>".  A failure of
    the deletion passes through, unless it is a [ValueError]: that one is
    reported as "not found", although the remote was found. *)
Theorem remove_remote_deletes_first_match
    (P : Platform) (repo : Repo) (name : pyval) (st : State P)
    (remote remote_obj : Remote) (remotes rest : list Remote)
    (w : World P) :
  query P (world st) (Repo_remote repo name) = Ok remote ->
  query P (world st) (Repo_remotes repo) = Ok remotes ->
  filter (fun r => name_is name r = true) remotes = remote_obj :: rest ->
  (exec P (world st) (environment st) (Delete_remote repo remote_obj)
   = (w, Ok tt) ->
   git_remove_remote P repo name st
   = (after (Delete_remote repo remote_obj) w st,
      Ok ("Removed remote " +:+ py_str P name))) /\
  (forall e,
     exec P (world st) (environment st) (Delete_remote repo remote_obj)
     = (w, Raise e) ->
     git_remove_remote P repo name st
     = (after (Delete_remote repo remote_obj) w st,
        Raise (if isinstance e ["ValueError"; "StopIteration"]
               then ValueError ("Remote '" +:+ py_str P name +:+ "' not found")
               else e))).
Proof.
  intros Hq Hqs Hfirst. split.
  - intros Hexec.
    unfold git_remove_remote, try_except, bind, ask, raise, next, ret.
    rewrite Hq, Hqs, Hfirst. by rewrite (call_eq _ _ _ _ _ Hexec).
  - intros e Hexec.
    unfold git_remove_remote, try_except, bind, ask, raise, next, ret.
    rewrite Hq, Hqs, Hfirst. rewrite (call_eq _ _ _ _ _ Hexec).
    by destruct (isinstance e _).
Qed.

Lemma remove_remote_deletes_first_match_witness :
  let s := {| Scenario.on_git := fun _ _ => None;
              Scenario.on_config := None;
              Scenario.on_delete_remote :=
                Some (ValueError "remote is read-only");
              Scenario.on_create_head := None;
              Scenario.on_remote := None;
              Scenario.on_session := true;
              Scenario.decodes := true |} in
  git_remove_remote Toy.platform Toy.repo (VStr "backup") (Toy.initial Toy.w0)
  = (after (P := Toy.platform) (Delete_remote Toy.repo Toy.backup) Toy.w0
       (Toy.initial Toy.w0),
     Ok "Removed remote backup") /\
  snd (git_remove_remote (Scenario.platform s) Toy.repo (VStr "backup")
         (Scenario.initial s Toy.w0))
  = Raise (ValueError "Remote 'backup' not found").
Proof.
  intros s. split.
  - apply (proj1 (remove_remote_deletes_first_match Toy.platform Toy.repo
                    (VStr "backup") (Toy.initial Toy.w0) Toy.backup Toy.backup
                    (Toy.remotes Toy.w0) [] Toy.w0 eq_refl eq_refl eq_refl));
      reflexivity.
  - rewrite (proj2 (remove_remote_deletes_first_match (Scenario.platform s)
                      Toy.repo (VStr "backup") (Scenario.initial s Toy.w0)
                      Toy.backup Toy.backup (Toy.remotes Toy.w0) [] Toy.w0
                      eq_refl eq_refl eq_refl)
               (ValueError "remote is read-only") eq_refl).
    reflexivity.
Defined.

(** X20: deleting a branch is the safe [git branch -d] unless [force] is
    passed with a true value: the flag is "-D" exactly when the [force]
    argument is true, and a call without [force] never forces. *)
Theorem delete_branch_forces_only_on_request
    (P : Platform) (GIT_USERNAME GIT_TOKEN : pyval)
    (arguments : gmap string pyval) (st : State P)
    (p : string) (repo : Repo) (branch_name : pyval) :
  arguments !! "repo_path" = Some (VStr p) ->
  query P (world st) (Repo_init (Some p)) = Ok repo ->
  arguments !! "branch_name" = Some branch_name ->
  let flag := if truthy (get arguments "force" (VBool false))
              then "-D" else "-d" in
  trace (fst (call_tool P GIT_USERNAME GIT_TOKEN "git_delete_branch"
                arguments st))
  = trace st ++ [Ev ∅ (Git repo "branch" [GVal (VStr flag); GVal branch_name])]
  /\ (arguments !! "force" = None -> flag = "-d").
Proof.
  intros Hp Hq Hb flag. split.
  - change "git_delete_branch" with (value DELETE_BRANCH).
    rewrite call_tool_operation.
    rewrite (bind_Ok _ _ _ _ _ (open_repository_Ok _ _ _ _ _ Hp Hq)).
    unfold operation, getitem, git_delete_branch, bind, call, ret. rewrite Hb.
    subst flag. cbn [environment set_environment world trace].
    destruct (truthy (get arguments "force" (VBool false)));
      match goal with
      | |- context [exec P ?w ?env ?c] =>
          by destruct (exec P w env c) as [w' [out | e]]
      end.
  - intros Hnone. subst flag. unfold get. by rewrite Hnone.
Qed.

Lemma delete_branch_forces_only_on_request_witness :
  trace (fst (call_tool Toy.platform VNone VNone "git_delete_branch"
                {[ "repo_path" := VStr "/repo";
                   "branch_name" := VStr "feature" ]} (Toy.initial Toy.w0)))
  = [Ev ∅ (Git Toy.repo "branch" [GVal (VStr "-d"); GVal (VStr "feature")])].
Proof.
  destruct (delete_branch_forces_only_on_request Toy.platform VNone VNone
              {[ "repo_path" := VStr "/repo";
                 "branch_name" := VStr "feature" ]}
              (Toy.initial Toy.w0) "/repo" Toy.repo (VStr "feature"))
    as [Htrace _]; [reflexivity | reflexivity | reflexivity |].
  exact Htrace.
Defined.

(** ** Creating a branch *)

(** X21: [git_create_branch] passes failures on.  On a detached [HEAD],
    without a base, the error of [active_branch] is the result and nothing
    is created; and when [create_head] fails (the branch exists already,
    say), its error is the result and no success message is built. *)
Theorem create_branch_failures_propagate
    (P : Platform) (repo : Repo) (branch_name base_branch : pyval)
    (st : State P) :
  (forall e,
     truthy base_branch = false ->
     query P (world st) (Repo_active_branch repo) = Raise e ->
     git_create_branch P repo branch_name base_branch st = (st, Raise e)) /\
  (forall base w e,
     resolved_base repo base_branch st base ->
     exec P (world st) (environment st) (Create_head repo branch_name base)
     = (w, Raise e) ->
     git_create_branch P repo branch_name base_branch st
     = (after (Create_head repo branch_name base) w st, Raise e)).
Proof.
  split.
  - intros e Hfalse Hq. unfold git_create_branch. rewrite Hfalse.
    apply bind_Raise. apply bind_Raise. by rewrite ask_eq, Hq.
  - intros base w e [[Htrue (heads & Hq & Hget)] | [Hfalse Hq]] Hexec;
      unfold git_create_branch.
    + rewrite Htrue.
      erewrite bind_Ok;
        [| apply try_except_Ok; unfold bind, ask, lift; by rewrite Hq, Hget].
      apply bind_Raise. by apply call_eq.
    + rewrite Hfalse.
      erewrite bind_Ok; [| unfold bind, ask, ret; by rewrite Hq].
      apply bind_Raise. by apply call_eq.
Qed.

Lemma create_branch_failures_propagate_witness :
  let exists_already :=
    GitCommandError "fatal: a branch named 'feature' already exists" in
  let s := {| Scenario.on_git := fun _ _ => None;
              Scenario.on_config := None;
              Scenario.on_delete_remote := None;
              Scenario.on_create_head := Some exists_already;
              Scenario.on_remote := None;
              Scenario.on_session := true;
              Scenario.decodes := true |} in
  git_create_branch Toy.platform Toy.repo (VStr "topic") VNone
    (Toy.initial Scenario.bare)
  = (Toy.initial Scenario.bare,
     Raise (TypeError "HEAD is a detached symbolic reference")) /\
  snd (git_create_branch (Scenario.platform s) Toy.repo (VStr "feature")
         (VStr "main") (Scenario.initial s Toy.w0))
  = Raise exists_already.
Proof.
  intros exists_already s. split.
  - apply (proj1 (create_branch_failures_propagate Toy.platform Toy.repo
                    (VStr "topic") VNone (Toy.initial Scenario.bare)));
      reflexivity.
  - rewrite (proj2 (create_branch_failures_propagate (Scenario.platform s)
                      Toy.repo (VStr "feature") (VStr "main")
                      (Scenario.initial s Toy.w0))
               Toy.main Toy.w0 exists_already).
    + reflexivity.
    + left. split; [reflexivity |]. by exists (Toy.heads Toy.w0).
    + reflexivity.
Defined.

(** X29: a name that is an attribute of the list of branches (a method of
    [list] such as [append], a slot) is never refused as not found and
    never resolved to a branch of that name.  [git_create_branch] hands the
    attribute to [create_head]; the error of [create_head] is the result,
    and should [create_head] return, reading [base.name] raises
    [AttributeError] after the command has run.  [git_merge] hands the
    attribute to the merge command, whatever the local branches and the
    other references are. *)
Theorem attribute_names_are_not_branches
    (P : Platform) (repo : Repo) (name : string) (a : Attribute)
    (st : State P) (heads : list Reference) :
  list_getattribute P name = Some a ->
  name <> "" ->
  query P (world st) (Repo_heads repo) = Ok heads ->
  (forall branch_name w r,
     exec P (world st) (environment st)
       (Create_head repo branch_name (Attr a)) = (w, r) ->
     git_create_branch P repo branch_name (VStr name) st
     = (after (Create_head repo branch_name (Attr a)) w st,
        Raise match r with
              | Ok _ => AttributeError ("'" +:+ class_name a +:+
                                        "' object has no attribute 'name'")
              | Raise e => e
              end)) /\
  (forall current,
     query P (world st) (Repo_active_branch repo) = Ok current ->
     exists rest,
       trace (fst (git_merge P repo (VStr name) st))
       = trace st ++
         Ev (environment st)
           (Git repo "merge" [GRef (Attr a); GVal (VStr "--no-ff")]) :: rest).
Proof.
  intros Ha Hname Hheads. split.
  - intros branch_name w r Hexec. unfold git_create_branch.
    assert (Htruthy : truthy (VStr name) = true).
    { simpl. by destruct (String.eqb_spec name ""). }
    rewrite Htruthy.
    erewrite bind_Ok;
      [| apply try_except_Ok; unfold bind, ask, lift; rewrite Hheads; simpl;
         by rewrite Ha].
    destruct r as [new_branch | e].
    + by rewrite (bind_Ok _ _ _ _ _ (call_eq _ _ _ _ _ Hexec)).
    + by rewrite (bind_Raise _ _ _ _ _ (call_eq _ _ _ _ _ Hexec)).
  - intros current Hcur. unfold git_merge.
    rewrite (bind_Ok _ _ _ _ _ (eq_trans (ask_eq _ _)
                                  (f_equal (pair st) Hcur))).
    unfold try_except.
    rewrite (bind_Ok _ _ _ _ _
               (find_merge_branch_attribute P repo name st heads a Ha Hheads)).
    unfold bind, call, ret, raise.
    destruct (exec P (world st) (environment st)
                (Git repo "merge" [GRef (Attr a); GVal (VStr "--no-ff")]))
      as [w1 [out | e]]; [by exists [] |].
    destruct (isinstance e ["GitCommandError"]); [| by exists []].
    destruct (contains "automatic merge failed" (exn_str e)); [| by exists []].
    cbn [world environment trace].
    destruct (exec P w1 (environment st)
                (Git repo "merge" [GVal (VStr "--abort")])) as [w2 [out | e']];
      cbn [fst trace]; rewrite <- app_assoc; by eexists.
Qed.

Lemma attribute_names_are_not_branches_witness :
  let append := {| attribute_name := "append";
                   class_name := "builtin_function_or_method" |} in
  let w := Toy.add_head {| ref_name := VStr "append" |} Toy.w0 in
  git_create_branch Toy.platform Toy.repo (VStr "topic") (VStr "append")
    (Toy.initial w)
  = (after (P := Toy.platform)
       (Create_head Toy.repo (VStr "topic") (Attr append)) w (Toy.initial w),
     Raise (Exn ["BadName"; "ODBError"; "Exception"]
              "Ref did not resolve to an object")) /\
  exists rest,
    trace (fst (git_merge Toy.platform Toy.repo (VStr "append")
                  (Toy.initial w)))
    = [] ++
      Ev ∅ (Git Toy.repo "merge" [GRef (Attr append); GVal (VStr "--no-ff")])
      :: rest.
Proof.
  intros append w.
  destruct (attribute_names_are_not_branches Toy.platform Toy.repo "append"
              append (Toy.initial w) (Toy.heads w))
    as [Hcreate Hmerge]; [reflexivity | discriminate | reflexivity |].
  split.
  - apply (Hcreate (VStr "topic") w
             (Raise (Exn ["BadName"; "ODBError"; "Exception"]
                       "Ref did not resolve to an object"))).
    reflexivity.
  - apply (Hmerge Toy.main). reflexivity.
Defined.

(** ** The repository resolver *)

Section ResolverFailures.

Context (P : Platform).

(** The loop stops at the first root whose opening fails with anything but
    [InvalidGitRepositoryError]. *)
Lemma collect_repo_paths_aborts (w : World P) (before : list Root)
    (root : Root) (behind : list Root) (e : exn) :
  (forall r e',
     In r before -> query P w (Repo_init (uri_path r)) = Raise e' ->
     isinstance e' ["InvalidGitRepositoryError"] = true) ->
  query P w (Repo_init (uri_path root)) = Raise e ->
  isinstance e ["InvalidGitRepositoryError"] = false ->
  forall (repo_paths : list string) (st : State P),
    world st = w ->
    snd (collect_repo_paths P (before ++ root :: behind) repo_paths st)
    = Raise e.
Proof.
  intros Hbefore Hroot He.
  induction before as [| r before IH]; intros repo_paths st Hw; simpl.
  - unfold try_except, new_Repo, bind, ask. rewrite Hw, Hroot.
    cbv beta iota. by rewrite He.
  - unfold try_except, new_Repo, bind, ask, ret. rewrite Hw.
    destruct (query P w (Repo_init (uri_path r))) as [repo | e'] eqn:Hq.
    + apply IH; [intros; eapply Hbefore; [by right | done] | done].
    + rewrite (Hbefore r e' (or_introl eq_refl) Hq).
      apply IH; [intros; eapply Hbefore; [by right | done] | done].
Qed.

End ResolverFailures.

(** X22: one bad candidate spoils the discovery: when opening a reported
    root fails with an error other than [InvalidGitRepositoryError] (a
    directory that does not exist, for one), [list_repos] raises that error
    and returns neither the roots before it nor the static path. *)
Theorem list_repos_aborts_on_other_error
    (P : Platform) (repository : option string) (st : State P)
    (w1 : World P) (before : list Root) (root : Root) (behind : list Root)
    (e : exn) :
  query P (world st) Session_is_ServerSession = Ok true ->
  query P (world st) Session_check_roots_capability = Ok true ->
  exec P (world st) (environment st) Session_list_roots
  = (w1, Ok (before ++ root :: behind)) ->
  (forall r e',
     In r before -> query P w1 (Repo_init (uri_path r)) = Raise e' ->
     isinstance e' ["InvalidGitRepositoryError"] = true) ->
  query P w1 (Repo_init (uri_path root)) = Raise e ->
  isinstance e ["InvalidGitRepositoryError"] = false ->
  snd (list_repos P repository st) = Raise e.
Proof.
  intros Hsession Hcap Hexec Hbefore Hroot He.
  pose proof (collect_repo_paths_aborts P w1 before root behind e
                Hbefore Hroot He [] (after Session_list_roots w1 st) eq_refl)
    as Hrun.
  unfold list_repos, by_roots, bind, ask, ret.
  rewrite Hsession. simpl. rewrite Hcap. simpl.
  rewrite (call_eq _ _ _ _ _ Hexec).
  destruct (collect_repo_paths P _ _ _) as [st' [l | e']];
    simpl in Hrun; by inversion Hrun.
Qed.

Lemma list_repos_aborts_on_other_error_witness :
  let w := Toy.set_roots true
             (Ok [ {| uri_path := Some "/repo" |};
                   {| uri_path := Some "/gone" |};
                   {| uri_path := Some "/static" |} ]) Toy.w0 in
  snd (list_repos Toy.platform (Some "/static") (Toy.initial w))
  = Raise (NoSuchPathError "/gone").
Proof.
  intros w.
  apply (list_repos_aborts_on_other_error Toy.platform (Some "/static")
           (Toy.initial w) w [ {| uri_path := Some "/repo" |} ]
           {| uri_path := Some "/gone" |} [ {| uri_path := Some "/static" |} ]);
    try reflexivity.
  intros r e' [<- | []]. discriminate.
Defined.

(** X23: [list_repos] needs a [ServerSession]: with any other session it
    raises [TypeError] before asking for capabilities or roots, and the
    static path is not returned either. *)
Theorem list_repos_needs_server_session
    (P : Platform) (repository : option string) (st : State P) :
  query P (world st) Session_is_ServerSession = Ok false ->
  list_repos P repository st
  = (st, Raise (TypeError
                  "server.request_context.session must be a ServerSession")).
Proof.
  intros Hsession. unfold list_repos, by_roots, bind, ask, raise.
  by rewrite Hsession.
Qed.

Lemma list_repos_needs_server_session_witness :
  let s := {| Scenario.on_git := fun _ _ => None;
              Scenario.on_config := None;
              Scenario.on_delete_remote := None;
              Scenario.on_create_head := None;
              Scenario.on_remote := None;
              Scenario.on_session := false;
              Scenario.decodes := true |} in
  list_repos (Scenario.platform s) (Some "/static") (Scenario.initial s Toy.w0)
  = (Scenario.initial s Toy.w0,
     Raise (TypeError
              "server.request_context.session must be a ServerSession")).
Proof.
  intros s.
  apply (list_repos_needs_server_session (Scenario.platform s)
           (Some "/static") (Scenario.initial s Toy.w0)).
  reflexivity.
Defined.

(** ** Showing a commit whose diff is not text *)

Section ShowFailures.

Context (P : Platform).

Lemma decode_if_bytes_refused (x : pyval) (st : State P) :
  decoded P x = None ->
  exists msg, decode_if_bytes P x st = (st, Raise (UnicodeDecodeError msg)).
Proof.
  unfold decoded, decode_if_bytes, raise.
  destruct x; try discriminate.
  destruct (utf8_decode P b); [discriminate |]. by eexists.
Qed.

Lemma all_str_app_None (l1 l2 : list pyval) :
  all_str l1 = None \/ all_str l2 = None -> all_str (l1 ++ l2) = None.
Proof.
  induction l1 as [| v l1 IH]; simpl.
  - by intros [H | H].
  - intros H. destruct v; try done.
    destruct (all_str l1) as [s1 |] eqn:H1.
    + destruct H as [H | H]; [discriminate |]. by rewrite IH; [| right].
    + by rewrite IH; [| left].
Qed.

(** The loop either stops at an entry that does not decode, or collects an
    output that cannot be joined when some patch is not text. *)
Lemma show_entries_cases (diff_index : list Diff) :
  forall (output : list pyval) (st : State P),
    (exists msg,
       show_entries P diff_index output st
       = (st, Raise (UnicodeDecodeError msg))) \/
    (exists output',
       show_entries P diff_index output st = (st, Ok output') /\
       (entry_texts P diff_index = None \/ all_str output = None ->
        all_str output' = None)).
Proof.
  induction diff_index as [| d rest IH]; intros output st.
  - right. exists output. split; [done |]. by intros [H | H].
  - simpl. unfold entry_text.
    destruct (decoded P (a_path d)) as [a |] eqn:Ha.
    2: { left. destruct (decode_if_bytes_refused _ st Ha) as [msg H].
         exists msg. by apply bind_Raise. }
    rewrite (bind_Ok _ _ _ _ _ (decode_if_bytes_decoded P _ _ st Ha)).
    destruct (decoded P (b_path d)) as [b |] eqn:Hb.
    2: { left. destruct (decode_if_bytes_refused _ st Hb) as [msg H].
         exists msg. by apply bind_Raise. }
    rewrite (bind_Ok _ _ _ _ _ (decode_if_bytes_decoded P _ _ st Hb)).
    destruct (decoded P (diff d)) as [c |] eqn:Hc.
    2: { left. destruct (decode_if_bytes_refused _ st Hc) as [msg H].
         exists msg. by apply bind_Raise. }
    rewrite (bind_Ok _ _ _ _ _ (decode_if_bytes_decoded P _ _ st Hc)).
    set (header := VStr (nl +:+ "--- " +:+ py_str P a +:+ nl +:+
                         "+++ " +:+ py_str P b +:+ nl)).
    destruct (IH (output ++ [header; c]) st)
      as [Hraise | (output' & Hrun & Hnone)]; [by left |].
    right. exists output'. split; [done |].
    intros [Htexts | Hout]; apply Hnone.
    + destruct c; try (right; apply all_str_app_None; by right).
      left. by destruct (entry_texts P rest).
    + right. apply all_str_app_None. by left.
Qed.

End ShowFailures.

(** X24: [git_show] returns only when every entry of the diff yields text.
    When a path or a patch arrives as bytes that do not decode, or a patch
    is neither [str] nor [bytes], the call raises [UnicodeDecodeError] or
    [TypeError]; nothing is returned for the entries that were fine. *)
Theorem show_needs_text
    (P : Platform) (repo : Repo) (revision : pyval) (st : State P)
    (commit : Commit) (diff_index : list Diff) :
  query P (world st) (Repo_commit repo revision) = Ok commit ->
  query P (world st)
    match parents commit with
    | parent :: _ => Commit_diff parent (OtherCommit commit)
    | [] => Commit_diff commit NULL_TREE
    end = Ok diff_index ->
  entry_texts P diff_index = None ->
  exists e,
    git_show P repo revision st = (st, Raise e) /\
    isinstance e ["UnicodeDecodeError"; "TypeError"] = true.
Proof.
  intros Hcommit Hdiff Htexts. unfold git_show.
  rewrite (bind_Ok _ _ _ _ _ (eq_trans (ask_eq _ _)
                                (f_equal (pair st) Hcommit))).
  assert (Hask : match parents commit with
                 | parent :: _ => ask (Commit_diff parent (OtherCommit commit))
                 | [] => ask (Commit_diff commit NULL_TREE)
                 end st = (st, Ok diff_index)).
  { destruct (parents commit); by rewrite ask_eq, Hdiff. }
  rewrite (bind_Ok _ _ _ _ _ Hask).
  destruct (show_entries_cases P diff_index [VStr (commit_header commit)] st)
    as [[msg Hrun] | (output' & Hrun & Hnone)].
  - exists (UnicodeDecodeError msg). by rewrite (bind_Raise _ _ _ _ _ Hrun).
  - rewrite (bind_Ok _ _ _ _ _ Hrun). unfold lift, join_values.
    rewrite Hnone by (by left). by eexists.
Qed.

Lemma show_needs_text_witness :
  let s := {| Scenario.on_git := fun _ _ => None;
              Scenario.on_config := None;
              Scenario.on_delete_remote := None;
              Scenario.on_create_head := None;
              Scenario.on_remote := None;
              Scenario.on_session := true;
              Scenario.decodes := false |} in
  exists e,
    git_show (Scenario.platform s) Toy.repo (VStr "1111111")
      (Scenario.initial s Toy.w0)
    = (Scenario.initial s Toy.w0, Raise e) /\
    isinstance e ["UnicodeDecodeError"; "TypeError"] = true.
Proof.
  intros s.
  apply (show_needs_text (Scenario.platform s) Toy.repo (VStr "1111111")
           (Scenario.initial s Toy.w0) Toy.root_commit [Toy.added_file]);
    reflexivity.
Defined.

(** ** Tools that are a single command *)

(** Use a subscripted argument that is known to be present. *)
Ltac have_argument Hargs :=
  match goal with
  | |- context [_ !! ?k] =>
      let v := fresh "v" in
      let Hv := fresh "Hv" in
      destruct (Hargs k) as [v Hv]; [simpl; auto 10 | rewrite Hv]
  end.

Ltac unfold_single :=
  unfold operation, getitem, git_status, git_diff_unstaged, git_diff_staged,
    git_diff, git_commit, git_add, git_reset, git_checkout, git_stash,
    git_stash_pop, git_delete_branch, git_add_remote.

(** X25: twelve tools (status, the three diffs, commit, add, reset,
    checkout, stash, stash-pop, delete-branch, add-remote) hide nothing.
    Each runs one command of the toolchain, and when that command fails,
    the error that it raised is the error of the tool, with its class and
    text, never a translated one. *)
Theorem single_command_tools_pass_errors
    (P : Platform) (GIT_USERNAME GIT_TOKEN : pyval)
    (t : GitTools) (repo : Repo) (arguments : gmap string pyval)
    (st : State P) :
  single_command t = true ->
  (forall key, In (Subscript key) (tail (handler_arguments t)) ->
               is_Some (arguments !! key)) ->
  exists X (c : Cmd X),
    trace (fst (operation P GIT_USERNAME GIT_TOKEN t repo arguments st))
    = trace st ++ [Ev (environment st) c] /\
    forall w e,
      exec P (world st) (environment st) c = (w, Raise e) ->
      operation P GIT_USERNAME GIT_TOKEN t repo arguments st
      = (after c w st, Raise e).
Proof.
  intros Hsingle Hargs.
  destruct t; try discriminate Hsingle; unfold_single;
    repeat have_argument Hargs;
    unfold bind, ret, call; cbv beta iota;
    repeat match goal with
           | |- context [if ?b then _ else _] => destruct b
           end;
    match goal with
    | |- context [exec P ?w ?env ?c] =>
        exists _, c; split;
        [ destruct (exec P w env c) as [w' [v' | e']]; try reflexivity;
          match goal with
          | |- context [decode_if_bytes P ?x ?s] =>
              destruct (decode_if_bytes P x s) as [s' [y | e']] eqn:Hd;
              apply decode_if_bytes_state in Hd; by subst s'
          end
        | intros w1 e1 Hexec; by rewrite Hexec ]
    end.
Qed.

Lemma single_command_tools_pass_errors_witness :
  let unknown :=
    GitCommandError
      "error: pathspec 'nope' did not match any file(s) known to git" in
  let s := {| Scenario.on_git := fun command _ =>
                if String.eqb command "checkout" then Some (Raise unknown)
                else None;
              Scenario.on_config := None;
              Scenario.on_delete_remote := None;
              Scenario.on_create_head := None;
              Scenario.on_remote := None;
              Scenario.on_session := true;
              Scenario.decodes := true |} in
  let arguments : gmap string pyval :=
    {[ "repo_path" := VStr "/repo"; "branch_name" := VStr "nope" ]} in
  (exists X (c : Cmd X),
     trace (fst (operation (Scenario.platform s) VNone VNone CHECKOUT Toy.repo
                   arguments (Scenario.initial s Toy.w0)))
     = [] ++ [Ev ∅ c] /\
     forall w e,
       exec (Scenario.platform s) Toy.w0 ∅ c = (w, Raise e) ->
       operation (Scenario.platform s) VNone VNone CHECKOUT Toy.repo
         arguments (Scenario.initial s Toy.w0)
       = (after c w (Scenario.initial s Toy.w0), Raise e)) /\
  snd (operation (Scenario.platform s) VNone VNone CHECKOUT Toy.repo
         arguments (Scenario.initial s Toy.w0))
  = Raise unknown.
Proof.
  intros unknown s arguments. split; [| reflexivity].
  apply (single_command_tools_pass_errors (Scenario.platform s) VNone VNone
           CHECKOUT Toy.repo arguments (Scenario.initial s Toy.w0));
    [reflexivity |].
  intros key [[= <-] | []]. by eexists.
Defined.

(** X26: each of these twelve tools runs exactly one command of the
    toolchain, whether that command succeeds or fails. *)
Theorem single_command_tools_run_one_command
    (P : Platform) (GIT_USERNAME GIT_TOKEN : pyval)
    (t : GitTools) (repo : Repo) (arguments : gmap string pyval)
    (st : State P) :
  single_command t = true ->
  (forall key, In (Subscript key) (tail (handler_arguments t)) ->
               is_Some (arguments !! key)) ->
  exists X (c : Cmd X),
    trace (fst (operation P GIT_USERNAME GIT_TOKEN t repo arguments st))
    = trace st ++ [Ev (environment st) c].
Proof.
  intros Hsingle Hargs.
  destruct t; try discriminate Hsingle; unfold_single;
    repeat have_argument Hargs;
    unfold bind, ret, call; cbv beta iota;
    repeat match goal with
           | |- context [if ?b then _ else _] => destruct b
           end;
    match goal with
    | |- context [exec P ?w ?env ?c] =>
        exists _, c; destruct (exec P w env c) as [w' [v' | e']]
    end;
    try reflexivity;
    match goal with
    | |- context [decode_if_bytes P ?x ?s] =>
        destruct (decode_if_bytes P x s) as [s' [y | e']] eqn:Hd;
        apply decode_if_bytes_state in Hd; by subst s'
    end.
Qed.

Lemma single_command_tools_run_one_command_witness :
  exists X (c : Cmd X),
    trace (fst (operation Toy.platform VNone VNone CHECKOUT Toy.repo
                  {[ "repo_path" := VStr "/repo";
                     "branch_name" := VStr "feature" ]}
                  (Toy.initial Toy.w0)))
    = [] ++ [Ev ∅ c].
Proof.
  apply (single_command_tools_run_one_command Toy.platform VNone VNone
           CHECKOUT Toy.repo _ (Toy.initial Toy.w0)); [reflexivity |].
  intros key [[= <-] | []]. by eexists.
Defined.
